(** * Wanderlust Travel front end: session gating, API client and view handlers

    A shallow embedding of the client-side logic of the hotel booking
    single-page application: the two route guards, the axios instance with
    its interceptors, and the event handlers of the Login, Home, UserCenter,
    OperatorDashboard and HotelDetail pages.

    Conventions of the embedding:
    - a JavaScript string is a [string]; [===] on strings and on integral
      numbers is Leibniz equality, decided with [decide];
    - identifiers, counts and prices are JavaScript numbers that the client
      only stores, compares and prints: they are integers here ([Z]);
    - [null]/[undefined] is [None];
    - a React state variable is a field of the page's state record and its
      setter replaces that field; a handler closes over the values of the
      render in which it was created;
    - an awaited call either resolves with a response or rejects with an
      error; the remote server is a function from the request that reaches
      it to that outcome, and every request that is sent is logged. *)

From Stdlib Require Import ZArith.
From stdpp Require Import base decidable option list strings pretty gmap.

Local Open Scope Z_scope.
Local Open Scope string_scope.
Local Open Scope list_scope.

(** ** JavaScript truthiness of the values the client tests *)

Module Js.

(** [Boolean(s)] for a string: only the empty string is falsy. *)
Definition truthy_string (s : string) : bool :=
  if decide (s = "") then false else true.

(** [Boolean(x)] for [x : string | null | undefined]. *)
Definition truthy (x : option string) : bool :=
  match x with
  | Some s => truthy_string s
  | None => false
  end.

(** [x || fallback] for [x : string | undefined]. *)
Definition or_else (x : option string) (fallback : string) : string :=
  match x with
  | Some s => if truthy_string s then s else fallback
  | None => fallback
  end.

End Js.

(** ** contexts/AuthContext *)

Module AuthContext.

(** Modelled from the spec: the module [contexts/AuthContext] ([useAuth],
    [AuthProvider]) is not among the sources.  The pages read [user.id],
    [user.email] and [user.role] from it and the guards read [loading];
    the spec's session is { userId, email, role, token }.  The role is the
    string the server sent: the pages compare it with ['operator'] only. *)
Record User := mkUser {
  id : Z;
  email : string;
  role : string;
}.

(** What [useAuth()] hands to a component on one render. *)
Record Auth := mkAuth {
  user : option User;
  loading : bool;
}.

(** Modelled from the spec: the session store proper (the user, and the
    token persisted in [localStorage] under the key the API client reads). *)
Record Store := mkStore {
  session : option User;
  localStorage : gmap string string;
}.

(** Modelled from the spec: [login(identity, token)] replaces the current
    session and persists the token for reload survival. *)
Definition login (u : User) (token : string) (s : Store) : Store :=
  {| session := Some u; localStorage := <["token" := token]> (localStorage s) |}.

End AuthContext.

(** ** utils/api: the axios instance and its two interceptors *)

Module Api.
Import AuthContext.

Inductive Method := GET | POST | PUT | DELETE.

(** A field of a JSON request body. *)
Inductive Value :=
| Str (s : string)
| Num (n : Z)
| Undefined.

(** The request configuration an interceptor receives.  [headers] is
    [None] when the caller's configuration has no [headers] object. *)
Record Config := mkConfig {
  method : Method;
  url : string;
  headers : option (gmap string string);
  data : option (list (string * Value));
}.

(** [AxiosResponse<T>]: the client reads nothing but [data]. *)
Record Response (D : Type) := mkResponse { body : D }.
Arguments mkResponse {D} body.
Arguments body {D} r.

(** The error of a failed call.  [response] is absent when no answer
    arrived; [message] is [error.response?.data?.message]. *)
Record ErrorResponse := mkErrorResponse {
  status : Z;
  message : option string;
}.

Record AxiosError := mkAxiosError {
  code : string;
  response : option ErrorResponse;
}.

(** [error.response?.data?.message] *)
Definition response_message (e : AxiosError) : option string :=
  match response e with
  | Some r => message r
  | None => None
  end.

(** A settled promise. *)
Inductive Settled (A : Type) :=
| Rejected (reason : AxiosError)
| Fulfilled (value : A).
Arguments Rejected {A} reason.
Arguments Fulfilled {A} value.

(** [localStorage.getItem(key)] *)
Definition getItem (storage : gmap string string) (key : string) : option string :=
  storage !! key.

(** The request interceptor:
    [const token = localStorage.getItem('token');
     if (token) { config.headers = config.headers || {};
                  config.headers['Authorization'] = `Bearer ${token}`; }
     return config;] *)
Definition onRequest (storage : gmap string string) (config : Config) : Config :=
  let token := getItem storage "token" in
  match token with
  | Some t =>
      if Js.truthy_string t then
        {| method := method config;
           url := url config;
           headers := Some (<["Authorization" := "Bearer " +:+ t]> (default ∅ (headers config)));
           data := data config |}
      else config
  | None => config
  end.

(** [config.headers?.[name]] *)
Definition header (name : string) (config : Config) : option string :=
  default ∅ (headers config) !! name.

(** The response interceptor: [(response) => response] and
    [(error) => Promise.reject(error)]. *)
Definition onFulfilled {D} (response : Response D) : Settled (Response D) :=
  Fulfilled response.

Definition onRejected {D} (error : AxiosError) : Settled (Response D) :=
  Rejected error.

(** The remote server, as the client sees it: the outcome of the request
    that reaches it. *)
Definition Server (D : Type) := Config → Settled (Response D).

(** The server answers the request with a response. *)
Definition accepts {D} (srv : Server D) (config : Config) : Prop :=
  ∃ response, srv config = Fulfilled response.

(** *** Handlers as computations

    A handler runs against a server and a world: the state of the page it
    belongs to, the session store, the log of the requests sent so far and
    the router's navigation log.  It ends by returning or by throwing. *)
Section Effects.
Context {D S : Type}.

Record World := mkWorld {
  page : S;
  store : Store;
  sent : list Config;
  navigations : list string;
}.

Definition M (A : Type) : Type := Server D → World → Settled A * World.

Definition ret {A} (a : A) : M A := fun _ w => (Fulfilled a, w).

Definition throw {A} (e : AxiosError) : M A := fun _ w => (Rejected e, w).

Definition bind {A B} (m : M A) (k : A → M B) : M B := fun srv w =>
  match m srv w with
  | (Fulfilled a, w') => k a srv w'
  | (Rejected e, w') => (Rejected e, w')
  end.

(** [try { body } catch (error) { handler }] *)
Definition try_catch {A} (body : M A) (handler : AxiosError → M A) : M A :=
  fun srv w =>
    match body srv w with
    | (Fulfilled a, w') => (Fulfilled a, w')
    | (Rejected e, w') => handler e srv w'
    end.

(** A state setter of the page: [setX(v)]. *)
Definition set_state (f : S → S) : M unit := fun _ w =>
  (Fulfilled tt,
   {| page := f (page w); store := store w; sent := sent w;
      navigations := navigations w |}).

(** [navigate(to)] from [useNavigate()]. *)
Definition navigate (to : string) : M unit := fun _ w =>
  (Fulfilled tt,
   {| page := page w; store := store w; sent := sent w;
      navigations := navigations w ++ [to] |}).

(** [login(user, token)] from [useAuth()]. *)
Definition auth_login (u : User) (token : string) : M unit := fun _ w =>
  (Fulfilled tt,
   {| page := page w; store := login u token (store w); sent := sent w;
      navigations := navigations w |}).

(** A configuration as it leaves the client: after the request
    interceptor, which reads the storage of the moment. *)
Definition outgoing (w : World) (config : Config) : Config :=
  onRequest (localStorage (store w)) config.

(** The world after a call: the request that left is logged. *)
Definition logged (w : World) (config : Config) : World :=
  {| page := page w; store := store w;
     sent := sent w ++ [outgoing w config];
     navigations := navigations w |}.

(** [await api.request(config)]: the request interceptor, the call
    itself, then the response interceptor on its outcome. *)
Definition request (config : Config) : M (Response D) := fun srv w =>
  match srv (outgoing w config) with
  | Fulfilled response => (onFulfilled response, logged w config)
  | Rejected error => (onRejected error, logged w config)
  end.

Definition get (u : string) : M (Response D) :=
  request {| method := GET; url := u; headers := None; data := None |}.

Definition post (u : string) (d : option (list (string * Value))) : M (Response D) :=
  request {| method := POST; url := u; headers := None; data := d |}.

Definition delete (u : string) : M (Response D) :=
  request {| method := DELETE; url := u; headers := None; data := None |}.

End Effects.

Arguments World : clear implicits.
Arguments M : clear implicits.

Module Notations.
Notation "'let*' x ':=' m 'in' k" := (bind m (fun x => k))
  (at level 10, x pattern, m at level 100, k at level 200, only parsing).
End Notations.

End Api.

(** ** components/ProtectedRoute.tsx *)

Module ProtectedRoute.
Import AuthContext.

(** [requiredRole?: 'operator' | 'user'] *)
Inductive RequiredRole := Operator | RoleUser.

Definition literal (r : RequiredRole) : string :=
  match r with
  | Operator => "operator"
  | RoleUser => "user"
  end.

(** What a guard returns: the centred [CircularProgress], a
    [<Navigate to=... replace />], or the fragment of its children. *)
Inductive Element (C : Type) :=
| Progress
| Navigate (to : string) (replace : bool)
| Children (children : C).
Arguments Progress {C}.
Arguments Navigate {C} to replace.
Arguments Children {C} children.

Definition ProtectedRoute {C} (auth : Auth) (children : C)
    (requiredRole : option RequiredRole) : Element C :=
  if loading auth then Progress
  else
    match user auth with
    | None => Navigate "/login" true
    | Some u =>
        match requiredRole with
        | Some r =>
            if decide (role u ≠ literal r) then
              match r with
              | Operator => Navigate "/" true
              | RoleUser => Navigate "/" true
              end
            else Children children
        | None => Children children
        end
    end.

Definition PublicRoute {C} (auth : Auth) (children : C) : Element C :=
  if loading auth then Progress
  else
    match user auth with
    | Some u =>
        Navigate (if decide (role u = "operator") then "/operator" else "/") true
    | None => Children children
    end.

End ProtectedRoute.

(** ** App.tsx: the route table *)

Module App.
Import AuthContext ProtectedRoute.

Inductive Page := Home | Login | Register | OperatorDashboard | UserCenter | HotelDetail.

(** The [element] of each [<Route>], for the pages with a fixed path. *)
Definition route (path : string) (auth : Auth) : option (Element Page) :=
  if decide (path = "/") then Some (Children Home)
  else if decide (path = "/login") then Some (PublicRoute auth Login)
  else if decide (path = "/register") then Some (PublicRoute auth Register)
  else if decide (path = "/operator") then
    Some (ProtectedRoute auth OperatorDashboard (Some Operator))
  else if decide (path = "/user") then Some (ProtectedRoute auth UserCenter None)
  else None.

End App.

(** ** The Material UI elements the pages render *)

Module Mui.

Inductive Severity := success | error.

(** The [snackbar] state every page keeps. *)
Record Snackbar := mkSnackbar {
  open : bool;
  message : string;
  severity : Severity;
}.

(** A [Button] or [IconButton] with the handler invocation bound to
    [onClick]; [onClick] is [None] when the prop is [undefined].  [title]
    is the [title] prop of an icon button and the text of a button. *)
Record Button (H : Type) := mkButton {
  title : string;
  onClick : option H;
  disabled : bool;
}.
Arguments mkButton {H} title onClick disabled.
Arguments title {H} b.
Arguments onClick {H} b.
Arguments disabled {H} b.

(** A press on a rendered button: a disabled button is rendered as a
    disabled [<button>], which dispatches no click; otherwise the bound
    handler, if any, is invoked. *)
Definition press {H} (b : Button H) : option H :=
  if disabled b then None else onClick b.

(** The handler invocations a visitor can trigger on a list of rendered
    buttons. *)
Definition offers {H} (buttons : list (Button H)) (h : H) : Prop :=
  ∃ b, b ∈ buttons ∧ press b = Some h.

End Mui.

(** ** pages/Login.tsx *)

Module Login.
Import AuthContext Api Api.Notations.

(** [const [error, setError] = useState('')] *)
Record State := mkState { error : string }.

Record Values := mkValues {
  email : string;
  password : string;
}.

(** [res.data] of [POST /auth/login]: [{ token, user }]. *)
Record Data := mkData {
  token : string;
  user : User;
}.

(** The configuration of the call of the form, before the interceptor. *)
Definition login_call (values : Values) : Config :=
  {| method := POST; url := "/auth/login"; headers := None;
     data := Some [("email", Str (email values));
                   ("password", Str (password values))] |}.

Definition setError (e : string) : M Data State unit :=
  set_state (fun _ => {| error := e |}).

Definition onSubmit (values : Values) : M Data State unit :=
  let* _ := setError "" in
  try_catch
    (let* res := post "/auth/login"
                   (Some [("email", Str (email values));
                          ("password", Str (password values))]) in
     let token := token (body res) in
     let user := user (body res) in
     let* _ := auth_login user token in
     navigate (if decide (role user = "operator") then "/operator" else "/"))
    (fun err =>
       setError (Js.or_else (response_message err)
                   "Login failed, incorrect username or password")).

End Login.

(** ** pages/Home.tsx *)

Module Home.
Import AuthContext Api Api.Notations Mui.

(** The state the favourites toggle reads and writes:
    [const [favorites, setFavorites] = useState<number[]>([])] and the
    snackbar. *)
Record State := mkState {
  favorites : list Z;
  snackbar : Snackbar;
}.

(** The bodies of the answers are not read by the toggle. *)
Definition Data := unit.

Definition setFavorites (f : list Z) : M Data State unit :=
  set_state (fun s => {| favorites := f; snackbar := snackbar s |}).

Definition setSnackbar (sb : Snackbar) : M Data State unit :=
  set_state (fun s => {| favorites := favorites s; snackbar := sb |}).

(** [handleToggleFavorite], with the [user] and the [favorites] of the
    render that created it. *)
Definition handleToggleFavorite (user : option User) (favorites : list Z)
    (hotelId : Z) : M Data State unit :=
  match user with
  | None =>
      setSnackbar {| open := true; message := "Please login first"; severity := error |}
  | Some _ =>
      try_catch
        (if decide (hotelId ∈ favorites) then
           let* _ := delete ("/favorites/" +:+ pretty hotelId) in
           let* _ := setFavorites (filter (λ id, id ≠ hotelId) favorites) in
           setSnackbar {| open := true; message := "Removed from favorites";
                          severity := success |}
         else
           let* _ := post "/favorites" (Some [("hotelId", Num hotelId)]) in
           let* _ := setFavorites (favorites ++ [hotelId]) in
           setSnackbar {| open := true; message := "Added to favorites";
                          severity := success |})
        (fun err =>
           setSnackbar {| open := true;
                          message := Js.or_else (response_message err) "Operation failed";
                          severity := error |})
  end.

(** The configurations of the two calls of the toggle, before the
    interceptor, and the one a toggle makes for given favourites. *)
Definition remove_call (hotelId : Z) : Config :=
  {| method := DELETE; url := "/favorites/" +:+ pretty hotelId;
     headers := None; data := None |}.

Definition add_call (hotelId : Z) : Config :=
  {| method := POST; url := "/favorites"; headers := None;
     data := Some [("hotelId", Num hotelId)] |}.

Definition toggle_call (favorites : list Z) (hotelId : Z) : Config :=
  if decide (hotelId ∈ favorites) then remove_call hotelId else add_call hotelId.

(** A press on the heart of a hotel card: the handler of the latest
    render runs. *)
Definition toggle (hotelId : Z) : M Data State unit := fun srv w =>
  handleToggleFavorite (session (store w)) (favorites (page w)) hotelId srv w.

End Home.

(** ** pages/UserCenter.tsx *)

Module UserCenter.
Import Api Api.Notations Mui.

(** [interface Booking] of the user's booking records. *)
Record Booking := mkBooking {
  id : Z;
  hotelName : string;
  hotelAddress : string;
  checkInDate : string;
  checkOutDate : string;
  guestCount : Z;
  totalPrice : Z;
  status : string;
  specialRequests : option string;
  createdAt : string;
}.

(** [{ ...booking, status: s }] *)
Definition with_status (booking : Booking) (s : string) : Booking :=
  {| id := id booking;
     hotelName := hotelName booking;
     hotelAddress := hotelAddress booking;
     checkInDate := checkInDate booking;
     checkOutDate := checkOutDate booking;
     guestCount := guestCount booking;
     totalPrice := totalPrice booking;
     status := s;
     specialRequests := specialRequests booking;
     createdAt := createdAt booking |}.

(** The state the booking tab reads and writes. *)
Record State := mkState {
  bookings : list Booking;
  snackbar : Snackbar;
}.

(** The body of the answer to a cancel call is not read. *)
Definition Data := unit.

Definition setBookings (b : list Booking) : M Data State unit :=
  set_state (fun s => {| bookings := b; snackbar := snackbar s |}).

Definition setSnackbar (sb : Snackbar) : M Data State unit :=
  set_state (fun s => {| bookings := bookings s; snackbar := sb |}).

(** [handleCancelBooking], with the [bookings] of the render that
    created it. *)
Definition handleCancelBooking (bookings : list Booking) (bookingId : Z)
    : M Data State unit :=
  try_catch
    (let* _ := post ("/bookings/" +:+ pretty bookingId +:+ "/cancel") None in
     let* _ := setBookings
                 (map (λ booking,
                         if decide (id booking = bookingId)
                         then with_status booking "cancelled"
                         else booking)
                      bookings) in
     setSnackbar {| open := true; message := "Booking cancelled"; severity := success |})
    (fun err =>
       setSnackbar {| open := true;
                      message := Js.or_else (response_message err) "Cancel failed";
                      severity := error |}).

(** The configuration of the cancel call, before the interceptor. *)
Definition cancel_call (bookingId : Z) : Config :=
  {| method := POST; url := "/bookings/" +:+ pretty bookingId +:+ "/cancel";
     headers := None; data := None |}.

(** The handler invocations the booking list binds to its buttons. *)
Inductive Handler := HandleCancelBooking (bookingId : Z).

(** The buttons of one booking card:
    [booking.status === 'pending' && <IconButton ... title="Cancel Booking">]. *)
Definition booking_buttons (booking : Booking) : list (Button Handler) :=
  if decide (status booking = "pending") then
    [ {| title := "Cancel Booking";
         onClick := Some (HandleCancelBooking (id booking));
         disabled := false |} ]
  else [].

(** Running a handler invocation of the latest render. *)
Definition run (h : Handler) : M Data State unit := fun srv w =>
  match h with
  | HandleCancelBooking bookingId =>
      handleCancelBooking (bookings (page w)) bookingId srv w
  end.

End UserCenter.

(** ** pages/OperatorDashboard.tsx *)

Module OperatorDashboard.
Import AuthContext Api Api.Notations Mui.

(** [interface Hotel]; its [id] is [hotel_id] here, [id] being the field
    of [Booking] below. *)
Record Hotel := mkHotel {
  hotel_id : Z;
  name : string;
  address : string;
  description : option string;
  price : Z;
  availableRooms : Z;
  operatorId : Z;
}.

(** [interface Booking] of the operator's booking records. *)
Record Booking := mkBooking {
  id : Z;
  hotelName : string;
  hotelAddress : string;
  userEmail : string;
  checkInDate : string;
  checkOutDate : string;
  guestCount : Z;
  totalPrice : Z;
  status : string;
  specialRequests : option string;
  createdAt : string;
}.

(** The state the booking tab reads and writes. *)
Record State := mkState {
  bookings : list Booking;
  snackbar : Snackbar;
}.

(** [response.data] of the calls of the booking tab: the booking list of
    [GET /bookings/operator], or a body the page does not read. *)
Inductive Data :=
| BookingList (l : list Booking)
| Unread.

(** [response.data] read at the declared type [Booking[]]; a body of
    another shape is outside that type and is read as no bookings. *)
Definition as_bookings (d : Data) : list Booking :=
  match d with
  | BookingList l => l
  | Unread => []
  end.

Definition setBookings (b : list Booking) : M Data State unit :=
  set_state (fun s => {| bookings := b; snackbar := snackbar s |}).

Definition setSnackbar (sb : Snackbar) : M Data State unit :=
  set_state (fun s => {| bookings := bookings s; snackbar := sb |}).

(** [fetchBookings]: a failure is only written to the console. *)
Definition fetchBookings : M Data State unit :=
  try_catch
    (let* response := get "/bookings/operator" in
     setBookings (as_bookings (body response)))
    (fun _ => ret tt).

Definition handleConfirmBooking (bookingId : Z) : M Data State unit :=
  try_catch
    (let* _ := post ("/bookings/" +:+ pretty bookingId +:+ "/confirm") None in
     let* _ := setSnackbar {| open := true; message := "Booking confirmed";
                              severity := success |} in
     fetchBookings)
    (fun err =>
       setSnackbar {| open := true;
                      message := Js.or_else (response_message err) "Confirm failed";
                      severity := error |}).

Definition handleCompleteBooking (bookingId : Z) : M Data State unit :=
  try_catch
    (let* _ := post ("/bookings/" +:+ pretty bookingId +:+ "/complete") None in
     let* _ := setSnackbar {| open := true; message := "Booking completed";
                              severity := success |} in
     fetchBookings)
    (fun err =>
       setSnackbar {| open := true;
                      message := Js.or_else (response_message err) "Complete failed";
                      severity := error |}).

(** The configurations of the calls of the booking tab, before the
    interceptor. *)
Definition confirm_call (bookingId : Z) : Config :=
  {| method := POST; url := "/bookings/" +:+ pretty bookingId +:+ "/confirm";
     headers := None; data := None |}.

Definition complete_call (bookingId : Z) : Config :=
  {| method := POST; url := "/bookings/" +:+ pretty bookingId +:+ "/complete";
     headers := None; data := None |}.

Definition bookings_call : Config :=
  {| method := GET; url := "/bookings/operator"; headers := None; data := None |}.

(** The handler invocations the dashboard binds to its buttons. *)
Inductive Handler :=
| HandleOpenDialog (hotel : option Hotel)
| HandleDeleteHotel (hotelId : Z)
| HandleConfirmBooking (bookingId : Z)
| HandleCompleteBooking (bookingId : Z).

(** [user && hotel.operatorId === user.id] *)
Definition mine (user : option User) (hotel : Hotel) : bool :=
  match user with
  | Some u => bool_decide (operatorId hotel = AuthContext.id u)
  | None => false
  end.

(** The two icon buttons of a hotel card. *)
Definition edit_button (user : option User) (hotel : Hotel) : Button Handler :=
  {| title := if mine user hotel then "Edit Hotel" else "You cannot edit this hotel";
     onClick := if mine user hotel then Some (HandleOpenDialog (Some hotel)) else None;
     disabled := negb (mine user hotel) |}.

Definition delete_button (user : option User) (hotel : Hotel) : Button Handler :=
  {| title := if mine user hotel then "Delete Hotel" else "You cannot delete this hotel";
     onClick := Some (HandleDeleteHotel (hotel_id hotel));
     disabled := negb (mine user hotel) |}.

Definition hotel_buttons (user : option User) (hotel : Hotel) : list (Button Handler) :=
  [edit_button user hotel; delete_button user hotel].

(** The buttons of one booking card: confirm for a pending booking,
    complete for a confirmed one. *)
Definition booking_buttons (booking : Booking) : list (Button Handler) :=
  (if decide (status booking = "pending") then
     [ {| title := "Confirm Booking";
          onClick := Some (HandleConfirmBooking (id booking));
          disabled := false |} ]
   else [])
  ++
  (if decide (status booking = "confirmed") then
     [ {| title := "Complete Booking";
          onClick := Some (HandleCompleteBooking (id booking));
          disabled := false |} ]
   else []).

End OperatorDashboard.

(** ** pages/HotelDetail.tsx *)

Module HotelDetail.
Import AuthContext Api Api.Notations Mui.

(** [interface Hotel] *)
Record Hotel := mkHotel {
  id : Z;
  name : string;
  address : string;
  description : option string;
  price : Z;
  availableRooms : Z;
  operatorId : Z;
}.

(** The values of the booking form. *)
Record Values := mkValues {
  checkInDate : string;
  checkOutDate : string;
  guestCount : Z;
  specialRequests : string;
}.

Definition initialValues : Values :=
  {| checkInDate := ""; checkOutDate := ""; guestCount := 1; specialRequests := "" |}.

(** The state variables of the page, and the values held by the form. *)
Record State := mkState {
  hotel : option Hotel;
  loading : bool;
  error : string;
  openBookingDialog : bool;
  snackbar : Snackbar;
  values : Values;
}.

(** [response.data] of the calls of the page: the acknowledgement of
    [POST /bookings] with its optional message, or the hotel of
    [GET /hotels/:id]. *)
Inductive Data :=
| Ack (message : option string)
| HotelData (h : Hotel).

(** [response.data.message] *)
Definition data_message (d : Data) : option string :=
  match d with
  | Ack m => m
  | HotelData _ => None
  end.

(** [hotelResponse.data] read at the declared type [Hotel | null]. *)
Definition as_hotel (d : Data) : option Hotel :=
  match d with
  | HotelData h => Some h
  | Ack _ => None
  end.

Definition setHotel (h : option Hotel) : M Data State unit :=
  set_state (fun s =>
    {| hotel := h; loading := loading s; error := error s;
       openBookingDialog := openBookingDialog s; snackbar := snackbar s;
       values := values s |}).

Definition setOpenBookingDialog (b : bool) : M Data State unit :=
  set_state (fun s =>
    {| hotel := hotel s; loading := loading s; error := error s;
       openBookingDialog := b; snackbar := snackbar s; values := values s |}).

Definition setSnackbar (sb : Snackbar) : M Data State unit :=
  set_state (fun s =>
    {| hotel := hotel s; loading := loading s; error := error s;
       openBookingDialog := openBookingDialog s; snackbar := sb;
       values := values s |}).

(** [bookingFormik.handleChange] and [bookingFormik.resetForm] *)
Definition setValues (v : Values) : M Data State unit :=
  set_state (fun s =>
    {| hotel := hotel s; loading := loading s; error := error s;
       openBookingDialog := openBookingDialog s; snackbar := snackbar s;
       values := v |}).

Definition resetForm : M Data State unit := setValues initialValues.

(** [handleBooking], with the [user] of the render that created it. *)
Definition handleBooking (user : option User) : M Data State unit :=
  match user with
  | None => navigate "/login"
  | Some _ => setOpenBookingDialog true
  end.

(** [onSubmit] of the booking form, with the route parameter [id] and the
    [hotel] of the render that created it. *)
Definition onSubmit (id_param : option string) (hotel : option Hotel)
    (values : Values) : M Data State unit :=
  try_catch
    (let* response :=
       post "/bookings"
         (Some [("hotelId", match hotel with Some h => Num (id h) | None => Undefined end);
                ("checkInDate", Str (checkInDate values));
                ("checkOutDate", Str (checkOutDate values));
                ("guestCount", Num (guestCount values));
                ("specialRequests", Str (specialRequests values))]) in
     let* _ := setSnackbar
                 {| open := true;
                    message := Js.or_else (data_message (body response))
                                 "Booking successful, we will contact you soon";
                    severity := success |} in
     let* _ := setOpenBookingDialog false in
     let* _ := resetForm in
     if Js.truthy id_param then
       let* hotelResponse := get ("/hotels/" +:+ default "" id_param) in
       setHotel (as_hotel (body hotelResponse))
     else ret tt)
    (fun err =>
       setSnackbar {| open := true;
                      message := Js.or_else (response_message err) "Booking failed";
                      severity := Mui.error |}).

(** The handler invocations the page binds to its elements. *)
Inductive Handler :=
| HandleBooking
| BackToList.

(** The "Book Now" button:
    [onClick={handleBooking} disabled={hotel.availableRooms === 0}]. *)
Definition book_button (hotel : Hotel) : Button Handler :=
  {| title := if decide (0 < availableRooms hotel) then "Book Now" else "No Rooms Available";
     onClick := Some HandleBooking;
     disabled := bool_decide (availableRooms hotel = 0) |}.

(** The "Back to List" button, and "Back to Home" of the error view:
    [onClick={() => navigate('/')}]. *)
Definition back_button (text : string) : Button Handler :=
  {| title := text; onClick := Some BackToList; disabled := false |}.

(** Running a handler invocation of the latest render. *)
Definition run (h : Handler) : M Data State unit := fun srv w =>
  match h with
  | HandleBooking => handleBooking (session (store w)) srv w
  | BackToList => navigate "/" srv w
  end.

(** A press on a rendered button. *)
Definition pressed (b : Button Handler) : M Data State unit :=
  match press b with
  | Some h => run h
  | None => ret tt
  end.

(** What a visitor can do on the page. *)
Inductive Event :=
| PressBook                     (* the "Book Now" button *)
| PressBack                     (* "Back to List" / "Back to Home" *)
| EditForm (v : Values)         (* typing in a field of the dialog *)
| SubmitForm                    (* "Submit Booking" *)
| CancelDialog                  (* the dialog's "Cancel", or its [onClose] *)
| CloseSnackbar.

Section Page.
(** The route parameter of the page and the verdict of the form's
    validation schema, which decides whether [onSubmit] is called. *)
Variable id_param : option string.
Variable valid : Values → bool.

(** The reaction of the latest render to an event.  While the page
    shows "Loading..." nothing can be pressed; the error view has the
    back button only; the dialog's form and buttons exist only while
    the dialog is open. *)
Definition dispatch (e : Event) : M Data State unit := fun srv w =>
  let s := page w in
  if loading s then ret tt srv w
  else
    match (if Js.truthy_string (error s) then None else hotel s) with
    | None =>
        match e with
        | PressBack => pressed (back_button "Back to Home") srv w
        | _ => ret tt srv w
        end
    | Some h =>
        match e with
        | PressBook => pressed (book_button h) srv w
        | PressBack => pressed (back_button "Back to List") srv w
        | EditForm v =>
            if openBookingDialog s then setValues v srv w else ret tt srv w
        | SubmitForm =>
            if openBookingDialog s then
              if valid (values s) then onSubmit id_param (hotel s) (values s) srv w
              else ret tt srv w
            else ret tt srv w
        | CancelDialog =>
            if openBookingDialog s then setOpenBookingDialog false srv w
            else ret tt srv w
        | CloseSnackbar =>
            setSnackbar {| open := false; message := message (snackbar s);
                           severity := severity (snackbar s) |} srv w
        end
    end.

End Page.

End HotelDetail.

(** ** Sample data *)

Module Samples.

Definition pending5 : UserCenter.Booking :=
  {| UserCenter.id := 5; UserCenter.hotelName := "Grand"; UserCenter.hotelAddress := "1 Main St";
     UserCenter.checkInDate := "2025-07-01"; UserCenter.checkOutDate := "2025-07-03";
     UserCenter.guestCount := 2; UserCenter.totalPrice := 400;
     UserCenter.status := "pending"; UserCenter.specialRequests := None;
     UserCenter.createdAt := "2025-06-01" |}.

Definition confirmed6 : UserCenter.Booking :=
  {| UserCenter.id := 6; UserCenter.hotelName := "Plaza"; UserCenter.hotelAddress := "2 High St";
     UserCenter.checkInDate := "2025-08-01"; UserCenter.checkOutDate := "2025-08-02";
     UserCenter.guestCount := 1; UserCenter.totalPrice := 150;
     UserCenter.status := "confirmed"; UserCenter.specialRequests := Some "Late arrival";
     UserCenter.createdAt := "2025-06-02" |}.

(** The booking tab of a user with two bookings. *)
Definition booking_tab : Api.World UserCenter.State :=
  {| Api.page := {| UserCenter.bookings := [pending5; confirmed6];
                    UserCenter.snackbar := Mui.mkSnackbar false "" Mui.success |};
     Api.store := {| AuthContext.session := Some (AuthContext.mkUser 1 "a@b.com" "user");
                     AuthContext.localStorage := {["token" := "t1"]} |};
     Api.sent := []; Api.navigations := [] |}.

(** The booking tab of an operator. *)
Definition operator_tab : Api.World OperatorDashboard.State :=
  {| Api.page := {| OperatorDashboard.bookings := [];
                    OperatorDashboard.snackbar := Mui.mkSnackbar false "" Mui.success |};
     Api.store := {| AuthContext.session := Some (AuthContext.mkUser 2 "o@b.com" "operator");
                     AuthContext.localStorage := {["token" := "t2"]} |};
     Api.sent := []; Api.navigations := [] |}.

(** A server that refuses every call with a message. *)
Definition refusing {D : Type} : Api.Server D :=
  λ _, Api.Rejected (Api.mkAxiosError "ERR_BAD_REQUEST"
                       (Some (Api.mkErrorResponse 400 (Some "Not allowed")))).

(** A hotel with no room left, owned by operator 2, and one with rooms. *)
Definition full_house : HotelDetail.Hotel :=
  {| HotelDetail.id := 9; HotelDetail.name := "Grand"; HotelDetail.address := "1 Main St";
     HotelDetail.description := None; HotelDetail.price := 200;
     HotelDetail.availableRooms := 0; HotelDetail.operatorId := 2 |}.

Definition vacancy : HotelDetail.Hotel :=
  {| HotelDetail.id := 10; HotelDetail.name := "Plaza"; HotelDetail.address := "2 High St";
     HotelDetail.description := None; HotelDetail.price := 150;
     HotelDetail.availableRooms := 4; HotelDetail.operatorId := 2 |}.

(** The detail page of a hotel, as a visitor without a session sees it. *)
Definition detail_page (h : HotelDetail.Hotel) : Api.World HotelDetail.State :=
  {| Api.page := {| HotelDetail.hotel := Some h; HotelDetail.loading := false;
                    HotelDetail.error := ""; HotelDetail.openBookingDialog := false;
                    HotelDetail.snackbar := Mui.mkSnackbar false "" Mui.success;
                    HotelDetail.values := HotelDetail.initialValues |};
     Api.store := {| AuthContext.session := None; AuthContext.localStorage := ∅ |};
     Api.sent := []; Api.navigations := [] |}.

End Samples.

(** ** The vocabulary of the specification *)

Module Spec.
Import AuthContext ProtectedRoute.

(** The role-based home: the operator dashboard for the role
    ['operator'], the home view for any other role. *)
Definition role_home (role : string) : string :=
  if decide (role = "operator") then "/operator" else "/".

(** The authenticated-only gate in the words of the specification: while
    the session is loading, a wait indicator; once resolved, no session
    redirects to login; a session whose role is not the required one
    redirects to that role's home view; otherwise the children render. *)
Definition authenticated_only {C} (auth : Auth) (children : C)
    (requiredRole : option RequiredRole) : Element C :=
  if loading auth then Progress
  else
    match user auth, requiredRole with
    | None, _ => Navigate "/login" true
    | Some u, Some r =>
        if decide (role u = literal r) then Children children
        else Navigate (role_home (literal r)) true
    | Some _, None => Children children
    end.

End Spec.

(** ** App.tsx: the navigation bar *)

Module Navbar.
Import AuthContext.

(** What the bar shows: a link button, the small progress wheel, the
    user's email, the logout button. *)
Inductive Item :=
| LinkTo (label to : string)
| Wheel
| Email (text : string)
| Logout.

Definition Navbar (auth : Auth) : list Item :=
  LinkTo "Home" "/" ::
  (if loading auth then [Wheel]
   else
     match user auth with
     | Some u =>
         (if decide (role u = "operator")
          then [LinkTo "Operator Dashboard" "/operator"] else [])
         ++ [LinkTo "User Center" "/user"; Email (email u); Logout]
     | None => [LinkTo "Login" "/login"; LinkTo "Register" "/register"]
     end).

End Navbar.

(** ** pages/Register.tsx *)

Module Register.
Import Api Api.Notations.

(** [error] and [success], both [''] at first. *)
Record State := mkState {
  error : string;
  success : string;
}.

Record Values := mkValues {
  email : string;
  password : string;
  confirmPassword : string;
  role : string;
  registerCode : string;
}.

(** The body of the answer is not read. *)
Definition Data := unit.

Definition setError (e : string) : M Data State unit :=
  set_state (fun s => {| error := e; success := success s |}).

Definition setSuccess (m : string) : M Data State unit :=
  set_state (fun s => {| error := error s; success := m |}).

(** The configuration of the call of the form, before the interceptor. *)
Definition register_call (values : Values) : Config :=
  {| method := POST; url := "/auth/register"; headers := None;
     data := Some [("email", Str (email values));
                   ("password", Str (password values));
                   ("role", Str (role values));
                   ("registerCode",
                    Str (if decide (role values = "operator")
                         then registerCode values else ""))] |}.

Definition onSubmit (values : Values) : M Data State unit :=
  let* _ := setError "" in
  let* _ := setSuccess "" in
  try_catch
    (let* _ := post "/auth/register"
                 (Some [("email", Str (email values));
                        ("password", Str (password values));
                        ("role", Str (role values));
                        ("registerCode",
                         Str (if decide (role values = "operator")
                              then registerCode values else ""))]) in
     setSuccess "Registration successful, please login")
    (fun err => setError (Js.or_else (response_message err) "Registration failed")).



End Register.

(** ** pages/Home.tsx: the hotel list *)

Module HomeListing.
Import AuthContext Api Api.Notations Mui.

(** [interface Hotel] of the home page. *)
Record Hotel := mkHotel {
  id : Z;
  name : string;
  address : string;
  description : option string;
  price : Z;
  availableRooms : Z;
}.

(** All the state variables of the page. *)
Record State := mkState {
  hotels : list Hotel;
  search : string;
  loading : bool;
  favorites : list Z;
  snackbar : Snackbar;
}.

(** [res.data] of [GET /hotels] and of [GET /favorites]: hotels. *)
Definition Data := list Hotel.

Definition setHotels (l : list Hotel) : M Data State unit :=
  set_state (fun s =>
    {| hotels := l; search := search s; loading := loading s;
       favorites := favorites s; snackbar := snackbar s |}).

Definition setLoading (b : bool) : M Data State unit :=
  set_state (fun s =>
    {| hotels := hotels s; search := search s; loading := b;
       favorites := favorites s; snackbar := snackbar s |}).

Definition setFavorites (l : list Z) : M Data State unit :=
  set_state (fun s =>
    {| hotels := hotels s; search := search s; loading := loading s;
       favorites := l; snackbar := snackbar s |}).

Definition setSearch (q : string) : M Data State unit :=
  set_state (fun s =>
    {| hotels := hotels s; search := q; loading := loading s;
       favorites := favorites s; snackbar := snackbar s |}).

(** [name ? { name } : {}] *)
Definition name_params (name : option string) : list (string * Value) :=
  match name with
  | Some n => if Js.truthy_string n then [("name", Str n)] else []
  | None => []
  end.

(** [fetchFavorites], with the [user] of the render that created it; a
    failure is only written to the console. *)
Definition fetchFavorites (user : option User) : M Data State unit :=
  match user with
  | None => ret tt
  | Some _ =>
      try_catch
        (let* response := get "/favorites" in
         let favoriteIds := map (λ hotel, id hotel) (body response) in
         setFavorites favoriteIds)
        (fun _ => ret tt)
  end.

Section Listing.
(** The configuration the client builds for [api.get('/hotels', { params })],
    before the interceptor. *)
Variable hotels_call : list (string * Value) → Config.

Definition fetchHotels (name : option string) : M Data State unit :=
  let* _ := setLoading true in
  let* _ := try_catch
              (let* res := request (hotels_call (name_params name)) in
               setHotels (body res))
              (fun _ => setHotels []) in
  setLoading false.

(** [handleSearch], with the [search] of the render that created it. *)
Definition handleSearch (search : string) : M Data State unit :=
  fetchHotels (Some search).

(** [handleKeyPress]: the key of the event. *)
Definition handleKeyPress (search : string) (key : string) : M Data State unit :=
  if decide (key = "Enter") then handleSearch search else ret tt.

(** The effect on [user]: [fetchHotels(); fetchFavorites();]. *)
Definition on_user (user : option User) : M Data State unit :=
  let* _ := fetchHotels None in
  fetchFavorites user.

End Listing.

(** [handleViewDetails] *)
Definition handleViewDetails (hotelId : Z) : M Data State unit :=
  navigate ("/hotel/" +:+ pretty hotelId).

End HomeListing.

(** ** pages/UserCenter.tsx: the tabs, the favourites and the profile form *)

Module UserCenterTabs.
Import Api Api.Notations Mui.

(** [interface FavoriteHotel] *)
Record FavoriteHotel := mkFavoriteHotel {
  id : Z;
  name : string;
  address : string;
  price : Z;
  availableRooms : Z;
}.

(** The values of the profile form. *)
Record Values := mkValues {
  email : string;
  currentPassword : string;
  newPassword : string;
  confirmPassword : string;
}.

(** [initialValues] of the profile form: [email: user?.email || '']. *)
Definition initialValues (user : option AuthContext.User) : Values :=
  {| email := match user with
              | Some u => Js.or_else (Some (AuthContext.email u)) ""
              | None => ""
              end;
     currentPassword := ""; newPassword := ""; confirmPassword := "" |}.

(** All the state variables of the page, and the values held by the form. *)
Record State := mkState {
  tabValue : Z;
  openProfileDialog : bool;
  favorites : list FavoriteHotel;
  bookings : list UserCenter.Booking;
  loading : bool;
  snackbar : Snackbar;
  values : Values;
}.

(** [response.data] of the calls of the page. *)
Inductive Data :=
| FavoriteList (l : list FavoriteHotel)
| BookingList (l : list UserCenter.Booking)
| Unread.

(** [response.data] read at the declared types; a body of another shape
    is outside them and is read as an empty list. *)
Definition as_favorites (d : Data) : list FavoriteHotel :=
  match d with
  | FavoriteList l => l
  | _ => []
  end.

Definition as_bookings (d : Data) : list UserCenter.Booking :=
  match d with
  | BookingList l => l
  | _ => []
  end.

Definition setTabValue (n : Z) : M Data State unit :=
  set_state (fun s =>
    {| tabValue := n; openProfileDialog := openProfileDialog s;
       favorites := favorites s; bookings := bookings s; loading := loading s;
       snackbar := snackbar s; values := values s |}).

Definition setOpenProfileDialog (b : bool) : M Data State unit :=
  set_state (fun s =>
    {| tabValue := tabValue s; openProfileDialog := b;
       favorites := favorites s; bookings := bookings s; loading := loading s;
       snackbar := snackbar s; values := values s |}).

Definition setFavorites (l : list FavoriteHotel) : M Data State unit :=
  set_state (fun s =>
    {| tabValue := tabValue s; openProfileDialog := openProfileDialog s;
       favorites := l; bookings := bookings s; loading := loading s;
       snackbar := snackbar s; values := values s |}).

Definition setBookings (l : list UserCenter.Booking) : M Data State unit :=
  set_state (fun s =>
    {| tabValue := tabValue s; openProfileDialog := openProfileDialog s;
       favorites := favorites s; bookings := l; loading := loading s;
       snackbar := snackbar s; values := values s |}).

Definition setLoading (b : bool) : M Data State unit :=
  set_state (fun s =>
    {| tabValue := tabValue s; openProfileDialog := openProfileDialog s;
       favorites := favorites s; bookings := bookings s; loading := b;
       snackbar := snackbar s; values := values s |}).

Definition setSnackbar (sb : Snackbar) : M Data State unit :=
  set_state (fun s =>
    {| tabValue := tabValue s; openProfileDialog := openProfileDialog s;
       favorites := favorites s; bookings := bookings s; loading := loading s;
       snackbar := sb; values := values s |}).

Definition setValues (v : Values) : M Data State unit :=
  set_state (fun s =>
    {| tabValue := tabValue s; openProfileDialog := openProfileDialog s;
       favorites := favorites s; bookings := bookings s; loading := loading s;
       snackbar := snackbar s; values := v |}).

(** [try { body } catch (error) { handler } finally { cleanup }], for a
    handler and a cleanup that do not throw. *)
Definition try_catch_finally (body : M Data State unit)
    (handler : AxiosError → M Data State unit) (cleanup : M Data State unit)
    : M Data State unit :=
  let* _ := try_catch body handler in cleanup.

Definition fetchFavorites : M Data State unit :=
  let* _ := setLoading true in
  try_catch_finally
    (let* response := get "/favorites" in
     setFavorites (as_favorites (body response)))
    (fun _ =>
       setSnackbar {| open := true; message := "Failed to fetch favorites";
                      severity := error |})
    (setLoading false).

Definition fetchBookings : M Data State unit :=
  let* _ := setLoading true in
  try_catch_finally
    (let* response := get "/bookings" in
     setBookings (as_bookings (body response)))
    (fun _ =>
       setSnackbar {| open := true; message := "Failed to fetch bookings";
                      severity := error |})
    (setLoading false).

(** The effect on [tabValue]. *)
Definition on_tab (tabValue : Z) : M Data State unit :=
  if decide (tabValue = 1) then fetchFavorites
  else if decide (tabValue = 2) then fetchBookings
  else ret tt.

(** A press on a tab: [handleTabChange], then the effect of the render
    that follows if the value has changed. *)
Definition select_tab (newValue : Z) : M Data State unit := fun srv w =>
  if decide (newValue = tabValue (page w)) then ret tt srv w
  else (let* _ := setTabValue newValue in on_tab newValue) srv w.

(** [handleRemoveFavorite], with the [favorites] of the render that
    created it. *)
Definition handleRemoveFavorite (favorites : list FavoriteHotel) (hotelId : Z)
    : M Data State unit :=
  try_catch
    (let* _ := delete ("/favorites/" +:+ pretty hotelId) in
     let* _ := setFavorites (filter (λ hotel, id hotel ≠ hotelId) favorites) in
     setSnackbar {| open := true; message := "Removed from favorites";
                    severity := success |})
    (fun err =>
       setSnackbar {| open := true;
                      message := Js.or_else (response_message err) "Remove failed";
                      severity := error |}).

(** The configurations of the calls, before the interceptor. *)
Definition remove_call (hotelId : Z) : Config :=
  {| method := DELETE; url := "/favorites/" +:+ pretty hotelId;
     headers := None; data := None |}.

Definition change_password_call (v : Values) : Config :=
  {| method := POST; url := "/auth/change-password"; headers := None;
     data := Some [("currentPassword", Str (currentPassword v));
                   ("newPassword", Str (newPassword v))] |}.

Definition favorites_call : Config :=
  {| method := GET; url := "/favorites"; headers := None; data := None |}.

Definition bookings_call : Config :=
  {| method := GET; url := "/bookings"; headers := None; data := None |}.

(** [onSubmit] of the profile form; [initial] are the form's initial
    values, to which [resetForm] returns. *)
Definition onSubmit (initial : Values) (v : Values) : M Data State unit :=
  try_catch
    (let* _ :=
       if Js.truthy_string (newPassword v) then
         let* _ := post "/auth/change-password"
                     (Some [("currentPassword", Str (currentPassword v));
                            ("newPassword", Str (newPassword v))]) in
         setSnackbar {| open := true; message := "Password changed successfully";
                        severity := success |}
       else
         setSnackbar {| open := true; message := "Profile updated successfully";
                        severity := success |} in
     let* _ := setOpenProfileDialog false in
     setValues initial)
    (fun err =>
       setSnackbar {| open := true;
                      message := Js.or_else (response_message err) "Update failed";
                      severity := error |}).

End UserCenterTabs.

(** ** The status chip of a booking card, in both booking lists *)

Module StatusChip.

(** [backgroundColor], [color] and the text of the chip. *)
Record Chip := mkChip {
  backgroundColor : string;
  color : string;
  text : string;
}.

(** The chip of [UserCenter.tsx]. *)
Definition user_chip (status : string) : Chip :=
  {| backgroundColor :=
       if decide (status = "pending") then "warning.light"
       else if decide (status = "confirmed") then "success.light"
       else if decide (status = "cancelled") then "error.light"
       else if decide (status = "completed") then "grey.300" else "grey.300";
     color :=
       if decide (status = "pending") then "warning.dark"
       else if decide (status = "confirmed") then "success.dark"
       else if decide (status = "cancelled") then "error.dark"
       else if decide (status = "completed") then "grey.700" else "grey.700";
     text :=
       if decide (status = "pending") then "Pending"
       else if decide (status = "confirmed") then "Confirmed"
       else if decide (status = "cancelled") then "Cancelled"
       else if decide (status = "completed") then "Completed" else status |}.

(** The chip of the operator dashboard. *)
Definition operator_chip (status : string) : Chip :=
  {| backgroundColor :=
       if decide (status = "pending") then "warning.light"
       else if decide (status = "confirmed") then "success.light"
       else if decide (status = "cancelled") then "error.light"
       else if decide (status = "completed") then "grey.300" else "grey.300";
     color :=
       if decide (status = "pending") then "warning.dark"
       else if decide (status = "confirmed") then "success.dark"
       else if decide (status = "cancelled") then "error.dark"
       else if decide (status = "completed") then "grey.700" else "grey.700";
     text :=
       if decide (status = "pending") then "Pending"
       else if decide (status = "confirmed") then "Confirmed"
       else if decide (status = "cancelled") then "Cancelled"
       else if decide (status = "completed") then "Completed" else status |}.

End StatusChip.

(** ** The operator dashboard: the hotel tab and the hotel form *)

Module OperatorHotels.
Import Api Api.Notations Mui.

(** The values of the hotel form: every field is the text of its input. *)
Record Values := mkValues {
  name : string;
  address : string;
  description : string;
  price : string;
  availableRooms : string;
}.

Definition initialValues : Values :=
  {| name := ""; address := ""; description := ""; price := ""; availableRooms := "" |}.

(** The state the hotel tab reads and writes, and the values of the form. *)
Record State := mkState {
  hotels : list OperatorDashboard.Hotel;
  openDialog : bool;
  editingHotel : option OperatorDashboard.Hotel;
  snackbar : Snackbar;
  values : Values;
}.

(** [response.data] of the calls of the hotel tab: the list of
    [GET /hotels], or a body the page does not read. *)
Inductive Data :=
| HotelList (l : list OperatorDashboard.Hotel)
| Unread.

(** [response.data] read at the declared type [Hotel[]]; a body of another
    shape is outside that type and is read as no hotels. *)
Definition as_hotels (d : Data) : list OperatorDashboard.Hotel :=
  match d with
  | HotelList l => l
  | Unread => []
  end.

Definition setHotels (l : list OperatorDashboard.Hotel) : M Data State unit :=
  set_state (fun s =>
    {| hotels := l; openDialog := openDialog s; editingHotel := editingHotel s;
       snackbar := snackbar s; values := values s |}).

Definition setOpenDialog (b : bool) : M Data State unit :=
  set_state (fun s =>
    {| hotels := hotels s; openDialog := b; editingHotel := editingHotel s;
       snackbar := snackbar s; values := values s |}).

Definition setEditingHotel (h : option OperatorDashboard.Hotel) : M Data State unit :=
  set_state (fun s =>
    {| hotels := hotels s; openDialog := openDialog s; editingHotel := h;
       snackbar := snackbar s; values := values s |}).

Definition setSnackbar (sb : Snackbar) : M Data State unit :=
  set_state (fun s =>
    {| hotels := hotels s; openDialog := openDialog s; editingHotel := editingHotel s;
       snackbar := sb; values := values s |}).

(** [formik.setValues] and [formik.resetForm] *)
Definition setValues (v : Values) : M Data State unit :=
  set_state (fun s =>
    {| hotels := hotels s; openDialog := openDialog s; editingHotel := editingHotel s;
       snackbar := snackbar s; values := v |}).

Definition resetForm : M Data State unit := setValues initialValues.

(** [fetchHotels]: a failure is only written to the console. *)
Definition fetchHotels : M Data State unit :=
  try_catch
    (let* response := get "/hotels" in
     setHotels (as_hotels (body response)))
    (fun _ => ret tt).

Definition handleOpenDialog (hotel : option OperatorDashboard.Hotel) : M Data State unit :=
  let* _ :=
    match hotel with
    | Some h =>
        let* _ := setEditingHotel (Some h) in
        setValues
          {| name := OperatorDashboard.name h;
             address := OperatorDashboard.address h;
             description := Js.or_else (OperatorDashboard.description h) "";
             price := pretty (OperatorDashboard.price h);
             availableRooms := pretty (OperatorDashboard.availableRooms h) |}
    | None =>
        let* _ := setEditingHotel None in
        resetForm
    end in
  setOpenDialog true.

Definition handleCloseDialog : M Data State unit :=
  let* _ := setOpenDialog false in
  let* _ := setEditingHotel None in
  resetForm.

(** [handleDeleteHotel]; [confirmed] is the visitor's answer to
    [window.confirm]. *)
Definition handleDeleteHotel (confirmed : bool) (hotelId : Z) : M Data State unit :=
  if confirmed then
    try_catch
      (let* _ := delete ("/hotels/" +:+ pretty hotelId) in
       let* _ := setSnackbar {| open := true; message := "Hotel deleted successfully";
                                severity := success |} in
       fetchHotels)
      (fun err =>
         setSnackbar {| open := true;
                        message := Js.or_else (response_message err) "Delete failed";
                        severity := error |})
  else ret tt.

(** The configurations of the calls, before the interceptor. *)
Definition delete_call (hotelId : Z) : Config :=
  {| method := DELETE; url := "/hotels/" +:+ pretty hotelId;
     headers := None; data := None |}.

Definition hotels_call : Config :=
  {| method := GET; url := "/hotels"; headers := None; data := None |}.

Section Form.
(** [parseFloat] and [parseInt], from the text of an input to the number
    sent. *)
Variable parseFloat : string → Value.
Variable parseInt : string → Value.

(** [{ ...values, price: parseFloat(values.price),
       availableRooms: parseInt(values.availableRooms) }] *)
Definition hotel_body (v : Values) : list (string * Value) :=
  [("name", Str (name v)); ("address", Str (address v));
   ("description", Str (description v));
   ("price", parseFloat (price v));
   ("availableRooms", parseInt (availableRooms v))].

(** The configuration of the call that saves the form, before the
    interceptor. *)
Definition save_call (editingHotel : option OperatorDashboard.Hotel) (v : Values)
    : Config :=
  match editingHotel with
  | Some h =>
      {| method := PUT; url := "/hotels/" +:+ pretty (OperatorDashboard.hotel_id h);
         headers := None; data := Some (hotel_body v) |}
  | None =>
      {| method := POST; url := "/hotels"; headers := None;
         data := Some (hotel_body v) |}
  end.

(** [onSubmit] of the hotel form, with the [editingHotel] of the render
    that created it. *)
Definition onSubmit (editingHotel : option OperatorDashboard.Hotel) (v : Values)
    : M Data State unit :=
  try_catch
    (let* _ :=
       match editingHotel with
       | Some h =>
           let* _ := request
                       {| method := PUT;
                          url := "/hotels/" +:+ pretty (OperatorDashboard.hotel_id h);
                          headers := None; data := Some (hotel_body v) |} in
           setSnackbar {| open := true; message := "Hotel updated successfully";
                          severity := success |}
       | None =>
           let* _ := post "/hotels" (Some (hotel_body v)) in
           setSnackbar {| open := true; message := "Hotel added successfully";
                          severity := success |}
       end in
     let* _ := fetchHotels in
     handleCloseDialog)
    (fun err =>
       setSnackbar {| open := true;
                      message := Js.or_else (response_message err) "Operation failed";
                      severity := error |}).

End Form.

End OperatorHotels.

(** ** pages/HotelDetail.tsx: loading the hotel and choosing the view *)

Module HotelDetailPage.
Import Api Api.Notations Mui HotelDetail.

Definition setLoading (b : bool) : M Data State unit :=
  set_state (fun s =>
    {| hotel := hotel s; loading := b; error := HotelDetail.error s;
       openBookingDialog := openBookingDialog s; snackbar := snackbar s;
       values := values s |}).

Definition setError (e : string) : M Data State unit :=
  set_state (fun s =>
    {| hotel := hotel s; loading := loading s; error := e;
       openBookingDialog := openBookingDialog s; snackbar := snackbar s;
       values := values s |}).

(** [fetchHotel], with the route parameter [id] of the effect that
    created it: [try { setLoading(true); ... } catch ... finally
    { setLoading(false) }]. *)
Definition fetchHotel (id : string) : M Data State unit :=
  let* _ :=
    try_catch
      (let* _ := setLoading true in
       let* response := get ("/hotels/" +:+ id) in
       setHotel (as_hotel (body response)))
      (fun err =>
         setError (Js.or_else (response_message err) "Fail to get hotel data")) in
  setLoading false.

(** The effect on [id]: [if (id) { fetchHotel(); }]. *)
Definition on_id (id_param : option string) : M Data State unit :=
  match id_param with
  | Some id => if Js.truthy_string id then fetchHotel id else ret tt
  | None => ret tt
  end.

(** The configuration of the call, before the interceptor. *)
Definition hotel_call (id : string) : Config :=
  {| method := GET; url := "/hotels/" +:+ id; headers := None; data := None |}.

(** What the page returns: "Loading...", the alert with the back button,
    or the hotel card with its dialog. *)
Inductive View :=
| LoadingView
| ErrorView (alert : string)
| HotelView (h : Hotel) (dialog_open : bool).

Definition render (s : State) : View :=
  if loading s then LoadingView
  else
    match (if Js.truthy_string (HotelDetail.error s) then None else hotel s) with
    | None => ErrorView (Js.or_else (Some (HotelDetail.error s)) "Hotel not found")
    | Some h => HotelView h (openBookingDialog s)
    end.

(** The configuration of the booking call, before the interceptor. *)
Definition booking_call (hotel : option Hotel) (v : Values) : Config :=
  {| method := POST; url := "/bookings"; headers := None;
     data := Some [("hotelId", match hotel with Some h => Num (id h) | None => Undefined end);
                   ("checkInDate", Str (checkInDate v));
                   ("checkOutDate", Str (checkOutDate v));
                   ("guestCount", Num (guestCount v));
                   ("specialRequests", Str (specialRequests v))] |}.

End HotelDetailPage.

(** ** pages/HotelDetail.tsx: the page while calls are in flight

    [onSubmit] is an [async] function: it runs up to its first [await]
    (the booking call), resumes when that call settles and runs up to its
    second [await] (the refetch of the hotel), and resumes again when the
    refetch settles.  [fetchHotel], started by the effect on the route
    parameter, awaits its one call in the same way.  Between these pieces
    the visitor's events are handled as usual.  Every other handler of the
    page runs in one piece. *)

Module HotelDetailAsync.
Import AuthContext Api Mui HotelDetail HotelDetailPage.

(** A call in flight, with what the waiting handler closed over. *)
Inductive InFlight :=
| AwaitBooking (id_param : option string)
| AwaitRefetch
| AwaitHotel.

(** The page, the calls in flight and what has been sent. *)
Record Machine := mkMachine {
  world : World State;
  inflight : list InFlight;
}.

(** What happens next: an event of the visitor, or the settling of the
    [n]-th call in flight with an outcome. *)
Inductive Step :=
| Visitor (e : Event)
| Settles (n : nat) (outcome : Settled (Response Data)).

(** A server that is not asked: the handlers run through it make no
    call. *)
Definition unasked : Server Data :=
  λ _, Rejected {| code := "ERR_NETWORK"; response := None |}.

(** The state setters, on a world. *)
Definition set (f : State → State) (w : World State) : World State :=
  {| page := f (page w); store := store w; sent := sent w;
     navigations := navigations w |}.

(** [onSubmit] between its two awaits, after a fulfilled booking call:
    [setSnackbar(...); setOpenBookingDialog(false); resetForm();]. *)
Definition booked (response : Response Data) (s : State) : State :=
  {| hotel := hotel s; loading := loading s; error := HotelDetail.error s;
     openBookingDialog := false;
     snackbar := {| open := true;
                    message := Js.or_else (data_message (body response))
                                 "Booking successful, we will contact you soon";
                    severity := success |};
     values := initialValues |}.

(** The [catch] block of [onSubmit]. *)
Definition failed (err : AxiosError) (s : State) : State :=
  {| hotel := hotel s; loading := loading s; error := HotelDetail.error s;
     openBookingDialog := openBookingDialog s;
     snackbar := {| open := true;
                    message := Js.or_else (response_message err) "Booking failed";
                    severity := Mui.error |};
     values := values s |}.

(** [setHotel(hotelResponse.data)] *)
Definition refetched (hotelResponse : Response Data) (s : State) : State :=
  {| hotel := as_hotel (body hotelResponse); loading := loading s;
     error := HotelDetail.error s; openBookingDialog := openBookingDialog s;
     snackbar := snackbar s; values := values s |}.

(** [fetchHotel] after its await: [setHotel(response.data)], or the
    [catch] block, and then [setLoading(false)]. *)
Definition loaded (response : Response Data) (s : State) : State :=
  {| hotel := as_hotel (body response); loading := false;
     error := HotelDetail.error s; openBookingDialog := openBookingDialog s;
     snackbar := snackbar s; values := values s |}.

Definition load_failed (err : AxiosError) (s : State) : State :=
  {| hotel := hotel s; loading := false;
     error := Js.or_else (response_message err) "Fail to get hotel data";
     openBookingDialog := openBookingDialog s;
     snackbar := snackbar s; values := values s |}.

(** [fetchHotel] up to its await: [setLoading(true)] and the call. *)
Definition loading_started (id : string) (w : World State) : World State :=
  logged
    (set (λ s, {| hotel := hotel s; loading := true; error := HotelDetail.error s;
                  openBookingDialog := openBookingDialog s;
                  snackbar := snackbar s; values := values s |}) w)
    (hotel_call id).

Section Machine.
Variable id_param : option string.
Variable valid : Values → bool.

(** The form can be submitted: the hotel card is shown, the dialog is
    open and the values pass validation. *)
Definition submits (s : State) : bool :=
  if loading s then false
  else
    match (if Js.truthy_string (HotelDetail.error s) then None else hotel s) with
    | None => false
    | Some _ => if openBookingDialog s then valid (values s) else false
    end.

(** An event of the visitor.  A submission starts [onSubmit], which runs
    up to its first await: the booking call leaves and is in flight.
    Every other event is handled in one piece, as [dispatch] does. *)
Definition visitor (e : Event) (m : Machine) : Machine :=
  match e with
  | SubmitForm =>
      if submits (page (world m)) then
        {| world := logged (world m)
                      (booking_call (hotel (page (world m))) (values (page (world m))));
           inflight := inflight m ++ [AwaitBooking id_param] |}
      else m
  | _ =>
      {| world := snd (dispatch id_param valid e unasked (world m));
         inflight := inflight m |}
  end.

(** A call in flight settles and the handler that awaited it resumes, up
    to its next await or to its end. *)
Definition resume (call : InFlight) (outcome : Settled (Response Data))
    (rest : list InFlight) (w : World State) : Machine :=
  match call, outcome with
  | AwaitBooking idp, Fulfilled response =>
      if Js.truthy idp then
        {| world := logged (set (booked response) w) (hotel_call (default "" idp));
           inflight := rest ++ [AwaitRefetch] |}
      else {| world := set (booked response) w; inflight := rest |}
  | AwaitBooking _, Rejected err =>
      {| world := set (failed err) w; inflight := rest |}
  | AwaitRefetch, Fulfilled hotelResponse =>
      {| world := set (refetched hotelResponse) w; inflight := rest |}
  | AwaitRefetch, Rejected err =>
      {| world := set (failed err) w; inflight := rest |}
  | AwaitHotel, Fulfilled response =>
      {| world := set (loaded response) w; inflight := rest |}
  | AwaitHotel, Rejected err =>
      {| world := set (load_failed err) w; inflight := rest |}
  end.

(** The effect on [id], when the page mounts: [if (id) { fetchHotel(); }]
    runs up to the await of [fetchHotel]. *)
Definition effect (w : World State) : Machine :=
  match id_param with
  | Some id =>
      if Js.truthy_string id then
        {| world := loading_started id w; inflight := [AwaitHotel] |}
      else {| world := w; inflight := [] |}
  | None => {| world := w; inflight := [] |}
  end.

Definition step (st : Step) (m : Machine) : Machine :=
  match st with
  | Visitor e => visitor e m
  | Settles n outcome =>
      match inflight m !! n with
      | Some call => resume call outcome (base.delete n (inflight m)) (world m)
      | None => m
      end
  end.

Fixpoint run (steps : list Step) (m : Machine) : Machine :=
  match steps with
  | [] => m
  | st :: steps' => run steps' (step st m)
  end.

End Machine.

End HotelDetailAsync.

(** ** A booking that is overtaken by its own refetch *)

Module Race.
Import HotelDetailAsync.

(** Hotel 10 with its last room, and the same hotel once that room is
    booked. *)
Definition last_room : HotelDetail.Hotel :=
  {| HotelDetail.id := 10; HotelDetail.name := "Plaza"; HotelDetail.address := "2 High St";
     HotelDetail.description := None; HotelDetail.price := 150;
     HotelDetail.availableRooms := 1; HotelDetail.operatorId := 2 |}.

Definition sold_out : HotelDetail.Hotel :=
  {| HotelDetail.id := 10; HotelDetail.name := "Plaza"; HotelDetail.address := "2 High St";
     HotelDetail.description := None; HotelDetail.price := 150;
     HotelDetail.availableRooms := 0; HotelDetail.operatorId := 2 |}.

Definition two_nights : HotelDetail.Values :=
  {| HotelDetail.checkInDate := "2025-07-01"; HotelDetail.checkOutDate := "2025-07-03";
     HotelDetail.guestCount := 2; HotelDetail.specialRequests := "" |}.

(** The form's validation, as far as the sample needs it: both dates are
    required. *)
Definition dates_given (v : HotelDetail.Values) : bool :=
  negb (bool_decide (HotelDetail.checkInDate v = ""))
  && negb (bool_decide (HotelDetail.checkOutDate v = "")).

(** A user on the page of hotel 10, the dialog open and the form filled. *)
Definition start : Machine :=
  {| world :=
       {| Api.page :=
            {| HotelDetail.hotel := Some last_room; HotelDetail.loading := false;
               HotelDetail.error := ""; HotelDetail.openBookingDialog := true;
               HotelDetail.snackbar := Mui.mkSnackbar false "" Mui.success;
               HotelDetail.values := two_nights |};
          Api.store := {| AuthContext.session := Some (AuthContext.mkUser 1 "a@b.com" "user");
                          AuthContext.localStorage := {["token" := "t1"]} |};
          Api.sent := []; Api.navigations := [] |};
     inflight := [] |}.

(** The user books the last room; while the refetch of the hotel is in
    flight the user presses "Book Now" again and fills the form; then the
    refetch arrives with no room left. *)
Definition overtaken : list Step :=
  [Visitor HotelDetail.SubmitForm;
   Settles 0 (Api.Fulfilled (Api.mkResponse (HotelDetail.Ack None)));
   Visitor HotelDetail.PressBook;
   Visitor (HotelDetail.EditForm two_nights);
   Settles 0 (Api.Fulfilled (Api.mkResponse (HotelDetail.HotelData sold_out)))].

End Race.

(** * Properties *)

Import AuthContext Api Mui.

(** ** The API client: how a call settles *)

Section Calls.
Context {D S : Type}.
Implicit Types (srv : Server D) (w : World S) (config : Config).

Lemma request_fulfilled srv w config response :
  srv (outgoing w config) = Fulfilled response →
  request config srv w = (Fulfilled response, logged w config).
Proof. intros Hsrv. unfold request. by rewrite Hsrv. Qed.

Lemma request_rejected srv w config err :
  srv (outgoing w config) = Rejected err →
  request config srv w = (Rejected err, logged w config).
Proof. intros Hsrv. unfold request. by rewrite Hsrv. Qed.

Lemma outgoing_logged w config config' :
  outgoing (logged w config) config' = outgoing w config'.
Proof. reflexivity. Qed.

End Calls.

(** Unfolds the plumbing of a handler down to its calls. *)
Ltac handler_steps :=
  unfold bind, try_catch, ret, set_state, navigate, auth_login, post, get, delete.

(** Rewrites the next call of a handler with its outcome [H]. *)
Ltac call_settles H :=
  first [ erewrite request_fulfilled by exact H
        | erewrite request_rejected by exact H ].

(** ** The route guards *)

Section Guards.
Import ProtectedRoute Spec.

Context {C : Type}.
Implicit Types (children : C) (u : User) (r : RequiredRole).

Lemma ProtectedRoute_loading (session : option User) children req :
  ProtectedRoute {| user := session; loading := true |} children req = Progress.
Proof. reflexivity. Qed.

Lemma ProtectedRoute_guest children req :
  ProtectedRoute {| user := None; loading := false |} children req
  = Navigate "/login" true.
Proof. reflexivity. Qed.

Lemma ProtectedRoute_mismatch u children r :
  role u ≠ literal r →
  ProtectedRoute {| user := Some u; loading := false |} children (Some r)
  = Navigate "/" true.
Proof.
  intros Hne. unfold ProtectedRoute; simpl.
  destruct (decide (role u ≠ literal r)) as [_|Heq]; [by destruct r | done].
Qed.

Lemma ProtectedRoute_match u children r :
  role u = literal r →
  ProtectedRoute {| user := Some u; loading := false |} children (Some r)
  = Children children.
Proof.
  intros Heq. unfold ProtectedRoute; simpl.
  destruct (decide (role u ≠ literal r)) as [Hne|_]; [done | reflexivity].
Qed.

Lemma ProtectedRoute_any_role u children :
  ProtectedRoute {| user := Some u; loading := false |} children None
  = Children children.
Proof. reflexivity. Qed.

End Guards.

(** C1, as the code has it.  The authenticated-only guard is a function of
    (loading, session, requiredRole) with four outcomes: while loading it
    renders the wait indicator, whatever the session and the required role;
    once resolved, no session redirects to [/login]; a session whose role
    differs from the required role is redirected to the home view [/],
    whichever role was required, so that a session whose role is not
    ['operator'] never gets the children of the operator-only route;
    in every other case the children render. *)
Theorem ProtectedRoute_four_states :
  ∀ (C : Type) (children : C) (session : option User) (u : User)
    (r : ProtectedRoute.RequiredRole) (req : option ProtectedRoute.RequiredRole),
    ProtectedRoute.ProtectedRoute {| user := session; loading := true |} children req
      = ProtectedRoute.Progress
    ∧ ProtectedRoute.ProtectedRoute {| user := None; loading := false |} children req
      = ProtectedRoute.Navigate "/login" true
    ∧ (role u ≠ ProtectedRoute.literal r →
       ProtectedRoute.ProtectedRoute {| user := Some u; loading := false |} children (Some r)
       = ProtectedRoute.Navigate "/" true)
    ∧ (role u ≠ "operator" →
       ∀ c : C,
         ProtectedRoute.ProtectedRoute {| user := Some u; loading := false |} children
           (Some ProtectedRoute.Operator)
         ≠ ProtectedRoute.Children c)
    ∧ (role u = ProtectedRoute.literal r →
       ProtectedRoute.ProtectedRoute {| user := Some u; loading := false |} children (Some r)
       = ProtectedRoute.Children children)
    ∧ ProtectedRoute.ProtectedRoute {| user := Some u; loading := false |} children None
      = ProtectedRoute.Children children.
Proof.
  intros C children session u r req.
  split; [apply ProtectedRoute_loading |].
  split; [apply ProtectedRoute_guest |].
  split; [apply ProtectedRoute_mismatch |].
  split.
  - intros Hne c.
    rewrite (ProtectedRoute_mismatch u children ProtectedRoute.Operator Hne).
    discriminate.
  - split; [apply ProtectedRoute_match | apply ProtectedRoute_any_role].
Qed.

(** A user on the operator-only route, and an operator on a route that
    requires the role ['user']: both are sent to [/]. *)
Lemma ProtectedRoute_four_states_witness :
  ProtectedRoute.ProtectedRoute
    {| user := Some (mkUser 1 "a@b.com" "user"); loading := false |} tt
    (Some ProtectedRoute.Operator)
  = ProtectedRoute.Navigate "/" true.
Proof.
  destruct (ProtectedRoute_four_states unit tt None (mkUser 1 "a@b.com" "user")
              ProtectedRoute.Operator None) as (_ & _ & Hmismatch & _).
  apply Hmismatch. simpl. discriminate.
Defined.

(** C1 as stated fails: the redirect of a role mismatch is not to the home
    view of a role.  A user on the operator-only route is not sent to the
    operator's home (the required role's), and an operator on a user-only
    route is not sent to the operator's home (the session's role's): the
    guard differs from the specification's machine on the first input. *)
Lemma ProtectedRoute_role_home_counterexample :
  ProtectedRoute.ProtectedRoute
    {| user := Some (mkUser 1 "a@b.com" "user"); loading := false |} tt
    (Some ProtectedRoute.Operator)
  ≠ Spec.authenticated_only
      {| user := Some (mkUser 1 "a@b.com" "user"); loading := false |} tt
      (Some ProtectedRoute.Operator)
  ∧ ProtectedRoute.ProtectedRoute
      {| user := Some (mkUser 1 "a@b.com" "user"); loading := false |} tt
      (Some ProtectedRoute.Operator)
    ≠ ProtectedRoute.Navigate
        (Spec.role_home (ProtectedRoute.literal ProtectedRoute.Operator)) true
  ∧ ProtectedRoute.ProtectedRoute
      {| user := Some (mkUser 2 "o@b.com" "operator"); loading := false |} tt
      (Some ProtectedRoute.RoleUser)
    ≠ ProtectedRoute.Navigate (Spec.role_home "operator") true.
Proof. vm_compute. repeat split; discriminate. Qed.

(** ** The guest-only gate and the login form *)

Section GuestGate.
Import ProtectedRoute Spec.

Lemma PublicRoute_session {C} (children : C) (u : User) :
  PublicRoute {| user := Some u; loading := false |} children
  = Navigate (role_home (role u)) true.
Proof. reflexivity. Qed.

Lemma PublicRoute_children {C} (children c : C) (auth : Auth) :
  PublicRoute auth children = Children c → user auth = None ∧ loading auth = false.
Proof.
  unfold PublicRoute. destruct (loading auth); [discriminate |].
  destruct (user auth); [discriminate | done].
Qed.

Lemma role_home_cases (r : string) :
  (r = "operator" ∧ role_home r = "/operator") ∨ (r ≠ "operator" ∧ role_home r = "/").
Proof. unfold role_home. destruct (decide (r = "operator")); auto. Qed.

(** The role-based home is a page of the route table that the session
    may see: the dashboard for an operator, the home view otherwise. *)
Lemma route_role_home (u : User) :
  App.route (role_home (role u)) {| user := Some u; loading := false |}
  = Some (Children (if decide (role u = "operator")
                    then App.OperatorDashboard else App.Home)).
Proof.
  unfold role_home.
  destruct (decide (role u = "operator")) as [Hop|Hop]; [| reflexivity].
  unfold App.route, ProtectedRoute; simpl. by rewrite Hop.
Qed.

End GuestGate.

Section LoginForm.
Import Login Spec.

Lemma onSubmit_fulfilled values srv (w : World State) res :
  srv (outgoing w (Login.login_call values)) = Fulfilled res →
  onSubmit values srv w
  = (Fulfilled tt,
     {| page := {| error := "" |};
        store := login (user (body res)) (token (body res)) (store w);
        sent := sent w ++ [outgoing w (Login.login_call values)];
        navigations := navigations w ++ [role_home (role (user (body res)))] |}).
Proof.
  intros Hsrv. unfold onSubmit, setError. handler_steps.
  by call_settles Hsrv.
Qed.

Lemma onSubmit_rejected values srv (w : World State) err :
  srv (outgoing w (Login.login_call values)) = Rejected err →
  onSubmit values srv w
  = (Fulfilled tt,
     {| page := {| error := Js.or_else (response_message err)
                              "Login failed, incorrect username or password" |};
        store := store w;
        sent := sent w ++ [outgoing w (Login.login_call values)];
        navigations := navigations w |}).
Proof.
  intros Hsrv. unfold onSubmit, setError. handler_steps.
  by call_settles Hsrv.
Qed.

End LoginForm.

(** C2.  The guest-only gate sends every resolved session away from the
    guest-only views, to the home of its role ([/operator] for the role
    ['operator'], [/] for any other role), and renders its children only
    when no session is present.  That home is a page the route table shows
    to the session: the operator dashboard for an operator, the home view
    otherwise.  After a successful login the form hands the returned user
    and token to the session store and navigates to the role-based home of
    that user. *)
Theorem PublicRoute_and_login_role_home :
  ∀ (C : Type) (children c : C) (u : User) (auth : Auth)
    (values : Login.Values) (srv : Server Login.Data) (w : World Login.State)
    (res : Response Login.Data),
    ProtectedRoute.PublicRoute {| user := Some u; loading := false |} children
      = ProtectedRoute.Navigate (Spec.role_home (role u)) true
    ∧ Spec.role_home (role u) ≠ "/login"
    ∧ Spec.role_home (role u) ≠ "/register"
    ∧ (role u = "operator" → Spec.role_home (role u) = "/operator")
    ∧ (role u ≠ "operator" → Spec.role_home (role u) = "/")
    ∧ (ProtectedRoute.PublicRoute auth children = ProtectedRoute.Children c →
       user auth = None)
    ∧ ProtectedRoute.PublicRoute {| user := None; loading := false |} children
      = ProtectedRoute.Children children
    ∧ App.route (Spec.role_home (role u)) {| user := Some u; loading := false |}
      = Some (ProtectedRoute.Children
                (if decide (role u = "operator")
                 then App.OperatorDashboard else App.Home))
    ∧ (srv (outgoing w (Login.login_call values)) = Fulfilled res →
       let w' := snd (Login.onSubmit values srv w) in
       store w' = login (Login.user (body res)) (Login.token (body res)) (store w)
       ∧ navigations w'
         = navigations w ++ [Spec.role_home (role (Login.user (body res)))]
       ∧ sent w' = sent w ++ [outgoing w (Login.login_call values)]).
Proof.
  intros C children c u auth values srv w res.
  split; [apply PublicRoute_session |].
  split; [destruct (role_home_cases (role u)) as [[_ ->]|[_ ->]]; discriminate |].
  split; [destruct (role_home_cases (role u)) as [[_ ->]|[_ ->]]; discriminate |].
  split; [intros H; by destruct (role_home_cases (role u)) as [[_ ->]|[? _]] |].
  split; [intros H; by destruct (role_home_cases (role u)) as [[? _]|[_ ->]] |].
  split; [intros H; by apply PublicRoute_children in H as [? _] |].
  split; [reflexivity |].
  split; [apply route_role_home |].
  intros Hsrv. by rewrite (onSubmit_fulfilled _ _ _ _ Hsrv).
Qed.

(** The scenario of the specification: the login of a@b.com answered with
    the token t1 and a user of role ['user'] ends on [/]. *)
Lemma PublicRoute_and_login_role_home_witness :
  navigations
    (snd (Login.onSubmit
            {| Login.email := "a@b.com"; Login.password := "secret" |}
            (λ _, Fulfilled (mkResponse (Login.mkData "t1" (mkUser 1 "a@b.com" "user"))))
            {| page := {| Login.error := "" |};
               store := {| session := None; localStorage := ∅ |};
               sent := []; navigations := [] |}))
  = ["/"].
Proof.
  destruct (PublicRoute_and_login_role_home unit tt tt
              (mkUser 1 "a@b.com" "user") {| user := None; loading := false |}
              {| Login.email := "a@b.com"; Login.password := "secret" |}
              (λ _, Fulfilled (mkResponse (Login.mkData "t1" (mkUser 1 "a@b.com" "user"))))
              {| page := {| Login.error := "" |};
                 store := {| session := None; localStorage := ∅ |};
                 sent := []; navigations := [] |}
              (mkResponse (Login.mkData "t1" (mkUser 1 "a@b.com" "user"))))
    as (_ & _ & _ & _ & _ & _ & _ & _ & Hlogin).
  destruct (Hlogin eq_refl) as (_ & Hnav & _).
  exact Hnav.
Defined.

(** ** The request interceptor *)

Section RequestInterceptor.
Implicit Types (storage : gmap string string) (config : Config).

Lemma truthy_string_true (s : string) : Js.truthy_string s = true ↔ s ≠ "".
Proof. unfold Js.truthy_string. destruct (decide (s = "")); naive_solver. Qed.

Lemma onRequest_token storage config (t : string) :
  getItem storage "token" = Some t → t ≠ "" →
  onRequest storage config
  = {| method := method config; url := url config;
       headers := Some (<["Authorization" := "Bearer " +:+ t]>
                          (default ∅ (headers config)));
       data := data config |}.
Proof.
  intros Hget Hne. unfold onRequest. rewrite Hget.
  by apply truthy_string_true in Hne as ->.
Qed.

Lemma onRequest_no_token storage config :
  Js.truthy (getItem storage "token") = false → onRequest storage config = config.
Proof.
  unfold onRequest. destruct (getItem storage "token") as [t|]; simpl; [| done].
  by intros ->.
Qed.

Lemma truthy_false (x : option string) :
  Js.truthy x = false ↔ x = None ∨ x = Some "".
Proof.
  destruct x as [s|]; simpl; [| by split; [left |]].
  unfold Js.truthy_string. destruct (decide (s = "")) as [->|Hne].
  - by split; [right |].
  - split; [done |]. intros [|[=]]; done.
Qed.

End RequestInterceptor.

(** C3, as the code has it.  The request interceptor attaches
    [Authorization: Bearer <token>] exactly when the persisted token is a
    non-empty string: it then sets that entry (replacing one already
    there), keeps every other header and the rest of the request.
    Otherwise, with no token persisted or with the empty string persisted,
    it returns the request unchanged, so that a request that carried no
    [Authorization] entry leaves without one. *)
Theorem onRequest_bearer_when_token :
  ∀ (storage : gmap string string) (config : Config),
    (∀ t : string, getItem storage "token" = Some t → t ≠ "" →
       header "Authorization" (onRequest storage config) = Some ("Bearer " +:+ t)
       ∧ (∀ name, name ≠ "Authorization" →
            header name (onRequest storage config) = header name config)
       ∧ method (onRequest storage config) = method config
       ∧ url (onRequest storage config) = url config
       ∧ data (onRequest storage config) = data config)
    ∧ (getItem storage "token" = None ∨ getItem storage "token" = Some "" →
       onRequest storage config = config)
    ∧ (header "Authorization" config = None →
       (is_Some (header "Authorization" (onRequest storage config))
        ↔ ∃ t : string, getItem storage "token" = Some t ∧ t ≠ "")).
Proof.
  intros storage config. split; [| split].
  - intros t Hget Hne. rewrite (onRequest_token _ _ _ Hget Hne).
    unfold header; simpl. split; [by rewrite lookup_insert_eq |].
    split; [| done]. intros name Hname. by rewrite lookup_insert_ne.
  - intros Hnone. by apply onRequest_no_token, truthy_false.
  - intros Hconfig. split.
    + intros Hsome. destruct (getItem storage "token") as [t|] eqn:Hget.
      * destruct (decide (t = "")) as [->|Hne]; [| by exists t].
        rewrite onRequest_no_token in Hsome by (by rewrite Hget).
        rewrite Hconfig in Hsome. by destruct Hsome.
      * rewrite onRequest_no_token in Hsome by (by rewrite Hget).
        rewrite Hconfig in Hsome. by destruct Hsome.
    + intros (t & Hget & Hne). rewrite (onRequest_token _ _ _ Hget Hne).
      unfold header; simpl. rewrite lookup_insert_eq. by eexists.
Qed.

(** With the token t1 persisted, a request to [/favorites] leaves with
    [Authorization: Bearer t1]. *)
Lemma onRequest_bearer_when_token_witness :
  header "Authorization"
    (onRequest {["token" := "t1"]}
       {| method := GET; url := "/favorites"; headers := None; data := None |})
  = Some "Bearer t1".
Proof.
  destruct (onRequest_bearer_when_token {["token" := "t1"]}
              {| method := GET; url := "/favorites"; headers := None; data := None |})
    as (Hattach & _ & _).
  destruct (Hattach "t1") as (Hauth & _); [reflexivity | discriminate |].
  exact Hauth.
Defined.

(** C3 as stated fails in both halves.  A token can be persisted and no
    header attached: the empty string is in the storage under ['token'],
    and the request leaves as it came.  And with nothing persisted the
    request does not always leave without an [Authorization] entry: one
    that the caller's configuration carries stays. *)
Lemma onRequest_counterexample :
  (getItem {["token" := ""]} "token" = Some ""
   ∧ header "Authorization"
       (onRequest {["token" := ""]}
          {| method := GET; url := "/favorites"; headers := None; data := None |})
     = None)
  ∧ (getItem ∅ "token" = None
     ∧ header "Authorization"
         (onRequest ∅
            {| method := GET; url := "/favorites";
               headers := Some {["Authorization" := "Basic abc"]}; data := None |})
       = Some "Basic abc").
Proof. vm_compute. repeat split. Qed.

(** ** The response interceptor *)

(** C4.  The response-error handler is the identity on failures: it
    rejects with the very error it received.  So a call whose request the
    server fails settles, for the caller, as a rejection with exactly that
    error; one request has left the client, the one of the call, and
    nothing else of the world has changed. *)
Theorem onRejected_passes_error_through :
  ∀ (D S : Type) (srv : Server D) (w : World S) (config : Config) (err : AxiosError),
    @onRejected D err = Rejected err
    ∧ (srv (outgoing w config) = Rejected err →
       request config srv w = (Rejected err, logged w config)
       ∧ sent (snd (request config srv w)) = sent w ++ [outgoing w config]
       ∧ page (snd (request config srv w)) = page w
       ∧ store (snd (request config srv w)) = store w).
Proof.
  intros D S srv w config err. split; [reflexivity |].
  intros Hsrv. by rewrite (request_rejected _ _ _ _ Hsrv).
Qed.

(** A server that answers 409 with a message: the caller of
    [POST /favorites] gets that error, message included. *)
Lemma onRejected_passes_error_through_witness :
  fst (@request unit unit
         {| method := POST; url := "/favorites"; headers := None;
            data := Some [("hotelId", Num 7)] |}
         (λ _, Rejected (mkAxiosError "ERR_BAD_REQUEST"
                           (Some (mkErrorResponse 409 (Some "Already a favorite")))))
         {| page := tt; store := {| session := None; localStorage := ∅ |};
            sent := []; navigations := [] |})
  = Rejected (mkAxiosError "ERR_BAD_REQUEST"
                (Some (mkErrorResponse 409 (Some "Already a favorite")))).
Proof.
  destruct (onRejected_passes_error_through unit unit
              (λ _, Rejected (mkAxiosError "ERR_BAD_REQUEST"
                                (Some (mkErrorResponse 409 (Some "Already a favorite")))))
              {| page := tt; store := {| session := None; localStorage := ∅ |};
                 sent := []; navigations := [] |}
              {| method := POST; url := "/favorites"; headers := None;
                 data := Some [("hotelId", Num 7)] |}
              (mkAxiosError "ERR_BAD_REQUEST"
                 (Some (mkErrorResponse 409 (Some "Already a favorite")))))
    as (_ & Hcall).
  destruct (Hcall eq_refl) as (Heq & _).
  rewrite Heq. reflexivity.
Defined.

(** ** The favourites toggle *)

Section Favorites.
Import Home.
Implicit Types (srv : Server Data) (w : World State) (favs : list Z) (hotelId : Z).

Lemma handleToggleFavorite_guest favs hotelId srv w :
  handleToggleFavorite None favs hotelId srv w
  = (Fulfilled tt,
     {| page := {| favorites := favorites (page w);
                   snackbar := {| open := true; message := "Please login first";
                                  severity := error |} |};
        store := store w; sent := sent w; navigations := navigations w |}).
Proof. reflexivity. Qed.

(** A toggle on a hotel that is not a favourite, accepted by the server. *)
Lemma toggle_adds srv w (u : User) hotelId :
  session (store w) = Some u →
  hotelId ∉ favorites (page w) →
  accepts srv (outgoing w (add_call hotelId)) →
  toggle hotelId srv w
  = (Fulfilled tt,
     {| page := {| favorites := favorites (page w) ++ [hotelId];
                   snackbar := {| open := true; message := "Added to favorites";
                                  severity := success |} |};
        store := store w;
        sent := sent w ++ [outgoing w (add_call hotelId)];
        navigations := navigations w |}).
Proof.
  intros Hsession Hnotin [response Hsrv]. unfold toggle, handleToggleFavorite.
  rewrite Hsession, decide_False by done.
  unfold setFavorites, setSnackbar; handler_steps; by call_settles Hsrv.
Qed.

(** A toggle on a favourite, accepted by the server. *)
Lemma toggle_removes srv w (u : User) hotelId :
  session (store w) = Some u →
  hotelId ∈ favorites (page w) →
  accepts srv (outgoing w (remove_call hotelId)) →
  toggle hotelId srv w
  = (Fulfilled tt,
     {| page := {| favorites := filter (λ id, id ≠ hotelId) (favorites (page w));
                   snackbar := {| open := true; message := "Removed from favorites";
                                  severity := success |} |};
        store := store w;
        sent := sent w ++ [outgoing w (remove_call hotelId)];
        navigations := navigations w |}).
Proof.
  intros Hsession Hin [response Hsrv]. unfold toggle, handleToggleFavorite.
  rewrite Hsession, decide_True by done.
  unfold setFavorites, setSnackbar; handler_steps; by call_settles Hsrv.
Qed.

(** A toggle whose call fails: the favourites are as they were. *)
Lemma toggle_rejected srv w (u : User) hotelId err :
  session (store w) = Some u →
  srv (outgoing w (toggle_call (favorites (page w)) hotelId)) = Rejected err →
  toggle hotelId srv w
  = (Fulfilled tt,
     {| page :=
          {| favorites := favorites (page w);
             snackbar :=
               {| open := true;
                  message := Js.or_else (response_message err) "Operation failed";
                  severity := error |} |};
        store := store w;
        sent := sent w ++ [outgoing w (toggle_call (favorites (page w)) hotelId)];
        navigations := navigations w |}).
Proof.
  intros Hsession Hsrv. unfold toggle, handleToggleFavorite.
  rewrite Hsession. unfold toggle_call in *.
  destruct (decide (hotelId ∈ favorites (page w)));
    unfold setFavorites, setSnackbar; handler_steps; by call_settles Hsrv.
Qed.

Lemma filter_other_than_fresh favs hotelId :
  hotelId ∉ favs → filter (λ id, id ≠ hotelId) favs = favs.
Proof.
  induction favs as [|x favs IH]; [done |].
  intros Hnotin. apply not_elem_of_cons in Hnotin as [Hne Hnotin].
  rewrite filter_cons_True by done. by rewrite IH.
Qed.

Lemma filter_appended favs hotelId :
  hotelId ∉ favs → filter (λ id, id ≠ hotelId) (favs ++ [hotelId]) = favs.
Proof.
  intros Hnotin. rewrite filter_app, filter_other_than_fresh by done.
  rewrite filter_cons_False by (intros Hne; by apply Hne).
  by rewrite filter_nil, app_nil_r.
Qed.

Lemma removed_then_added favs hotelId (x : Z) :
  hotelId ∈ favs →
  x ∈ filter (λ id, id ≠ hotelId) favs ++ [hotelId] ↔ x ∈ favs.
Proof.
  intros Hin. rewrite elem_of_app, list_elem_of_filter, list_elem_of_singleton.
  split.
  - intros [[_ Hx]| ->]; done.
  - intros Hx. destruct (decide (x = hotelId)) as [->|Hne]; [by right | by left].
Qed.

End Favorites.

(** C5.  Without a session the favourites toggle shows the notice
    "Please login first" and returns: no request has left the client and
    the local favourites are as they were, whatever the handler closed
    over and whatever the server would have answered. *)
Theorem handleToggleFavorite_guest_no_call :
  ∀ (favs : list Z) (hotelId : Z) (srv : Server Home.Data) (w : World Home.State),
    fst (Home.handleToggleFavorite None favs hotelId srv w) = Fulfilled tt
    ∧ sent (snd (Home.handleToggleFavorite None favs hotelId srv w)) = sent w
    ∧ Home.favorites (page (snd (Home.handleToggleFavorite None favs hotelId srv w)))
      = Home.favorites (page w)
    ∧ Home.snackbar (page (snd (Home.handleToggleFavorite None favs hotelId srv w)))
      = {| open := true; message := "Please login first"; severity := error |}
    ∧ store (snd (Home.handleToggleFavorite None favs hotelId srv w)) = store w
    ∧ navigations (snd (Home.handleToggleFavorite None favs hotelId srv w))
      = navigations w
    ∧ (session (store w) = None →
       Home.toggle hotelId srv w = Home.handleToggleFavorite None favs hotelId srv w).
Proof.
  intros favs hotelId srv w. rewrite handleToggleFavorite_guest; simpl.
  repeat (split; [reflexivity |]).
  intros Hsession. unfold Home.toggle. by rewrite Hsession.
Qed.

(** A visitor without a session presses the heart of hotel 7 while 3 is
    the only local favourite. *)
Lemma handleToggleFavorite_guest_no_call_witness :
  sent (snd (Home.toggle 7 (λ _, Fulfilled (mkResponse tt))
               {| page := {| Home.favorites := [3];
                             Home.snackbar := mkSnackbar false "" success |};
                  store := {| session := None; localStorage := ∅ |};
                  sent := []; navigations := [] |}))
  = [].
Proof.
  destruct (handleToggleFavorite_guest_no_call [3] 7 (λ _, Fulfilled (mkResponse tt))
              {| page := {| Home.favorites := [3];
                            Home.snackbar := mkSnackbar false "" success |};
                 store := {| session := None; localStorage := ∅ |};
                 sent := []; navigations := [] |})
    as (_ & Hsent & _ & _ & _ & _ & Htoggle).
  rewrite (Htoggle eq_refl). exact Hsent.
Defined.

(** C6.  With a session, two presses on the heart of the same hotel, each
    with its call accepted, leave the local favourites with the membership
    they had.  If the hotel was absent the first press adds it (a creating
    call) and the second removes it (a deleting call), and the list is the
    original one; if it was present the first press removes it and the
    second adds it back. *)
Theorem toggle_twice_same_membership :
  ∀ (srv1 srv2 : Server Home.Data) (w : World Home.State) (u : User) (hotelId : Z),
    session (store w) = Some u →
    accepts srv1 (outgoing w (Home.toggle_call (Home.favorites (page w)) hotelId)) →
    let w1 := snd (Home.toggle hotelId srv1 w) in
    accepts srv2 (outgoing w1 (Home.toggle_call (Home.favorites (page w1)) hotelId)) →
    let w2 := snd (Home.toggle hotelId srv2 w1) in
    (∀ x : Z, x ∈ Home.favorites (page w2) ↔ x ∈ Home.favorites (page w))
    ∧ ((hotelId ∉ Home.favorites (page w)) →
       hotelId ∈ Home.favorites (page w1)
       ∧ Home.favorites (page w2) = Home.favorites (page w)
       ∧ sent w2 = sent w ++ [outgoing w (Home.add_call hotelId);
                              outgoing w (Home.remove_call hotelId)])
    ∧ (hotelId ∈ Home.favorites (page w) →
       (hotelId ∉ Home.favorites (page w1))
       ∧ hotelId ∈ Home.favorites (page w2)
       ∧ sent w2 = sent w ++ [outgoing w (Home.remove_call hotelId);
                              outgoing w (Home.add_call hotelId)]).
Proof.
  intros srv1 srv2 w u hotelId Hsession Hfirst w1 Hsecond w2.
  unfold Home.toggle_call in Hfirst, Hsecond.
  destruct (decide (hotelId ∈ Home.favorites (page w))) as [Hin|Hnotin].
  - assert (Hw1 := toggle_removes srv1 w u hotelId Hsession Hin Hfirst).
    fold w1 in Hw1. destruct (Home.toggle hotelId srv1 w) as [r1 w1'].
    simpl in w1. subst w1. injection Hw1 as _ ->. simpl in *.
    assert (Hgone : hotelId ∉ filter (λ id, id ≠ hotelId) (Home.favorites (page w))).
    { rewrite list_elem_of_filter. by intros [Hne _]. }
    rewrite decide_False in Hsecond by done.
    subst w2. erewrite toggle_adds by done. simpl.
    split; [intros x; by apply removed_then_added |].
    split; [done |]. intros _. split; [done |].
    split; [apply elem_of_app; right; by apply list_elem_of_singleton |].
    by rewrite <- app_assoc.
  - assert (Hw1 := toggle_adds srv1 w u hotelId Hsession Hnotin Hfirst).
    fold w1 in Hw1. destruct (Home.toggle hotelId srv1 w) as [r1 w1'].
    simpl in w1. subst w1. injection Hw1 as _ ->. simpl in *.
    assert (Hthere : hotelId ∈ Home.favorites (page w) ++ [hotelId]).
    { apply elem_of_app; right. by apply list_elem_of_singleton. }
    rewrite decide_True in Hsecond by done.
    subst w2. erewrite toggle_removes by done. simpl.
    rewrite filter_appended by done.
    split; [done |]. split; [| done]. intros _.
    split; [done |]. split; [done |]. by rewrite <- app_assoc.
Qed.

(** A user with the favourites [3] presses the heart of hotel 7 twice
    against a server that accepts every call: the favourites are [3]
    again. *)
Lemma toggle_twice_same_membership_witness :
  Home.favorites
    (page (snd (Home.toggle 7 (λ _, Fulfilled (mkResponse tt))
                  (snd (Home.toggle 7 (λ _, Fulfilled (mkResponse tt))
                          {| page := {| Home.favorites := [3];
                                        Home.snackbar := mkSnackbar false "" success |};
                             store := {| session := Some (mkUser 1 "a@b.com" "user");
                                         localStorage := {["token" := "t1"]} |};
                             sent := []; navigations := [] |})))))
  = [3].
Proof.
  destruct (toggle_twice_same_membership
              (λ _, Fulfilled (mkResponse tt)) (λ _, Fulfilled (mkResponse tt))
              {| page := {| Home.favorites := [3];
                            Home.snackbar := mkSnackbar false "" success |};
                 store := {| session := Some (mkUser 1 "a@b.com" "user");
                             localStorage := {["token" := "t1"]} |};
                 sent := []; navigations := [] |}
              (mkUser 1 "a@b.com" "user") 7 eq_refl
              (ex_intro _ (mkResponse tt) eq_refl)
              (ex_intro _ (mkResponse tt) eq_refl))
    as (_ & Habsent & _).
  destruct Habsent as (_ & Hsame & _); [| exact Hsame].
  intros Hin. apply list_elem_of_singleton in Hin. discriminate Hin.
Defined.

(** ** Booking status: the cancel patch and the operator's refetch *)

Section CancelBooking.
Import UserCenter.
Implicit Types (srv : Server Data) (w : World State) (bookingId : Z).

Lemma cancel_accepted srv w bookingId :
  accepts srv (outgoing w (cancel_call bookingId)) →
  run (HandleCancelBooking bookingId) srv w
  = (Fulfilled tt,
     {| page :=
          {| bookings :=
               map (λ booking, if decide (id booking = bookingId)
                               then with_status booking "cancelled" else booking)
                   (bookings (page w));
             snackbar := {| open := true; message := "Booking cancelled";
                            severity := success |} |};
        store := store w;
        sent := sent w ++ [outgoing w (cancel_call bookingId)];
        navigations := navigations w |}).
Proof.
  intros [response Hsrv]. unfold run, handleCancelBooking, setBookings, setSnackbar.
  handler_steps. by call_settles Hsrv.
Qed.

Lemma cancel_rejected srv w bookingId err :
  srv (outgoing w (cancel_call bookingId)) = Rejected err →
  run (HandleCancelBooking bookingId) srv w
  = (Fulfilled tt,
     {| page :=
          {| bookings := bookings (page w);
             snackbar := {| open := true;
                            message := Js.or_else (response_message err) "Cancel failed";
                            severity := error |} |};
        store := store w;
        sent := sent w ++ [outgoing w (cancel_call bookingId)];
        navigations := navigations w |}).
Proof.
  intros Hsrv. unfold run, handleCancelBooking, setBookings, setSnackbar.
  handler_steps. by call_settles Hsrv.
Qed.

(** What the patch does to one booking. *)
Lemma with_status_frame (booking : Booking) (s : string) :
  id (with_status booking s) = id booking
  ∧ hotelName (with_status booking s) = hotelName booking
  ∧ hotelAddress (with_status booking s) = hotelAddress booking
  ∧ checkInDate (with_status booking s) = checkInDate booking
  ∧ checkOutDate (with_status booking s) = checkOutDate booking
  ∧ guestCount (with_status booking s) = guestCount booking
  ∧ totalPrice (with_status booking s) = totalPrice booking
  ∧ specialRequests (with_status booking s) = specialRequests booking
  ∧ createdAt (with_status booking s) = createdAt booking
  ∧ status (with_status booking s) = s.
Proof. by repeat split. Qed.

End CancelBooking.

Section OperatorBookings.
Import OperatorDashboard.
Implicit Types (srv : Server Data) (w : World State) (bookingId : Z).

(** The refetch, from a world whose snackbar was just set. *)
Lemma fetchBookings_settles srv w :
  fetchBookings srv w
  = (Fulfilled tt,
     {| page :=
          {| bookings :=
               match srv (outgoing w bookings_call) with
               | Fulfilled response => as_bookings (body response)
               | Rejected _ => bookings (page w)
               end;
             snackbar := snackbar (page w) |};
        store := store w;
        sent := sent w ++ [outgoing w bookings_call];
        navigations := navigations w |}).
Proof.
  unfold fetchBookings, setBookings. handler_steps.
  destruct (srv (outgoing w bookings_call)) as [err|response] eqn:Hsrv.
  - call_settles Hsrv. unfold logged. by destruct w as [[] ? ? ?].
  - by call_settles Hsrv.
Qed.

(** A status-advancing handler of the dashboard: the call, then on success
    the notice and the refetch, on failure the notice only. *)
Lemma advance_settles (call : Config) (done failed : string)
    (handler : M Data State unit) srv w :
  handler
  = try_catch
      (bind (request call) (λ _,
         bind (setSnackbar {| open := true; message := done; severity := success |})
           (λ _, fetchBookings)))
      (λ err, setSnackbar {| open := true;
                             message := Js.or_else (response_message err) failed;
                             severity := error |}) →
  handler srv w
  = (Fulfilled tt,
     match srv (outgoing w call) with
     | Fulfilled _ =>
         {| page :=
              {| bookings :=
                   match srv (outgoing w bookings_call) with
                   | Fulfilled response => as_bookings (body response)
                   | Rejected _ => bookings (page w)
                   end;
                 snackbar := {| open := true; message := done; severity := success |} |};
            store := store w;
            sent := sent w ++ [outgoing w call; outgoing w bookings_call];
            navigations := navigations w |}
     | Rejected err =>
         {| page :=
              {| bookings := bookings (page w);
                 snackbar := {| open := true;
                                message := Js.or_else (response_message err) failed;
                                severity := error |} |};
            store := store w;
            sent := sent w ++ [outgoing w call];
            navigations := navigations w |}
     end).
Proof.
  intros ->. unfold try_catch at 1, bind at 1.
  destruct (srv (outgoing w call)) as [err|response] eqn:Hsrv.
  - call_settles Hsrv. by unfold setSnackbar, set_state.
  - call_settles Hsrv. unfold bind, setSnackbar, set_state.
    rewrite fetchBookings_settles. simpl. by rewrite <- app_assoc.
Qed.

End OperatorBookings.

Lemma lookup_map {A B : Type} (f : A → B) (l : list A) (i : nat) :
  map f l !! i = f <$> l !! i.
Proof.
  revert i. induction l as [|x l IH]; intros [|i]; simpl; done.
Qed.

(** C7.  The cancel handler patches the local bookings only when the
    cancel call succeeds, and then only the status of the bookings with the
    targeted id: the list keeps its length and order, a booking with that
    id gets the status ['cancelled'] and keeps every other field, and every
    other booking is the same.  When the call fails the local bookings are
    the same list.  Either way one request has left, the cancel call.
    The operator's confirm and complete handlers never patch: when their
    call fails the local bookings are the same and no other request leaves;
    when it succeeds the list is refetched, and the local bookings become
    the list the server answers (or stay the same if the refetch fails). *)
Theorem handleCancelBooking_patches_status_only :
  ∀ (srv : Server UserCenter.Data) (w : World UserCenter.State) (bookingId : Z)
    (osrv : Server OperatorDashboard.Data) (ow : World OperatorDashboard.State),
    let w' := snd (UserCenter.run (UserCenter.HandleCancelBooking bookingId) srv w) in
    let confirmed := snd (OperatorDashboard.handleConfirmBooking bookingId osrv ow) in
    let completed := snd (OperatorDashboard.handleCompleteBooking bookingId osrv ow) in
    let refetched :=
      match osrv (outgoing ow OperatorDashboard.bookings_call) with
      | Fulfilled response => OperatorDashboard.as_bookings (body response)
      | Rejected _ => OperatorDashboard.bookings (page ow)
      end in
    (accepts srv (outgoing w (UserCenter.cancel_call bookingId)) →
     length (UserCenter.bookings (page w')) = length (UserCenter.bookings (page w))
     ∧ ∀ (i : nat) (booking : UserCenter.Booking),
         UserCenter.bookings (page w) !! i = Some booking →
         ∃ booking' : UserCenter.Booking,
           UserCenter.bookings (page w') !! i = Some booking'
           ∧ (UserCenter.id booking ≠ bookingId → booking' = booking)
           ∧ (UserCenter.id booking = bookingId →
              UserCenter.status booking' = "cancelled"
              ∧ UserCenter.id booking' = UserCenter.id booking
              ∧ UserCenter.hotelName booking' = UserCenter.hotelName booking
              ∧ UserCenter.hotelAddress booking' = UserCenter.hotelAddress booking
              ∧ UserCenter.checkInDate booking' = UserCenter.checkInDate booking
              ∧ UserCenter.checkOutDate booking' = UserCenter.checkOutDate booking
              ∧ UserCenter.guestCount booking' = UserCenter.guestCount booking
              ∧ UserCenter.totalPrice booking' = UserCenter.totalPrice booking
              ∧ UserCenter.specialRequests booking' = UserCenter.specialRequests booking
              ∧ UserCenter.createdAt booking' = UserCenter.createdAt booking))
    ∧ (∀ err, srv (outgoing w (UserCenter.cancel_call bookingId)) = Rejected err →
       UserCenter.bookings (page w') = UserCenter.bookings (page w))
    ∧ sent w' = sent w ++ [outgoing w (UserCenter.cancel_call bookingId)]
    ∧ (∀ err, osrv (outgoing ow (OperatorDashboard.confirm_call bookingId)) = Rejected err →
       OperatorDashboard.bookings (page confirmed) = OperatorDashboard.bookings (page ow)
       ∧ sent confirmed = sent ow ++ [outgoing ow (OperatorDashboard.confirm_call bookingId)])
    ∧ (accepts osrv (outgoing ow (OperatorDashboard.confirm_call bookingId)) →
       OperatorDashboard.bookings (page confirmed) = refetched
       ∧ sent confirmed = sent ow ++ [outgoing ow (OperatorDashboard.confirm_call bookingId);
                                      outgoing ow OperatorDashboard.bookings_call])
    ∧ (∀ err, osrv (outgoing ow (OperatorDashboard.complete_call bookingId)) = Rejected err →
       OperatorDashboard.bookings (page completed) = OperatorDashboard.bookings (page ow)
       ∧ sent completed = sent ow ++ [outgoing ow (OperatorDashboard.complete_call bookingId)])
    ∧ (accepts osrv (outgoing ow (OperatorDashboard.complete_call bookingId)) →
       OperatorDashboard.bookings (page completed) = refetched
       ∧ sent completed = sent ow ++ [outgoing ow (OperatorDashboard.complete_call bookingId);
                                      outgoing ow OperatorDashboard.bookings_call]).
Proof.
  intros srv w bookingId osrv ow w' confirmed completed refetched.
  assert (Hconfirm := advance_settles (OperatorDashboard.confirm_call bookingId)
                        "Booking confirmed" "Confirm failed"
                        (OperatorDashboard.handleConfirmBooking bookingId) osrv ow eq_refl).
  assert (Hcomplete := advance_settles (OperatorDashboard.complete_call bookingId)
                         "Booking completed" "Complete failed"
                         (OperatorDashboard.handleCompleteBooking bookingId) osrv ow eq_refl).
  split; [| split; [| split; [| split; [| split; [| split]]]]].
  - intros Hsrv. subst w'. rewrite (cancel_accepted _ _ _ Hsrv); simpl.
    split; [apply length_map |]. intros i booking Hi.
    rewrite lookup_map, Hi; simpl.
    destruct (decide (UserCenter.id booking = bookingId)) as [Heq|Hne].
    + eexists; split; [reflexivity |]. split; [done |]. intros _.
      destruct (with_status_frame booking "cancelled")
        as (? & ? & ? & ? & ? & ? & ? & ? & ? & ?).
      by repeat split.
    + eexists; split; [reflexivity |]. by split.
  - intros err Hsrv. subst w'. by rewrite (cancel_rejected _ _ _ _ Hsrv).
  - subst w'.
    destruct (srv (outgoing w (UserCenter.cancel_call bookingId))) as [err|response] eqn:Hsrv.
    + by rewrite (cancel_rejected _ _ _ _ Hsrv).
    + by rewrite (cancel_accepted _ _ _ (ex_intro _ _ Hsrv)).
  - intros err Hsrv. subst confirmed. rewrite Hconfirm, Hsrv. done.
  - intros [response Hsrv]. subst confirmed. rewrite Hconfirm, Hsrv. done.
  - intros err Hsrv. subst completed. rewrite Hcomplete, Hsrv. done.
  - intros [response Hsrv]. subst completed. rewrite Hcomplete, Hsrv. done.
Qed.

(** The user of the sample tab cancels booking 5: accepted, the list keeps
    its two bookings; refused, it is the same list. *)
Lemma handleCancelBooking_patches_status_only_witness :
  length (UserCenter.bookings
            (page (snd (UserCenter.run (UserCenter.HandleCancelBooking 5)
                          (λ _, Fulfilled (mkResponse tt)) Samples.booking_tab))))
  = 2%nat
  ∧ UserCenter.bookings
      (page (snd (UserCenter.run (UserCenter.HandleCancelBooking 5)
                    Samples.refusing Samples.booking_tab)))
    = [Samples.pending5; Samples.confirmed6].
Proof.
  split.
  - destruct (handleCancelBooking_patches_status_only
                (λ _, Fulfilled (mkResponse tt)) Samples.booking_tab 5
                Samples.refusing Samples.operator_tab) as (Haccepted & _).
    destruct Haccepted as (Hlength & _); [by eexists | exact Hlength].
  - destruct (handleCancelBooking_patches_status_only
                Samples.refusing Samples.booking_tab 5
                Samples.refusing Samples.operator_tab) as (_ & Hrejected & _).
    exact (Hrejected _ eq_refl).
Defined.

(** ** The actions the views offer *)

Section Actions.

Lemma offers_nil {H : Type} (h : H) : ¬ offers [] h.
Proof. intros (b & Hb & _). by apply elem_of_nil in Hb. Qed.

Lemma offers_cons {H : Type} (b : Button H) (bs : list (Button H)) (h : H) :
  offers (b :: bs) h ↔ press b = Some h ∨ offers bs h.
Proof.
  unfold offers. split.
  - intros (b' & Hb' & Hpress). apply elem_of_cons in Hb' as [->|Hb'].
    + by left.
    + right. by exists b'.
  - intros [Hpress|(b' & Hb' & Hpress)].
    + exists b. split; [apply elem_of_cons; by left | done].
    + exists b'. split; [apply elem_of_cons; by right | done].
Qed.

Lemma user_booking_offers (booking : UserCenter.Booking) (h : UserCenter.Handler) :
  offers (UserCenter.booking_buttons booking) h
  ↔ h = UserCenter.HandleCancelBooking (UserCenter.id booking)
    ∧ UserCenter.status booking = "pending".
Proof.
  unfold UserCenter.booking_buttons.
  destruct (decide (UserCenter.status booking = "pending")) as [Hp|Hp].
  - rewrite offers_cons. unfold press; simpl. split.
    + intros [[= <-]|Hnil]; [done | by apply offers_nil in Hnil].
    + intros [-> _]. by left.
  - split; [intros Hnil; by apply offers_nil in Hnil | by intros [_ ?]].
Qed.

Lemma operator_booking_offers (booking : OperatorDashboard.Booking)
    (h : OperatorDashboard.Handler) :
  offers (OperatorDashboard.booking_buttons booking) h
  ↔ (h = OperatorDashboard.HandleConfirmBooking (OperatorDashboard.id booking)
     ∧ OperatorDashboard.status booking = "pending")
    ∨ (h = OperatorDashboard.HandleCompleteBooking (OperatorDashboard.id booking)
       ∧ OperatorDashboard.status booking = "confirmed").
Proof.
  unfold OperatorDashboard.booking_buttons.
  destruct (decide (OperatorDashboard.status booking = "pending")) as [Hp|Hp];
    destruct (decide (OperatorDashboard.status booking = "confirmed")) as [Hc|Hc];
    simpl; try congruence.
  - rewrite offers_cons. unfold press; simpl. split.
    + intros [[= <-]|Hnil]; [by left | by apply offers_nil in Hnil].
    + intros [[-> _]|[_ ?]]; [by left | congruence].
  - rewrite offers_cons. unfold press; simpl. split.
    + intros [[= <-]|Hnil]; [by right | by apply offers_nil in Hnil].
    + intros [[_ ?]|[-> _]]; [congruence | by left].
  - split; [intros Hnil; by apply offers_nil in Hnil |].
    intros [[_ ?]|[_ ?]]; congruence.
Qed.

End Actions.

(** C8.  A booking whose status is ['cancelled'] or ['completed'] gets no
    button in either booking list, so no mutating action.  The operator's
    list offers the confirm action exactly for the status ['pending'] and
    the complete action exactly for the status ['confirmed'], and nothing
    else; the user's list offers the cancel action exactly for the status
    ['pending'], and nothing else. *)
Theorem booking_buttons_follow_status :
  ∀ (booking : UserCenter.Booking) (obooking : OperatorDashboard.Booking),
    (UserCenter.status booking = "cancelled" ∨ UserCenter.status booking = "completed" →
     UserCenter.booking_buttons booking = [])
    ∧ (OperatorDashboard.status obooking = "cancelled"
       ∨ OperatorDashboard.status obooking = "completed" →
       OperatorDashboard.booking_buttons obooking = [])
    ∧ (∀ h, offers (OperatorDashboard.booking_buttons obooking) h
            ↔ (h = OperatorDashboard.HandleConfirmBooking (OperatorDashboard.id obooking)
               ∧ OperatorDashboard.status obooking = "pending")
              ∨ (h = OperatorDashboard.HandleCompleteBooking (OperatorDashboard.id obooking)
                 ∧ OperatorDashboard.status obooking = "confirmed"))
    ∧ (∀ h, offers (UserCenter.booking_buttons booking) h
            ↔ h = UserCenter.HandleCancelBooking (UserCenter.id booking)
              ∧ UserCenter.status booking = "pending").
Proof.
  intros booking obooking. split; [| split; [| split]].
  - intros Hs. unfold UserCenter.booking_buttons.
    rewrite decide_False; [done |]. destruct Hs as [-> | ->]; discriminate.
  - intros Hs. unfold OperatorDashboard.booking_buttons.
    rewrite !decide_False; [done | |]; destruct Hs as [-> | ->]; discriminate.
  - apply operator_booking_offers.
  - apply user_booking_offers.
Qed.

(** The confirmed sample booking, once cancelled, has no button in the
    user's list. *)
Lemma booking_buttons_follow_status_witness :
  UserCenter.booking_buttons (UserCenter.with_status Samples.confirmed6 "cancelled") = [].
Proof.
  destruct (booking_buttons_follow_status
              (UserCenter.with_status Samples.confirmed6 "cancelled")
              (OperatorDashboard.mkBooking 6 "Plaza" "2 High St" "a@b.com" "2025-08-01"
                 "2025-08-02" 1 150 "completed" None "2025-06-02"))
    as (Huser & _).
  apply Huser. left. reflexivity.
Defined.

Section HotelCard.
Import OperatorDashboard.

(** The session owns the hotel. *)
Lemma mine_true (user : option User) (hotel : Hotel) :
  mine user hotel = true ↔ ∃ u, user = Some u ∧ operatorId hotel = AuthContext.id u.
Proof.
  unfold mine. destruct user as [u|].
  - rewrite bool_decide_eq_true. split; [by exists u | by intros (? & [= <-] & ?)].
  - split; [done | by intros (? & ? & _)].
Qed.

Lemma hotel_buttons_offers (user : option User) (hotel : Hotel) (h : Handler) :
  offers (hotel_buttons user hotel) h
  ↔ mine user hotel = true
    ∧ (h = HandleOpenDialog (Some hotel) ∨ h = HandleDeleteHotel (hotel_id hotel)).
Proof.
  unfold hotel_buttons. rewrite !offers_cons.
  unfold press, edit_button, delete_button; simpl.
  destruct (mine user hotel); simpl.
  - split.
    + intros [[= <-]|[[= <-]|Hnil]]; [by auto | by auto | by apply offers_nil in Hnil].
    + intros [_ [->| ->]]; by auto.
  - split.
    + intros [?|[?|Hnil]]; [done | done | by apply offers_nil in Hnil].
    + by intros [? _].
Qed.

End HotelCard.

(** C9.  On a hotel card of the operator dashboard the edit button and the
    delete button are enabled exactly when a session is present and the
    hotel's [operatorId] is the id of its user.  The handlers a visitor
    can reach through the two buttons are then the edit dialog for that
    hotel and the deletion of that hotel; for a hotel that is not the
    session's no handler can be reached. *)
Theorem hotel_buttons_enabled_iff_mine :
  ∀ (user : option User) (hotel : OperatorDashboard.Hotel),
    (disabled (OperatorDashboard.edit_button user hotel) = false
     ↔ ∃ u, user = Some u ∧ OperatorDashboard.operatorId hotel = AuthContext.id u)
    ∧ (disabled (OperatorDashboard.delete_button user hotel) = false
       ↔ ∃ u, user = Some u ∧ OperatorDashboard.operatorId hotel = AuthContext.id u)
    ∧ (∀ h, offers (OperatorDashboard.hotel_buttons user hotel) h
            ↔ (∃ u, user = Some u ∧ OperatorDashboard.operatorId hotel = AuthContext.id u)
              ∧ (h = OperatorDashboard.HandleOpenDialog (Some hotel)
                 ∨ h = OperatorDashboard.HandleDeleteHotel (OperatorDashboard.hotel_id hotel)))
    ∧ ((¬ ∃ u, user = Some u ∧ OperatorDashboard.operatorId hotel = AuthContext.id u) →
       ∀ h, ¬ offers (OperatorDashboard.hotel_buttons user hotel) h).
Proof.
  intros user hotel. split; [| split; [| split]].
  - rewrite <- mine_true. simpl. by rewrite negb_false_iff.
  - rewrite <- mine_true. simpl. by rewrite negb_false_iff.
  - intros h. rewrite <- mine_true. apply hotel_buttons_offers.
  - intros Hnot h Hoffers. apply hotel_buttons_offers in Hoffers as [Hmine _].
    by apply Hnot, mine_true.
Qed.

(** Operator 3 looks at a hotel of operator 2: nothing to press. *)
Lemma hotel_buttons_enabled_iff_mine_witness :
  ¬ offers
      (OperatorDashboard.hotel_buttons (Some (mkUser 3 "p@b.com" "operator"))
         (OperatorDashboard.mkHotel 9 "Grand" "1 Main St" None 200 0 2))
      (OperatorDashboard.HandleDeleteHotel 9).
Proof.
  destruct (hotel_buttons_enabled_iff_mine (Some (mkUser 3 "p@b.com" "operator"))
              (OperatorDashboard.mkHotel 9 "Grand" "1 Main St" None 200 0 2))
    as (_ & _ & _ & Hforeign).
  apply Hforeign. intros (u & [= <-] & Hid). discriminate Hid.
Defined.

(** ** The booking button of the hotel detail page *)

Section BookButton.
Import HotelDetail.
Variable id_param : option string.
Variable valid : Values → bool.
Implicit Types (srv : Server Data) (w : World State) (h : Hotel) (e : Event).

Lemma book_button_full h :
  availableRooms h = 0 → disabled (book_button h) = true ∧ press (book_button h) = None.
Proof.
  intros Hrooms. unfold press, book_button; simpl.
  by rewrite bool_decide_eq_true_2.
Qed.

Lemma handleBooking_guest srv w :
  handleBooking None srv w
  = (Fulfilled tt,
     {| page := page w; store := store w; sent := sent w;
        navigations := navigations w ++ ["/login"] |}).
Proof. reflexivity. Qed.

(** A press on an enabled booking button, without a session. *)
Lemma press_book_guest srv w h :
  loading (page w) = false → HotelDetail.error (page w) = "" →
  hotel (page w) = Some h → availableRooms h ≠ 0 →
  session (store w) = None →
  dispatch id_param valid PressBook srv w = handleBooking None srv w.
Proof.
  intros Hloading Herror Hhotel Hrooms Hsession. unfold dispatch.
  rewrite Hloading, Herror, Hhotel; simpl.
  unfold pressed, press, book_button; simpl.
  rewrite bool_decide_eq_false_2 by done. unfold run. by rewrite Hsession.
Qed.

(** With no room left and the dialog closed, no event opens the dialog,
    changes the hotel or sends a request. *)
Lemma dispatch_keeps_closed e srv w h :
  hotel (page w) = Some h → availableRooms h = 0 →
  openBookingDialog (page w) = false →
  hotel (page (snd (dispatch id_param valid e srv w))) = Some h
  ∧ openBookingDialog (page (snd (dispatch id_param valid e srv w))) = false
  ∧ sent (snd (dispatch id_param valid e srv w)) = sent w.
Proof.
  intros Hhotel Hrooms Hclosed. unfold dispatch.
  destruct (loading (page w)); [done |].
  destruct (Js.truthy_string (HotelDetail.error (page w))).
  - destruct e; done.
  - rewrite Hhotel, Hclosed.
    destruct e; try done.
    unfold pressed. by destruct (book_button_full h Hrooms) as [_ ->].
Qed.

End BookButton.

(** * Further properties of the client *)

(** ** Notices *)

Lemma or_else_nonempty (x : option string) (fallback : string) :
  fallback ≠ "" → Js.or_else x fallback ≠ "".
Proof.
  intros Hfallback. unfold Js.or_else. destruct x as [s|]; [| done].
  destruct (Js.truthy_string s) eqn:Hs; [| done]. by apply truthy_string_true.
Qed.

Lemma or_else_message (s fallback : string) :
  s ≠ "" → Js.or_else (Some s) fallback = s.
Proof. intros Hs. unfold Js.or_else. by apply truthy_string_true in Hs as ->. Qed.

Lemma or_else_fallback (x : option string) (fallback : string) :
  x = None ∨ x = Some "" → Js.or_else x fallback = fallback.
Proof. by intros [-> | ->]. Qed.

(** X1.  A login that the server rejects leaves the visitor a guest: the
    session store is untouched, nothing is navigated to and one request
    has left.  The form then shows an error that is never empty: the
    server's message when it sent a non-empty one, the fixed text when the
    message is missing or empty. *)
Theorem login_rejected_stays_guest :
  ∀ (values : Login.Values) (srv : Server Login.Data) (w : World Login.State)
    (err : AxiosError),
    srv (outgoing w (Login.login_call values)) = Rejected err →
    let w' := snd (Login.onSubmit values srv w) in
    store w' = store w
    ∧ navigations w' = navigations w
    ∧ sent w' = sent w ++ [outgoing w (Login.login_call values)]
    ∧ Login.error (page w') ≠ ""
    ∧ (∀ m, response_message err = Some m → m ≠ "" → Login.error (page w') = m)
    ∧ (response_message err = None ∨ response_message err = Some "" →
       Login.error (page w') = "Login failed, incorrect username or password").
Proof.
  intros values srv w err Hsrv w'. subst w'.
  rewrite (onSubmit_rejected _ _ _ _ Hsrv); simpl.
  split; [done |]. split; [done |]. split; [done |].
  split; [by apply or_else_nonempty |].
  split; [intros m -> Hm; by apply or_else_message | apply or_else_fallback].
Qed.

(** A wrong password, answered 401 with a message. *)
Lemma login_rejected_stays_guest_witness :
  Login.error
    (page (snd (Login.onSubmit
                  {| Login.email := "a@b.com"; Login.password := "wrong" |}
                  (λ _, Rejected (mkAxiosError "ERR_BAD_REQUEST"
                                    (Some (mkErrorResponse 401 (Some "Bad credentials")))))
                  {| page := {| Login.error := "" |};
                     store := {| session := None; localStorage := ∅ |};
                     sent := []; navigations := [] |})))
  = "Bad credentials".
Proof.
  destruct (login_rejected_stays_guest
              {| Login.email := "a@b.com"; Login.password := "wrong" |}
              (λ _, Rejected (mkAxiosError "ERR_BAD_REQUEST"
                                (Some (mkErrorResponse 401 (Some "Bad credentials")))))
              {| page := {| Login.error := "" |};
                 store := {| session := None; localStorage := ∅ |};
                 sent := []; navigations := [] |}
              (mkAxiosError "ERR_BAD_REQUEST"
                 (Some (mkErrorResponse 401 (Some "Bad credentials"))))
              eq_refl)
    as (_ & _ & _ & _ & Hmessage & _).
  apply Hmessage; [reflexivity | discriminate].
Defined.

(** ** The request interceptor, applied again *)

(** X2.  The request interceptor is idempotent: a request that has passed
    it once passes it again unchanged, whatever the storage holds. *)
Theorem onRequest_idempotent :
  ∀ (storage : gmap string string) (config : Config),
    onRequest storage (onRequest storage config) = onRequest storage config.
Proof.
  intros storage config.
  destruct (getItem storage "token") as [t|] eqn:Hget.
  - destruct (decide (t = "")) as [->|Hne].
    + rewrite !onRequest_no_token; by rewrite ?Hget.
    + rewrite !(onRequest_token _ _ _ Hget Hne); simpl.
      by rewrite insert_insert_eq.
  - rewrite !onRequest_no_token; by rewrite ?Hget.
Qed.

(** ** The navigation bar and the route table *)

Section Navigation.
Import ProtectedRoute.

Lemma route_home (auth : Auth) : App.route "/" auth = Some (Children App.Home).
Proof. reflexivity. Qed.

(** The redirects of the two guards. *)
Lemma ProtectedRoute_redirect {C} (auth : Auth) (children : C)
    (req : option RequiredRole) (to : string) (replace : bool) :
  ProtectedRoute auth children req = Navigate to replace →
  loading auth = false ∧ ((to = "/login" ∧ user auth = None) ∨ to = "/").
Proof.
  unfold ProtectedRoute. destruct (loading auth); [discriminate |].
  destruct (user auth) as [u|]; [| intros [= <- _]; by auto].
  destruct req as [r|]; [| discriminate].
  destruct (decide (role u ≠ literal r)); [| discriminate].
  destruct r; intros [= <- _]; by auto.
Qed.

Lemma PublicRoute_redirect {C} (auth : Auth) (children : C)
    (to : string) (replace : bool) :
  PublicRoute auth children = Navigate to replace →
  loading auth = false
  ∧ (to = "/" ∨ (to = "/operator" ∧ ∃ u, user auth = Some u ∧ role u = "operator")).
Proof.
  unfold PublicRoute. destruct (loading auth); [discriminate |].
  destruct (user auth) as [u|]; [| discriminate].
  destruct (decide (role u = "operator")); intros [= <- _]; [| by auto].
  split; [done |]. right. split; [done |]. by exists u.
Qed.

Lemma route_redirect (auth : Auth) (path to : string) (replace : bool) :
  App.route path auth = Some (Navigate to replace) →
  loading auth = false
  ∧ ((to = "/login" ∧ user auth = None)
     ∨ to = "/"
     ∨ (to = "/operator" ∧ ∃ u, user auth = Some u ∧ role u = "operator")).
Proof.
  unfold App.route.
  destruct (decide (path = "/")); [discriminate |].
  destruct (decide (path = "/login")).
  { intros [= H]. apply PublicRoute_redirect in H as [? [?|?]]; by auto. }
  destruct (decide (path = "/register")).
  { intros [= H]. apply PublicRoute_redirect in H as [? [?|?]]; by auto. }
  destruct (decide (path = "/operator")).
  { intros [= H]. apply ProtectedRoute_redirect in H as [? [?|?]]; by auto. }
  destruct (decide (path = "/user")); [| discriminate].
  intros [= H]. apply ProtectedRoute_redirect in H as [? [?|?]]; by auto.
Qed.

End Navigation.

(** X3.  Every link of the navigation bar leads to a page that the route
    table renders for the same session state: the bar never offers a link
    that a guard would answer with a redirect or with the wait
    indicator. *)
Theorem Navbar_links_are_open :
  ∀ (auth : Auth) (label to : string),
    Navbar.LinkTo label to ∈ Navbar.Navbar auth →
    ∃ p : App.Page, App.route to auth = Some (ProtectedRoute.Children p).
Proof.
  intros [session loading] label to. unfold Navbar.Navbar; simpl.
  rewrite elem_of_cons. intros [[= -> ->]|Hin]; [by eexists |].
  destruct loading.
  { apply list_elem_of_singleton in Hin. discriminate Hin. }
  destruct session as [u|].
  - apply elem_of_app in Hin as [Hin|Hin].
    + destruct (decide (role u = "operator")) as [Hop|Hop];
        [| by apply elem_of_nil in Hin].
      apply list_elem_of_singleton in Hin as [= -> ->].
      exists App.OperatorDashboard.
      unfold App.route, ProtectedRoute.ProtectedRoute; simpl. by rewrite Hop.
    + apply elem_of_cons in Hin as [[= -> ->]|Hin]; [by eexists |].
      apply elem_of_cons in Hin as [Hin|Hin]; [discriminate Hin |].
      apply list_elem_of_singleton in Hin. discriminate Hin.
  - apply elem_of_cons in Hin as [[= -> ->]|Hin]; [by eexists |].
    apply list_elem_of_singleton in Hin as [= -> ->]. by eexists.
Qed.

(** An operator's bar has the dashboard link, and the dashboard opens. *)
Lemma Navbar_links_are_open_witness :
  ∃ p : App.Page,
    App.route "/operator"
      {| user := Some (mkUser 2 "o@b.com" "operator"); loading := false |}
    = Some (ProtectedRoute.Children p).
Proof.
  apply (Navbar_links_are_open
           {| user := Some (mkUser 2 "o@b.com" "operator"); loading := false |}
           "Operator Dashboard" "/operator").
  unfold Navbar.Navbar; simpl.
  apply elem_of_cons; right. apply elem_of_cons; left. reflexivity.
Defined.

(** X4.  There is no redirect loop: when a route answers with a redirect,
    the route it redirects to renders its page for the same session. *)
Theorem redirect_lands_on_a_page :
  ∀ (auth : Auth) (path to : string) (replace : bool),
    App.route path auth = Some (ProtectedRoute.Navigate to replace) →
    ∃ p : App.Page, App.route to auth = Some (ProtectedRoute.Children p).
Proof.
  intros auth path to replace Hroute.
  destruct (route_redirect auth path to replace Hroute)
    as [Hloading [[-> Hguest]|[->|[-> (u & Huser & Hop)]]]].
  - exists App.Login. destruct auth as [session loading]; simpl in *.
    by subst.
  - by eexists.
  - exists App.OperatorDashboard. destruct auth as [session loading]; simpl in *.
    subst. unfold App.route, ProtectedRoute.ProtectedRoute; simpl. by rewrite Hop.
Qed.

(** A guest who asks for the user centre is sent to the login page, which
    opens. *)
Lemma redirect_lands_on_a_page_witness :
  ∃ p : App.Page,
    App.route "/login" {| user := None; loading := false |}
    = Some (ProtectedRoute.Children p).
Proof.
  apply (redirect_lands_on_a_page {| user := None; loading := false |}
           "/user" "/login" true).
  reflexivity.
Defined.

(** ** The registration form *)

Section Registration.
Import Register.
Implicit Types (srv : Server Data) (w : World State) (values : Values).



End Registration.


(** X6.  The registration code reaches the server only for the role
    ['operator']: for any other role the request and the outcome are the
    same whatever code was typed, and the confirmation of the password
    never influences them. *)
Theorem register_code_only_for_operator :
  ∀ (email password confirm confirm' role code code' : string)
    (srv : Server Register.Data) (w : World Register.State),
    role ≠ "operator" →
    Register.onSubmit (Register.mkValues email password confirm role code) srv w
    = Register.onSubmit (Register.mkValues email password confirm' role code') srv w
    ∧ Register.register_call (Register.mkValues email password confirm role code)
      = {| method := POST; url := "/auth/register"; headers := None;
           data := Some [("email", Str email); ("password", Str password);
                         ("role", Str role); ("registerCode", Str "")] |}.
Proof.
  intros email password confirm confirm' role code code' srv w Hrole.
  unfold Register.onSubmit, Register.register_call; simpl.
  by rewrite !decide_False.
Qed.

(** A user who typed a code: the code is not sent. *)
Lemma register_code_only_for_operator_witness :
  Register.register_call (Register.mkValues "a@b.com" "secret1" "secret1" "user" "XYZ")
  = {| method := POST; url := "/auth/register"; headers := None;
       data := Some [("email", Str "a@b.com"); ("password", Str "secret1");
                     ("role", Str "user"); ("registerCode", Str "")] |}.
Proof.
  destruct (register_code_only_for_operator "a@b.com" "secret1" "secret1" "" "user"
              "XYZ" "" (λ _, Fulfilled (mkResponse tt))
              {| page := {| Register.error := ""; Register.success := "" |};
                 store := {| session := None; localStorage := ∅ |};
                 sent := []; navigations := [] |})
    as (_ & Hcall); [discriminate | exact Hcall].
Defined.

(** ** One press on the heart *)

(** X7.  A favourites toggle whose call fails changes nothing locally: the
    favourites are the same list, one request has left, and the notice is
    an error whose text is never empty. *)
Theorem toggle_rejected_keeps_favorites :
  ∀ (srv : Server Home.Data) (w : World Home.State) (u : User) (hotelId : Z)
    (err : AxiosError),
    session (store w) = Some u →
    srv (outgoing w (Home.toggle_call (Home.favorites (page w)) hotelId)) = Rejected err →
    let w' := snd (Home.toggle hotelId srv w) in
    Home.favorites (page w') = Home.favorites (page w)
    ∧ sent w' = sent w ++ [outgoing w (Home.toggle_call (Home.favorites (page w)) hotelId)]
    ∧ severity (Home.snackbar (page w')) = error
    ∧ open (Home.snackbar (page w')) = true
    ∧ message (Home.snackbar (page w')) ≠ "".
Proof.
  intros srv w u hotelId err Hsession Hsrv w'. subst w'.
  rewrite (toggle_rejected _ _ _ _ _ Hsession Hsrv); simpl.
  repeat (split; [done |]). by apply or_else_nonempty.
Qed.

(** The server refuses to add hotel 7. *)
Lemma toggle_rejected_keeps_favorites_witness :
  Home.favorites
    (page (snd (Home.toggle 7 Samples.refusing
                  {| page := {| Home.favorites := [3];
                                Home.snackbar := mkSnackbar false "" success |};
                     store := {| session := Some (mkUser 1 "a@b.com" "user");
                                 localStorage := {["token" := "t1"]} |};
                     sent := []; navigations := [] |})))
  = [3].
Proof.
  destruct (toggle_rejected_keeps_favorites Samples.refusing
              {| page := {| Home.favorites := [3];
                            Home.snackbar := mkSnackbar false "" success |};
                 store := {| session := Some (mkUser 1 "a@b.com" "user");
                             localStorage := {["token" := "t1"]} |};
                 sent := []; navigations := [] |}
              (mkUser 1 "a@b.com" "user") 7
              (mkAxiosError "ERR_BAD_REQUEST"
                 (Some (mkErrorResponse 400 (Some "Not allowed"))))
              eq_refl eq_refl)
    as (Hsame & _).
  exact Hsame.
Defined.

Section ToggleOnce.
Import Home.
Implicit Types (srv : Server Data) (w : World State) (hotelId : Z).

(** The favourites after a toggle, whatever the session and the answer. *)
Lemma toggle_favorites srv w hotelId :
  favorites (page (snd (toggle hotelId srv w))) = favorites (page w)
  ∨ (hotelId ∈ favorites (page w)
     ∧ favorites (page (snd (toggle hotelId srv w)))
       = filter (λ id, id ≠ hotelId) (favorites (page w)))
  ∨ ((hotelId ∉ favorites (page w))
     ∧ favorites (page (snd (toggle hotelId srv w))) = favorites (page w) ++ [hotelId]).
Proof.
  destruct (session (store w)) as [u|] eqn:Hsession.
  - destruct (srv (outgoing w (toggle_call (favorites (page w)) hotelId)))
      as [err|response] eqn:Hsrv.
    + left. by rewrite (toggle_rejected _ _ _ _ _ Hsession Hsrv).
    + right. unfold toggle_call in Hsrv.
      destruct (decide (hotelId ∈ favorites (page w))) as [Hin|Hnotin].
      * left. split; [done |].
        by rewrite (toggle_removes _ _ _ _ Hsession Hin (ex_intro _ _ Hsrv)).
      * right. split; [done |].
        by rewrite (toggle_adds _ _ _ _ Hsession Hnotin (ex_intro _ _ Hsrv)).
  - left. unfold toggle. by rewrite Hsession.
Qed.

End ToggleOnce.

(** X8.  The favourites toggle keeps the local favourites free of
    duplicates: if no hotel id occurs twice before a press, none does
    after it, whatever the session and whatever the server answers. *)
Theorem toggle_keeps_NoDup :
  ∀ (srv : Server Home.Data) (w : World Home.State) (hotelId : Z),
    NoDup (Home.favorites (page w)) →
    NoDup (Home.favorites (page (snd (Home.toggle hotelId srv w)))).
Proof.
  intros srv w hotelId Hnodup.
  destruct (toggle_favorites srv w hotelId) as [->|[[_ ->]|[Hnotin ->]]].
  - done.
  - by apply NoDup_filter.
  - apply NoDup_app. split; [done |]. split; [| apply NoDup_singleton].
    intros x Hx Hx'. apply list_elem_of_singleton in Hx' as ->. done.
Qed.

(** Hotel 7 is added to the favourites [3]: still no duplicate. *)
Lemma toggle_keeps_NoDup_witness :
  NoDup (Home.favorites
           (page (snd (Home.toggle 7 (λ _, Fulfilled (mkResponse tt))
                         {| page := {| Home.favorites := [3];
                                       Home.snackbar := mkSnackbar false "" success |};
                            store := {| session := Some (mkUser 1 "a@b.com" "user");
                                        localStorage := ∅ |};
                            sent := []; navigations := [] |})))).
Proof.
  apply (toggle_keeps_NoDup (λ _, Fulfilled (mkResponse tt))
           {| page := {| Home.favorites := [3];
                         Home.snackbar := mkSnackbar false "" success |};
              store := {| session := Some (mkUser 1 "a@b.com" "user");
                          localStorage := ∅ |};
              sent := []; navigations := [] |} 7).
  apply NoDup_singleton.
Defined.

(** X9.  One accepted press flips the membership of the pressed hotel and
    of no other: afterwards the hotel is a favourite exactly if it was not
    one before, and every other id is a favourite exactly if it was. *)
Theorem toggle_flips_one_membership :
  ∀ (srv : Server Home.Data) (w : World Home.State) (u : User) (hotelId : Z),
    session (store w) = Some u →
    accepts srv (outgoing w (Home.toggle_call (Home.favorites (page w)) hotelId)) →
    let w' := snd (Home.toggle hotelId srv w) in
    (hotelId ∈ Home.favorites (page w') ↔ hotelId ∉ Home.favorites (page w))
    ∧ (∀ x : Z, x ≠ hotelId →
         (x ∈ Home.favorites (page w') ↔ x ∈ Home.favorites (page w))).
Proof.
  intros srv w u hotelId Hsession Hsrv w'. subst w'.
  unfold Home.toggle_call in Hsrv.
  destruct (decide (hotelId ∈ Home.favorites (page w))) as [Hin|Hnotin].
  - rewrite (toggle_removes _ _ _ _ Hsession Hin Hsrv); simpl. split.
    + rewrite list_elem_of_filter. split; [by intros [? _] | done].
    + intros x Hx. rewrite list_elem_of_filter. split; [by intros [_ ?] | done].
  - rewrite (toggle_adds _ _ _ _ Hsession Hnotin Hsrv); simpl. split.
    + split; [done |]. intros _. apply elem_of_app; right.
      by apply list_elem_of_singleton.
    + intros x Hx. rewrite elem_of_app, list_elem_of_singleton.
      split; [by intros [?|?] | by left].
Qed.

(** After one accepted press on hotel 7, hotel 3 is still a favourite. *)
Lemma toggle_flips_one_membership_witness :
  3 ∈ Home.favorites
        (page (snd (Home.toggle 7 (λ _, Fulfilled (mkResponse tt))
                      {| page := {| Home.favorites := [3];
                                    Home.snackbar := mkSnackbar false "" success |};
                         store := {| session := Some (mkUser 1 "a@b.com" "user");
                                     localStorage := ∅ |};
                         sent := []; navigations := [] |}))).
Proof.
  destruct (toggle_flips_one_membership (λ _, Fulfilled (mkResponse tt))
              {| page := {| Home.favorites := [3];
                            Home.snackbar := mkSnackbar false "" success |};
                 store := {| session := Some (mkUser 1 "a@b.com" "user");
                             localStorage := ∅ |};
                 sent := []; navigations := [] |}
              (mkUser 1 "a@b.com" "user") 7 eq_refl
              (ex_intro _ (mkResponse tt) eq_refl))
    as (_ & Hothers).
  apply (Hothers 3); [discriminate |]. apply list_elem_of_singleton. reflexivity.
Defined.

(** ** The hotel list of the home page *)

Section HomeList.
Import HomeListing.
Variable hotels_call : list (string * Value) → Config.
Implicit Types (srv : Server Data) (w : World State) (name : option string).

Lemma fetchHotels_settles name srv w :
  fetchHotels hotels_call name srv w
  = (Fulfilled tt,
     {| page :=
          {| hotels := match srv (outgoing w (hotels_call (name_params name))) with
                       | Fulfilled res => body res
                       | Rejected _ => []
                       end;
             search := search (page w); loading := false;
             favorites := favorites (page w); snackbar := snackbar (page w) |};
        store := store w;
        sent := sent w ++ [outgoing w (hotels_call (name_params name))];
        navigations := navigations w |}).
Proof.
  unfold fetchHotels, setLoading, setHotels. handler_steps.
  destruct (srv (outgoing w (hotels_call (name_params name)))) as [err|res] eqn:Hsrv;
    by call_settles Hsrv.
Qed.

Lemma fetchFavorites_settles (u : User) srv w :
  fetchFavorites (Some u) srv w
  = (Fulfilled tt,
     {| page :=
          {| hotels := hotels (page w); search := search (page w);
             loading := loading (page w);
             favorites :=
               match srv (outgoing w {| method := GET; url := "/favorites";
                                        headers := None; data := None |}) with
               | Fulfilled response => map (λ hotel, id hotel) (body response)
               | Rejected _ => favorites (page w)
               end;
             snackbar := snackbar (page w) |};
        store := store w;
        sent := sent w ++ [outgoing w {| method := GET; url := "/favorites";
                                         headers := None; data := None |}];
        navigations := navigations w |}).
Proof.
  unfold fetchFavorites, setFavorites. handler_steps.
  destruct (srv (outgoing w {| method := GET; url := "/favorites";
                               headers := None; data := None |}))
    as [err|response] eqn:Hsrv.
  - call_settles Hsrv. unfold logged. by destruct w as [[] ? ? ?].
  - by call_settles Hsrv.
Qed.

End HomeList.

(** X10.  The favourites of the home page are fetched only for a session:
    for a guest nothing is sent and nothing changes.  For a user one
    request leaves; answered, the local favourites become the ids of the
    hotels received, in their order; failed, the page is exactly as it
    was, without any notice. *)
Theorem home_fetchFavorites_outcome :
  ∀ (srv : Server HomeListing.Data) (w : World HomeListing.State) (u : User),
    HomeListing.fetchFavorites None srv w = (Fulfilled tt, w)
    ∧ sent (snd (HomeListing.fetchFavorites (Some u) srv w))
      = sent w ++ [outgoing w {| method := GET; url := "/favorites";
                                 headers := None; data := None |}]
    ∧ (∀ response,
         srv (outgoing w {| method := GET; url := "/favorites";
                            headers := None; data := None |}) = Fulfilled response →
         HomeListing.favorites (page (snd (HomeListing.fetchFavorites (Some u) srv w)))
         = map HomeListing.id (body response))
    ∧ (∀ err,
         srv (outgoing w {| method := GET; url := "/favorites";
                            headers := None; data := None |}) = Rejected err →
         page (snd (HomeListing.fetchFavorites (Some u) srv w)) = page w).
Proof.
  intros srv w u. split; [done |].
  rewrite fetchFavorites_settles; simpl. split; [done |]. split.
  - by intros response ->.
  - intros err ->. by destruct (page w).
Qed.

(** The favourites request of a user fails. *)
Lemma home_fetchFavorites_outcome_witness :
  HomeListing.favorites
    (page (snd (HomeListing.fetchFavorites (Some (mkUser 1 "a@b.com" "user"))
                  Samples.refusing
                  {| page := HomeListing.mkState [] "" false [3] (mkSnackbar false "" success);
                     store := {| session := Some (mkUser 1 "a@b.com" "user");
                                 localStorage := ∅ |};
                     sent := []; navigations := [] |})))
  = [3].
Proof.
  destruct (home_fetchFavorites_outcome Samples.refusing
              {| page := HomeListing.mkState [] "" false [3] (mkSnackbar false "" success);
                 store := {| session := Some (mkUser 1 "a@b.com" "user");
                             localStorage := ∅ |};
                 sent := []; navigations := [] |}
              (mkUser 1 "a@b.com" "user"))
    as (_ & _ & _ & Hfailed).
  by rewrite (Hfailed _ eq_refl).
Defined.

(** X11.  Fetching the hotel list always ends with the loading flag down
    and one request sent.  Answered, the list is the one received; failed,
    the list is emptied, whatever it held.  The favourites, the search
    text and the notice are not touched. *)
Theorem home_fetchHotels_outcome :
  ∀ (hotels_call : list (string * Value) → Config) (name : option string)
    (srv : Server HomeListing.Data) (w : World HomeListing.State),
    let w' := snd (HomeListing.fetchHotels hotels_call name srv w) in
    HomeListing.loading (page w') = false
    ∧ sent w' = sent w ++ [outgoing w (hotels_call (HomeListing.name_params name))]
    ∧ (∀ res, srv (outgoing w (hotels_call (HomeListing.name_params name))) = Fulfilled res →
         HomeListing.hotels (page w') = body res)
    ∧ (∀ err, srv (outgoing w (hotels_call (HomeListing.name_params name))) = Rejected err →
         HomeListing.hotels (page w') = [])
    ∧ HomeListing.favorites (page w') = HomeListing.favorites (page w)
    ∧ HomeListing.search (page w') = HomeListing.search (page w)
    ∧ HomeListing.snackbar (page w') = HomeListing.snackbar (page w).
Proof.
  intros hotels_call name srv w w'. subst w'.
  rewrite fetchHotels_settles; simpl.
  split; [done |]. split; [done |].
  split; [by intros res -> |]. split; [by intros err -> | done].
Qed.

(** A failed fetch empties a list of one hotel. *)
Lemma home_fetchHotels_outcome_witness :
  HomeListing.hotels
    (page (snd (HomeListing.fetchHotels
                  (λ params, {| method := GET; url := "/hotels"; headers := None;
                                data := Some params |})
                  None Samples.refusing
                  {| page := HomeListing.mkState
                               [HomeListing.mkHotel 9 "Grand" "1 Main St" None 200 0]
                               "" false [] (mkSnackbar false "" success);
                     store := {| session := None; localStorage := ∅ |};
                     sent := []; navigations := [] |})))
  = [].
Proof.
  destruct (home_fetchHotels_outcome
              (λ params, {| method := GET; url := "/hotels"; headers := None;
                            data := Some params |})
              None Samples.refusing
              {| page := HomeListing.mkState
                           [HomeListing.mkHotel 9 "Grand" "1 Main St" None 200 0]
                           "" false [] (mkSnackbar false "" success);
                 store := {| session := None; localStorage := ∅ |};
                 sent := []; navigations := [] |})
    as (_ & _ & _ & Hfailed & _).
  exact (Hfailed _ eq_refl).
Defined.

(** X12.  A search with an empty text is the unfiltered fetch of the first
    load: no [name] parameter is sent.  A non-empty text is sent as the
    [name] parameter.  In the search field only the Enter key searches:
    for any other key nothing is sent and nothing changes. *)
Theorem home_search_parameters :
  ∀ (hotels_call : list (string * Value) → Config) (search key : string)
    (srv : Server HomeListing.Data) (w : World HomeListing.State),
    HomeListing.handleSearch hotels_call "" srv w
      = HomeListing.fetchHotels hotels_call None srv w
    ∧ sent (snd (HomeListing.handleSearch hotels_call "" srv w))
      = sent w ++ [outgoing w (hotels_call [])]
    ∧ (search ≠ "" →
       sent (snd (HomeListing.handleSearch hotels_call search srv w))
       = sent w ++ [outgoing w (hotels_call [("name", Str search)])])
    ∧ (key ≠ "Enter" →
       HomeListing.handleKeyPress hotels_call search key srv w = (Fulfilled tt, w))
    ∧ HomeListing.handleKeyPress hotels_call search "Enter" srv w
      = HomeListing.handleSearch hotels_call search srv w.
Proof.
  intros hotels_call search key srv w. unfold HomeListing.handleSearch.
  rewrite !fetchHotels_settles; simpl.
  split; [done |]. split; [done |]. split.
  - intros Hsearch. by apply truthy_string_true in Hsearch as ->.
  - unfold HomeListing.handleKeyPress, HomeListing.handleSearch. split.
    + intros Hkey. by rewrite decide_False.
    + rewrite decide_True by done. by rewrite fetchHotels_settles.
Qed.

(** Typing the letter a in the search field sends nothing. *)
Lemma home_search_parameters_witness :
  sent (snd (HomeListing.handleKeyPress
               (λ params, {| method := GET; url := "/hotels"; headers := None;
                             data := Some params |})
               "Gr" "a" Samples.refusing
               {| page := HomeListing.mkState [] "Gr" false [] (mkSnackbar false "" success);
                  store := {| session := None; localStorage := ∅ |};
                  sent := []; navigations := [] |}))
  = [].
Proof.
  destruct (home_search_parameters
              (λ params, {| method := GET; url := "/hotels"; headers := None;
                            data := Some params |})
              "Gr" "a" Samples.refusing
              {| page := HomeListing.mkState [] "Gr" false [] (mkSnackbar false "" success);
                 store := {| session := None; localStorage := ∅ |};
                 sent := []; navigations := [] |})
    as (_ & _ & _ & Hkey & _).
  rewrite Hkey; [reflexivity | discriminate].
Defined.

(** ** The user centre: tabs, favourites and profile *)

Section UserTabs.
Import UserCenterTabs.
Implicit Types (srv : Server Data) (w : World State).

Lemma user_fetchFavorites_settles srv w :
  fetchFavorites srv w
  = (Fulfilled tt,
     {| page :=
          {| tabValue := tabValue (page w);
             openProfileDialog := openProfileDialog (page w);
             favorites := match srv (outgoing w favorites_call) with
                          | Fulfilled response => as_favorites (body response)
                          | Rejected _ => favorites (page w)
                          end;
             bookings := bookings (page w);
             loading := false;
             snackbar := match srv (outgoing w favorites_call) with
                         | Fulfilled _ => snackbar (page w)
                         | Rejected _ =>
                             {| open := true; message := "Failed to fetch favorites";
                                severity := error |}
                         end;
             values := values (page w) |};
        store := store w;
        sent := sent w ++ [outgoing w favorites_call];
        navigations := navigations w |}).
Proof.
  unfold fetchFavorites, try_catch_finally, setLoading, setFavorites, setSnackbar.
  handler_steps.
  destruct (srv (outgoing w favorites_call)) as [err|response] eqn:Hsrv;
    by call_settles Hsrv.
Qed.

Lemma user_fetchBookings_settles srv w :
  fetchBookings srv w
  = (Fulfilled tt,
     {| page :=
          {| tabValue := tabValue (page w);
             openProfileDialog := openProfileDialog (page w);
             favorites := favorites (page w);
             bookings := match srv (outgoing w bookings_call) with
                         | Fulfilled response => as_bookings (body response)
                         | Rejected _ => bookings (page w)
                         end;
             loading := false;
             snackbar := match srv (outgoing w bookings_call) with
                         | Fulfilled _ => snackbar (page w)
                         | Rejected _ =>
                             {| open := true; message := "Failed to fetch bookings";
                                severity := error |}
                         end;
             values := values (page w) |};
        store := store w;
        sent := sent w ++ [outgoing w bookings_call];
        navigations := navigations w |}).
Proof.
  unfold fetchBookings, try_catch_finally, setLoading, setBookings, setSnackbar.
  handler_steps.
  destruct (srv (outgoing w bookings_call)) as [err|response] eqn:Hsrv;
    by call_settles Hsrv.
Qed.

Lemma removeFavorite_accepted srv w (favs : list FavoriteHotel) (hotelId : Z) :
  accepts srv (outgoing w (remove_call hotelId)) →
  handleRemoveFavorite favs hotelId srv w
  = (Fulfilled tt,
     {| page :=
          {| tabValue := tabValue (page w);
             openProfileDialog := openProfileDialog (page w);
             favorites := filter (λ hotel, id hotel ≠ hotelId) favs;
             bookings := bookings (page w);
             loading := loading (page w);
             snackbar := {| open := true; message := "Removed from favorites";
                            severity := success |};
             values := values (page w) |};
        store := store w;
        sent := sent w ++ [outgoing w (remove_call hotelId)];
        navigations := navigations w |}).
Proof.
  intros [response Hsrv]. unfold handleRemoveFavorite, setFavorites, setSnackbar.
  handler_steps. by call_settles Hsrv.
Qed.

Lemma removeFavorite_rejected srv w (favs : list FavoriteHotel) (hotelId : Z) err :
  srv (outgoing w (remove_call hotelId)) = Rejected err →
  handleRemoveFavorite favs hotelId srv w
  = (Fulfilled tt,
     {| page :=
          {| tabValue := tabValue (page w);
             openProfileDialog := openProfileDialog (page w);
             favorites := favorites (page w);
             bookings := bookings (page w);
             loading := loading (page w);
             snackbar := {| open := true;
                            message := Js.or_else (response_message err) "Remove failed";
                            severity := error |};
             values := values (page w) |};
        store := store w;
        sent := sent w ++ [outgoing w (remove_call hotelId)];
        navigations := navigations w |}).
Proof.
  intros Hsrv. unfold handleRemoveFavorite, setFavorites, setSnackbar.
  handler_steps. by call_settles Hsrv.
Qed.

End UserTabs.

(** X13.  A fetch of the user centre, of the favourites or of the
    bookings, always ends with the loading flag down and one request
    sent.  Answered, the list becomes the one received and the notice is
    untouched; failed, the list is the one the page had and an error
    notice is shown.  The other list is never touched. *)
Theorem user_fetch_outcome :
  ∀ (srv : Server UserCenterTabs.Data) (w : World UserCenterTabs.State),
    let wf := snd (UserCenterTabs.fetchFavorites srv w) in
    let wb := snd (UserCenterTabs.fetchBookings srv w) in
    UserCenterTabs.loading (page wf) = false
    ∧ UserCenterTabs.loading (page wb) = false
    ∧ sent wf = sent w ++ [outgoing w UserCenterTabs.favorites_call]
    ∧ sent wb = sent w ++ [outgoing w UserCenterTabs.bookings_call]
    ∧ UserCenterTabs.bookings (page wf) = UserCenterTabs.bookings (page w)
    ∧ UserCenterTabs.favorites (page wb) = UserCenterTabs.favorites (page w)
    ∧ (∀ err, srv (outgoing w UserCenterTabs.favorites_call) = Rejected err →
         UserCenterTabs.favorites (page wf) = UserCenterTabs.favorites (page w)
         ∧ UserCenterTabs.snackbar (page wf)
           = {| open := true; message := "Failed to fetch favorites"; severity := error |})
    ∧ (∀ err, srv (outgoing w UserCenterTabs.bookings_call) = Rejected err →
         UserCenterTabs.bookings (page wb) = UserCenterTabs.bookings (page w)
         ∧ UserCenterTabs.snackbar (page wb)
           = {| open := true; message := "Failed to fetch bookings"; severity := error |})
    ∧ (∀ response, srv (outgoing w UserCenterTabs.favorites_call) = Fulfilled response →
         UserCenterTabs.favorites (page wf) = UserCenterTabs.as_favorites (body response)
         ∧ UserCenterTabs.snackbar (page wf) = UserCenterTabs.snackbar (page w))
    ∧ (∀ response, srv (outgoing w UserCenterTabs.bookings_call) = Fulfilled response →
         UserCenterTabs.bookings (page wb) = UserCenterTabs.as_bookings (body response)
         ∧ UserCenterTabs.snackbar (page wb) = UserCenterTabs.snackbar (page w)).
Proof.
  intros srv w wf wb. subst wf wb.
  rewrite user_fetchFavorites_settles, user_fetchBookings_settles; simpl.
  repeat (split; [done |]).
  split; [by intros err -> |]. split; [by intros err -> |].
  split; by intros response ->.
Qed.

(** X14.  A press on a tab sends at most one request and only for a new
    tab: a press on the tab already shown changes nothing; the favourites
    tab fetches the favourites, the bookings tab fetches the bookings, and
    the profile tab (like any other value) sends nothing.  After a press
    the tab shown is the one pressed. *)
Theorem select_tab_requests :
  ∀ (newValue : Z) (srv : Server UserCenterTabs.Data) (w : World UserCenterTabs.State),
    let w' := snd (UserCenterTabs.select_tab newValue srv w) in
    UserCenterTabs.tabValue (page w') = newValue
    ∧ (newValue = UserCenterTabs.tabValue (page w) → w' = w)
    ∧ (newValue ≠ UserCenterTabs.tabValue (page w) →
       sent w' = sent w ++
                 (if decide (newValue = 1) then [outgoing w UserCenterTabs.favorites_call]
                  else if decide (newValue = 2) then [outgoing w UserCenterTabs.bookings_call]
                  else [])).
Proof.
  intros newValue srv w w'. subst w'. unfold UserCenterTabs.select_tab.
  destruct (decide (newValue = UserCenterTabs.tabValue (page w))) as [Heq|Hne].
  - by split.
  - unfold bind, UserCenterTabs.setTabValue, set_state, UserCenterTabs.on_tab.
    destruct (decide (newValue = 1)) as [->|H1].
    + rewrite user_fetchFavorites_settles; simpl. by split.
    + destruct (decide (newValue = 2)) as [->|H2].
      * rewrite user_fetchBookings_settles; simpl. by split.
      * simpl. split; [done |]. split; [done |]. intros _. by rewrite app_nil_r.
Qed.

(** From the profile tab to the bookings tab: one request, the bookings. *)
Lemma select_tab_requests_witness :
  sent (snd (UserCenterTabs.select_tab 2 Samples.refusing
               {| page := UserCenterTabs.mkState 0 false [] [] false
                            (mkSnackbar false "" success)
                            (UserCenterTabs.initialValues None);
                  store := {| session := None; localStorage := ∅ |};
                  sent := []; navigations := [] |}))
  = [UserCenterTabs.bookings_call].
Proof.
  destruct (select_tab_requests 2 Samples.refusing
              {| page := UserCenterTabs.mkState 0 false [] [] false
                           (mkSnackbar false "" success)
                           (UserCenterTabs.initialValues None);
                 store := {| session := None; localStorage := ∅ |};
                 sent := []; navigations := [] |})
    as (_ & _ & Hnew).
  rewrite Hnew; [reflexivity | discriminate].
Defined.

(** X15.  Removing a favourite in the user centre, once the server has
    accepted it, leaves no hotel with that id in the local list and keeps
    every other hotel, in the same order; when the server refuses, the
    local list is the one of the page and an error notice with a non-empty
    text is shown. *)
Theorem handleRemoveFavorite_outcome :
  ∀ (srv : Server UserCenterTabs.Data) (w : World UserCenterTabs.State) (hotelId : Z),
    let w' := snd (UserCenterTabs.handleRemoveFavorite
                     (UserCenterTabs.favorites (page w)) hotelId srv w) in
    (accepts srv (outgoing w (UserCenterTabs.remove_call hotelId)) →
     (∀ hotel, hotel ∈ UserCenterTabs.favorites (page w') ↔
               hotel ∈ UserCenterTabs.favorites (page w)
               ∧ UserCenterTabs.id hotel ≠ hotelId)
     ∧ UserCenterTabs.favorites (page w') `sublist_of` UserCenterTabs.favorites (page w))
    ∧ (∀ err, srv (outgoing w (UserCenterTabs.remove_call hotelId)) = Rejected err →
       UserCenterTabs.favorites (page w') = UserCenterTabs.favorites (page w)
       ∧ severity (UserCenterTabs.snackbar (page w')) = error
       ∧ message (UserCenterTabs.snackbar (page w')) ≠ "")
    ∧ sent w' = sent w ++ [outgoing w (UserCenterTabs.remove_call hotelId)].
Proof.
  intros srv w hotelId w'. subst w'. split; [| split].
  - intros Hsrv. rewrite (removeFavorite_accepted _ _ _ _ Hsrv); simpl. split.
    + intros hotel. by rewrite list_elem_of_filter, (comm and).
    + apply sublist_filter.
  - intros err Hsrv. rewrite (removeFavorite_rejected _ _ _ _ _ Hsrv); simpl.
    split; [done |]. split; [done |]. by apply or_else_nonempty.
  - destruct (srv (outgoing w (UserCenterTabs.remove_call hotelId)))
      as [err|response] eqn:Hsrv.
    + by rewrite (removeFavorite_rejected _ _ _ _ _ Hsrv).
    + by rewrite (removeFavorite_accepted _ _ _ _ (ex_intro _ _ Hsrv)).
Qed.

(** The server refuses the removal of hotel 9. *)
Lemma handleRemoveFavorite_outcome_witness :
  UserCenterTabs.favorites
    (page (snd (UserCenterTabs.handleRemoveFavorite
                  [UserCenterTabs.mkFavoriteHotel 9 "Grand" "1 Main St" 200 0] 9
                  Samples.refusing
                  {| page := UserCenterTabs.mkState 1 false
                               [UserCenterTabs.mkFavoriteHotel 9 "Grand" "1 Main St" 200 0]
                               [] false (mkSnackbar false "" success)
                               (UserCenterTabs.initialValues None);
                     store := {| session := None; localStorage := ∅ |};
                     sent := []; navigations := [] |})))
  = [UserCenterTabs.mkFavoriteHotel 9 "Grand" "1 Main St" 200 0].
Proof.
  destruct (handleRemoveFavorite_outcome Samples.refusing
              {| page := UserCenterTabs.mkState 1 false
                           [UserCenterTabs.mkFavoriteHotel 9 "Grand" "1 Main St" 200 0]
                           [] false (mkSnackbar false "" success)
                           (UserCenterTabs.initialValues None);
                 store := {| session := None; localStorage := ∅ |};
                 sent := []; navigations := [] |} 9)
    as (_ & Hrefused & _).
  destruct (Hrefused _ eq_refl) as (Hsame & _). exact Hsame.
Defined.

Section ProfileForm.
Import UserCenterTabs.
Implicit Types (srv : Server Data) (w : World State) (v initial : Values).

Lemma profile_without_password initial v srv w :
  newPassword v = "" →
  onSubmit initial v srv w
  = (Fulfilled tt,
     {| page :=
          {| tabValue := tabValue (page w); openProfileDialog := false;
             favorites := favorites (page w); bookings := bookings (page w);
             loading := loading (page w);
             snackbar := {| open := true; message := "Profile updated successfully";
                            severity := success |};
             values := initial |};
        store := store w; sent := sent w; navigations := navigations w |}).
Proof.
  intros Hnew. unfold onSubmit. rewrite Hnew. reflexivity.
Qed.

Lemma profile_password_accepted initial v srv w :
  newPassword v ≠ "" →
  accepts srv (outgoing w (change_password_call v)) →
  onSubmit initial v srv w
  = (Fulfilled tt,
     {| page :=
          {| tabValue := tabValue (page w); openProfileDialog := false;
             favorites := favorites (page w); bookings := bookings (page w);
             loading := loading (page w);
             snackbar := {| open := true; message := "Password changed successfully";
                            severity := success |};
             values := initial |};
        store := store w;
        sent := sent w ++ [outgoing w (change_password_call v)];
        navigations := navigations w |}).
Proof.
  intros Hnew [response Hsrv]. unfold onSubmit.
  apply truthy_string_true in Hnew as ->.
  unfold setSnackbar, setOpenProfileDialog, setValues. handler_steps.
  by call_settles Hsrv.
Qed.

Lemma profile_password_rejected initial v srv w err :
  newPassword v ≠ "" →
  srv (outgoing w (change_password_call v)) = Rejected err →
  onSubmit initial v srv w
  = (Fulfilled tt,
     {| page :=
          {| tabValue := tabValue (page w);
             openProfileDialog := openProfileDialog (page w);
             favorites := favorites (page w); bookings := bookings (page w);
             loading := loading (page w);
             snackbar := {| open := true;
                            message := Js.or_else (response_message err) "Update failed";
                            severity := error |};
             values := values (page w) |};
        store := store w;
        sent := sent w ++ [outgoing w (change_password_call v)];
        navigations := navigations w |}).
Proof.
  intros Hnew Hsrv. unfold onSubmit.
  apply truthy_string_true in Hnew as ->.
  unfold setSnackbar, setOpenProfileDialog, setValues. handler_steps.
  by call_settles Hsrv.
Qed.

End ProfileForm.

(** X16.  Saving the profile form with the new-password field empty sends
    nothing to the server, whatever was typed in the other fields, the
    email included; yet the page reports "Profile updated successfully",
    closes the dialog and returns the form to its initial values. *)
Theorem profile_save_without_password_sends_nothing :
  ∀ (initial : UserCenterTabs.Values) (email current confirm : string)
    (srv : Server UserCenterTabs.Data) (w : World UserCenterTabs.State),
    let w' := snd (UserCenterTabs.onSubmit initial
                     (UserCenterTabs.mkValues email current "" confirm) srv w) in
    sent w' = sent w
    ∧ store w' = store w
    ∧ UserCenterTabs.snackbar (page w')
      = {| open := true; message := "Profile updated successfully"; severity := success |}
    ∧ UserCenterTabs.openProfileDialog (page w') = false
    ∧ UserCenterTabs.values (page w') = initial.
Proof.
  intros initial email current confirm srv w w'. subst w'.
  by rewrite profile_without_password.
Qed.

(** X17.  Saving the profile form with a new password sends one request,
    the password change, which carries the current and the new password
    only: neither the email nor the confirmation reaches the server.
    Accepted, the dialog closes and the form returns to its initial
    values; rejected, the dialog and the typed values stay as they were
    and an error notice with a non-empty text is shown. *)
Theorem profile_password_change_outcome :
  ∀ (initial v : UserCenterTabs.Values)
    (srv : Server UserCenterTabs.Data) (w : World UserCenterTabs.State),
    UserCenterTabs.newPassword v ≠ "" →
    let w' := snd (UserCenterTabs.onSubmit initial v srv w) in
    sent w' = sent w ++ [outgoing w (UserCenterTabs.change_password_call v)]
    ∧ data (UserCenterTabs.change_password_call v)
      = Some [("currentPassword", Str (UserCenterTabs.currentPassword v));
              ("newPassword", Str (UserCenterTabs.newPassword v))]
    ∧ (accepts srv (outgoing w (UserCenterTabs.change_password_call v)) →
       UserCenterTabs.openProfileDialog (page w') = false
       ∧ UserCenterTabs.values (page w') = initial
       ∧ UserCenterTabs.snackbar (page w')
         = {| open := true; message := "Password changed successfully";
              severity := success |})
    ∧ (∀ err, srv (outgoing w (UserCenterTabs.change_password_call v)) = Rejected err →
       UserCenterTabs.openProfileDialog (page w')
       = UserCenterTabs.openProfileDialog (page w)
       ∧ UserCenterTabs.values (page w') = UserCenterTabs.values (page w)
       ∧ severity (UserCenterTabs.snackbar (page w')) = error
       ∧ message (UserCenterTabs.snackbar (page w')) ≠ "").
Proof.
  intros initial v srv w Hnew w'. subst w'.
  destruct (srv (outgoing w (UserCenterTabs.change_password_call v)))
    as [err|response] eqn:Hsrv.
  - rewrite (profile_password_rejected _ _ _ _ _ Hnew Hsrv); simpl.
    split; [done |]. split; [done |]. split; [intros [? ?]; congruence |].
    intros ? _. repeat (split; [done |]). by apply or_else_nonempty.
  - rewrite (profile_password_accepted _ _ _ _ Hnew (ex_intro _ _ Hsrv)); simpl.
    split; [done |]. split; [done |]. split; [done |]. by intros ? [=].
Qed.

(** A wrong current password: the dialog stays open with what was typed. *)
Lemma profile_password_change_outcome_witness :
  UserCenterTabs.openProfileDialog
    (page (snd (UserCenterTabs.onSubmit
                  (UserCenterTabs.initialValues (Some (mkUser 1 "a@b.com" "user")))
                  (UserCenterTabs.mkValues "a@b.com" "old" "newpass" "newpass")
                  Samples.refusing
                  {| page := UserCenterTabs.mkState 0 true [] [] false
                               (mkSnackbar false "" success)
                               (UserCenterTabs.mkValues "a@b.com" "old" "newpass" "newpass");
                     store := {| session := Some (mkUser 1 "a@b.com" "user");
                                 localStorage := {["token" := "t1"]} |};
                     sent := []; navigations := [] |})))
  = true.
Proof.
  destruct (profile_password_change_outcome
              (UserCenterTabs.initialValues (Some (mkUser 1 "a@b.com" "user")))
              (UserCenterTabs.mkValues "a@b.com" "old" "newpass" "newpass")
              Samples.refusing
              {| page := UserCenterTabs.mkState 0 true [] [] false
                           (mkSnackbar false "" success)
                           (UserCenterTabs.mkValues "a@b.com" "old" "newpass" "newpass");
                 store := {| session := Some (mkUser 1 "a@b.com" "user");
                             localStorage := {["token" := "t1"]} |};
                 sent := []; navigations := [] |})
    as (_ & _ & _ & Hrejected); [discriminate |].
  destruct (Hrejected _ eq_refl) as (Hopen & _). exact Hopen.
Defined.

(** ** The hotel tab of the operator dashboard *)

Section HotelTab.
Import OperatorHotels.
Implicit Types (srv : Server Data) (w : World State).

Lemma operator_fetchHotels_settles srv w :
  fetchHotels srv w
  = (Fulfilled tt,
     {| page :=
          {| hotels := match srv (outgoing w hotels_call) with
                       | Fulfilled response => as_hotels (body response)
                       | Rejected _ => hotels (page w)
                       end;
             openDialog := openDialog (page w);
             editingHotel := editingHotel (page w);
             snackbar := snackbar (page w);
             values := values (page w) |};
        store := store w;
        sent := sent w ++ [outgoing w hotels_call];
        navigations := navigations w |}).
Proof.
  unfold fetchHotels, setHotels. handler_steps.
  destruct (srv (outgoing w hotels_call)) as [err|response] eqn:Hsrv.
  - call_settles Hsrv. unfold logged. by destruct w as [[] ? ? ?].
  - by call_settles Hsrv.
Qed.

Lemma handleDeleteHotel_settles (hotelId : Z) srv w :
  handleDeleteHotel true hotelId srv w
  = (Fulfilled tt,
     match srv (outgoing w (delete_call hotelId)) with
     | Fulfilled _ =>
         {| page :=
              {| hotels := match srv (outgoing w hotels_call) with
                           | Fulfilled response => as_hotels (body response)
                           | Rejected _ => hotels (page w)
                           end;
                 openDialog := openDialog (page w);
                 editingHotel := editingHotel (page w);
                 snackbar := {| open := true; message := "Hotel deleted successfully";
                                severity := success |};
                 values := values (page w) |};
            store := store w;
            sent := sent w ++ [outgoing w (delete_call hotelId); outgoing w hotels_call];
            navigations := navigations w |}
     | Rejected err =>
         {| page :=
              {| hotels := hotels (page w);
                 openDialog := openDialog (page w);
                 editingHotel := editingHotel (page w);
                 snackbar := {| open := true;
                                message := Js.or_else (response_message err) "Delete failed";
                                severity := error |};
                 values := values (page w) |};
            store := store w;
            sent := sent w ++ [outgoing w (delete_call hotelId)];
            navigations := navigations w |}
     end).
Proof.
  unfold handleDeleteHotel. unfold try_catch at 1, bind at 1, delete.
  destruct (srv (outgoing w (delete_call hotelId))) as [err|response] eqn:Hsrv.
  - call_settles Hsrv. by unfold setSnackbar, set_state.
  - call_settles Hsrv. unfold bind, setSnackbar, set_state.
    rewrite operator_fetchHotels_settles. simpl. by rewrite <- app_assoc.
Qed.

End HotelTab.

(** X18.  Deleting a hotel needs the visitor's confirmation: declined,
    nothing is sent and nothing changes.  Confirmed, the deletion is
    sent; the local list is never edited by hand: when the server
    refuses, it is the list the page had and no refetch leaves; when the
    server accepts, the list is refetched and becomes the one received
    (or stays, if the refetch fails). *)
Theorem handleDeleteHotel_outcome :
  ∀ (hotelId : Z) (srv : Server OperatorHotels.Data) (w : World OperatorHotels.State),
    let w' := snd (OperatorHotels.handleDeleteHotel true hotelId srv w) in
    OperatorHotels.handleDeleteHotel false hotelId srv w = (Fulfilled tt, w)
    ∧ (∀ err, srv (outgoing w (OperatorHotels.delete_call hotelId)) = Rejected err →
       OperatorHotels.hotels (page w') = OperatorHotels.hotels (page w)
       ∧ sent w' = sent w ++ [outgoing w (OperatorHotels.delete_call hotelId)]
       ∧ severity (OperatorHotels.snackbar (page w')) = error)
    ∧ (accepts srv (outgoing w (OperatorHotels.delete_call hotelId)) →
       sent w' = sent w ++ [outgoing w (OperatorHotels.delete_call hotelId);
                            outgoing w OperatorHotels.hotels_call]
       ∧ OperatorHotels.hotels (page w')
         = match srv (outgoing w OperatorHotels.hotels_call) with
           | Fulfilled response => OperatorHotels.as_hotels (body response)
           | Rejected _ => OperatorHotels.hotels (page w)
           end
       ∧ severity (OperatorHotels.snackbar (page w')) = success).
Proof.
  intros hotelId srv w w'. subst w'. split; [done |].
  rewrite handleDeleteHotel_settles. split.
  - by intros err ->.
  - by intros [response ->].
Qed.

(** The server refuses to delete hotel 9: the list still has it. *)
Lemma handleDeleteHotel_outcome_witness :
  OperatorHotels.hotels
    (page (snd (OperatorHotels.handleDeleteHotel true 9 Samples.refusing
                  {| page := OperatorHotels.mkState
                               [OperatorDashboard.mkHotel 9 "Grand" "1 Main St" None 200 0 2]
                               false None (mkSnackbar false "" success)
                               OperatorHotels.initialValues;
                     store := {| session := Some (mkUser 2 "o@b.com" "operator");
                                 localStorage := {["token" := "t2"]} |};
                     sent := []; navigations := [] |})))
  = [OperatorDashboard.mkHotel 9 "Grand" "1 Main St" None 200 0 2].
Proof.
  destruct (handleDeleteHotel_outcome 9 Samples.refusing
              {| page := OperatorHotels.mkState
                           [OperatorDashboard.mkHotel 9 "Grand" "1 Main St" None 200 0 2]
                           false None (mkSnackbar false "" success)
                           OperatorHotels.initialValues;
                 store := {| session := Some (mkUser 2 "o@b.com" "operator");
                             localStorage := {["token" := "t2"]} |};
                 sent := []; navigations := [] |})
    as (_ & Hrefused & _).
  destruct (Hrefused _ eq_refl) as (Hsame & _). exact Hsame.
Defined.

Section HotelForm.
Import OperatorHotels.
Variable parseFloat parseInt : string → Value.
Implicit Types (srv : Server Data) (w : World State) (v : Values).

Lemma hotel_onSubmit_settles (editing : option OperatorDashboard.Hotel) v srv w :
  onSubmit parseFloat parseInt editing v srv w
  = (Fulfilled tt,
     match srv (outgoing w (save_call parseFloat parseInt editing v)) with
     | Fulfilled _ =>
         {| page :=
              {| hotels := match srv (outgoing w hotels_call) with
                           | Fulfilled response => as_hotels (body response)
                           | Rejected _ => hotels (page w)
                           end;
                 openDialog := false;
                 editingHotel := None;
                 snackbar := {| open := true;
                                message := match editing with
                                           | Some _ => "Hotel updated successfully"
                                           | None => "Hotel added successfully"
                                           end;
                                severity := success |};
                 values := initialValues |};
            store := store w;
            sent := sent w ++ [outgoing w (save_call parseFloat parseInt editing v);
                               outgoing w hotels_call];
            navigations := navigations w |}
     | Rejected err =>
         {| page :=
              {| hotels := hotels (page w);
                 openDialog := openDialog (page w);
                 editingHotel := editingHotel (page w);
                 snackbar := {| open := true;
                                message := Js.or_else (response_message err)
                                             "Operation failed";
                                severity := error |};
                 values := values (page w) |};
            store := store w;
            sent := sent w ++ [outgoing w (save_call parseFloat parseInt editing v)];
            navigations := navigations w |}
     end).
Proof.
  unfold onSubmit, save_call. unfold try_catch at 1, bind at 1.
  destruct editing as [h|]; unfold bind at 1, post;
    match goal with
    | |- context [request ?c srv w] =>
        destruct (srv (outgoing w c)) as [err|response] eqn:Hsrv
    end;
    call_settles Hsrv; try (by unfold setSnackbar, set_state);
    unfold bind, setSnackbar, set_state;
    rewrite operator_fetchHotels_settles; unfold handleCloseDialog, resetForm,
      setOpenDialog, setEditingHotel, setValues, bind, set_state; simpl;
    by rewrite <- app_assoc.
Qed.

Lemma handleOpenDialog_settles (hotel : option OperatorDashboard.Hotel) srv w :
  handleOpenDialog hotel srv w
  = (Fulfilled tt,
     {| page :=
          {| hotels := hotels (page w);
             openDialog := true;
             editingHotel := hotel;
             snackbar := snackbar (page w);
             values :=
               match hotel with
               | Some h =>
                   {| name := OperatorDashboard.name h;
                      address := OperatorDashboard.address h;
                      description := Js.or_else (OperatorDashboard.description h) "";
                      price := pretty (OperatorDashboard.price h);
                      availableRooms := pretty (OperatorDashboard.availableRooms h) |}
               | None => initialValues
               end |};
        store := store w; sent := sent w; navigations := navigations w |}).
Proof. by destruct hotel. Qed.

Lemma handleCloseDialog_settles srv w :
  handleCloseDialog srv w
  = (Fulfilled tt,
     {| page :=
          {| hotels := hotels (page w); openDialog := false; editingHotel := None;
             snackbar := snackbar (page w); values := initialValues |};
        store := store w; sent := sent w; navigations := navigations w |}).
Proof. reflexivity. Qed.

End HotelForm.

(** X19.  Saving the hotel form updates the hotel being edited (a PUT to
    its id) or, with none being edited, creates one (a POST).  When the
    server refuses, the dialog, the hotel being edited, the typed values
    and the list stay as they were, so the save can be tried again, and
    one request has left.  When it accepts, the list is refetched, the
    dialog closes, no hotel is being edited and the form is empty
    again. *)
Theorem hotel_form_save_outcome :
  ∀ (parseFloat parseInt : string → Value) (v : OperatorHotels.Values)
    (srv : Server OperatorHotels.Data) (w : World OperatorHotels.State),
    let call := OperatorHotels.save_call parseFloat parseInt
                  (OperatorHotels.editingHotel (page w)) v in
    let w' := snd (OperatorHotels.onSubmit parseFloat parseInt
                     (OperatorHotels.editingHotel (page w)) v srv w) in
    (∀ h, OperatorHotels.editingHotel (page w) = Some h →
       method call = PUT
       ∧ url call = "/hotels/" +:+ pretty (OperatorDashboard.hotel_id h))
    ∧ (OperatorHotels.editingHotel (page w) = None →
       method call = POST ∧ url call = "/hotels")
    ∧ (∀ err, srv (outgoing w call) = Rejected err →
       OperatorHotels.openDialog (page w') = OperatorHotels.openDialog (page w)
       ∧ OperatorHotels.editingHotel (page w') = OperatorHotels.editingHotel (page w)
       ∧ OperatorHotels.values (page w') = OperatorHotels.values (page w)
       ∧ OperatorHotels.hotels (page w') = OperatorHotels.hotels (page w)
       ∧ sent w' = sent w ++ [outgoing w call])
    ∧ (accepts srv (outgoing w call) →
       OperatorHotels.openDialog (page w') = false
       ∧ OperatorHotels.editingHotel (page w') = None
       ∧ OperatorHotels.values (page w') = OperatorHotels.initialValues
       ∧ sent w' = sent w ++ [outgoing w call; outgoing w OperatorHotels.hotels_call]
       ∧ OperatorHotels.hotels (page w')
         = match srv (outgoing w OperatorHotels.hotels_call) with
           | Fulfilled response => OperatorHotels.as_hotels (body response)
           | Rejected _ => OperatorHotels.hotels (page w)
           end).
Proof.
  intros parseFloat parseInt v srv w call w'. subst call w'.
  split; [by intros h -> |]. split; [by intros -> |].
  rewrite hotel_onSubmit_settles. split.
  - by intros err ->.
  - by intros [response ->].
Qed.

(** The server refuses the new hotel: the dialog stays open. *)
Lemma hotel_form_save_outcome_witness :
  OperatorHotels.openDialog
    (page (snd (OperatorHotels.onSubmit (λ _, Num 120) (λ _, Num 3) None
                  (OperatorHotels.mkValues "Inn" "3 Low St" "" "120" "3")
                  Samples.refusing
                  {| page := OperatorHotels.mkState [] true None
                               (mkSnackbar false "" success)
                               (OperatorHotels.mkValues "Inn" "3 Low St" "" "120" "3");
                     store := {| session := Some (mkUser 2 "o@b.com" "operator");
                                 localStorage := {["token" := "t2"]} |};
                     sent := []; navigations := [] |})))
  = true.
Proof.
  destruct (hotel_form_save_outcome (λ _, Num 120) (λ _, Num 3)
              (OperatorHotels.mkValues "Inn" "3 Low St" "" "120" "3")
              Samples.refusing
              {| page := OperatorHotels.mkState [] true None
                           (mkSnackbar false "" success)
                           (OperatorHotels.mkValues "Inn" "3 Low St" "" "120" "3");
                 store := {| session := Some (mkUser 2 "o@b.com" "operator");
                             localStorage := {["token" := "t2"]} |};
                 sent := []; navigations := [] |})
    as (_ & _ & Hrefused & _).
  destruct (Hrefused _ eq_refl) as (Hopen & _). exact Hopen.
Defined.

(** X20.  The hotel dialog never carries an edit over into an addition.
    Opening it for a hotel fills the form from that hotel (an absent
    description as the empty text) and a save then updates that hotel.
    Closing it, or opening it for an addition, leaves no hotel being
    edited and an empty form, whatever was open before, so a save then
    creates a hotel.  None of this sends a request. *)
Theorem hotel_dialog_resets :
  ∀ (parseFloat parseInt : string → Value) (h : OperatorDashboard.Hotel)
    (v : OperatorHotels.Values)
    (srv : Server OperatorHotels.Data) (w : World OperatorHotels.State),
    let edit := snd (OperatorHotels.handleOpenDialog (Some h) srv w) in
    let closed := snd (OperatorHotels.handleCloseDialog srv edit) in
    let add := snd (OperatorHotels.handleOpenDialog None srv edit) in
    (OperatorHotels.editingHotel (page edit) = Some h
     ∧ OperatorHotels.openDialog (page edit) = true
     ∧ OperatorHotels.name (OperatorHotels.values (page edit)) = OperatorDashboard.name h
     ∧ OperatorHotels.address (OperatorHotels.values (page edit))
       = OperatorDashboard.address h
     ∧ (OperatorDashboard.description h = None →
        OperatorHotels.description (OperatorHotels.values (page edit)) = "")
     ∧ method (OperatorHotels.save_call parseFloat parseInt
                 (OperatorHotels.editingHotel (page edit)) v) = PUT)
    ∧ (OperatorHotels.editingHotel (page closed) = None
       ∧ OperatorHotels.openDialog (page closed) = false
       ∧ OperatorHotels.values (page closed) = OperatorHotels.initialValues)
    ∧ (OperatorHotels.editingHotel (page add) = None
       ∧ OperatorHotels.openDialog (page add) = true
       ∧ OperatorHotels.values (page add) = OperatorHotels.initialValues
       ∧ method (OperatorHotels.save_call parseFloat parseInt
                   (OperatorHotels.editingHotel (page add)) v) = POST)
    ∧ sent edit = sent w ∧ sent closed = sent w ∧ sent add = sent w
    ∧ OperatorHotels.hotels (page closed) = OperatorHotels.hotels (page w).
Proof.
  intros parseFloat parseInt h v srv w edit closed add. subst edit closed add.
  rewrite handleCloseDialog_settles, !handleOpenDialog_settles; simpl.
  split; [| done]. repeat (split; [done |]). split; [by intros -> | done].
Qed.

(** ** The hotel detail page: loading, booking, and what is sent *)

Section DetailPage.
Import HotelDetail HotelDetailPage.
Implicit Types (srv : Server Data) (w : World State) (v : Values).

Lemma fetchHotel_settles (id : string) srv w :
  fetchHotel id srv w
  = (Fulfilled tt,
     {| page :=
          {| hotel := match srv (outgoing w (hotel_call id)) with
                      | Fulfilled response => as_hotel (body response)
                      | Rejected _ => hotel (page w)
                      end;
             loading := false;
             error := match srv (outgoing w (hotel_call id)) with
                      | Fulfilled _ => HotelDetail.error (page w)
                      | Rejected err =>
                          Js.or_else (response_message err) "Fail to get hotel data"
                      end;
             openBookingDialog := openBookingDialog (page w);
             snackbar := snackbar (page w);
             values := values (page w) |};
        store := store w;
        sent := sent w ++ [outgoing w (hotel_call id)];
        navigations := navigations w |}).
Proof.
  unfold fetchHotel, setLoading, setError, setHotel. handler_steps.
  destruct (srv (outgoing w (hotel_call id))) as [err|response] eqn:Hsrv;
    by call_settles Hsrv.
Qed.

Lemma render_not_loading (s : State) : loading s = false → render s ≠ LoadingView.
Proof.
  intros Hloading. unfold render. rewrite Hloading.
  by destruct (if Js.truthy_string (HotelDetail.error s) then None else hotel s).
Qed.

(** The booking form submitted: what happens by the outcome of the
    booking call and of the refetch that follows. *)
Lemma booking_rejected (id_param : option string) v srv w err :
  srv (outgoing w (booking_call (hotel (page w)) v)) = Rejected err →
  onSubmit id_param (hotel (page w)) v srv w
  = (Fulfilled tt,
     {| page :=
          {| hotel := hotel (page w); loading := loading (page w);
             error := HotelDetail.error (page w);
             openBookingDialog := openBookingDialog (page w);
             snackbar := {| open := true;
                            message := Js.or_else (response_message err) "Booking failed";
                            severity := Mui.error |};
             values := values (page w) |};
        store := store w;
        sent := sent w ++ [outgoing w (booking_call (hotel (page w)) v)];
        navigations := navigations w |}).
Proof.
  intros Hsrv. unfold onSubmit, setSnackbar. handler_steps.
  by call_settles Hsrv.
Qed.

Lemma booking_accepted (id : string) v srv w response :
  id ≠ "" →
  srv (outgoing w (booking_call (hotel (page w)) v)) = Fulfilled response →
  onSubmit (Some id) (hotel (page w)) v srv w
  = (Fulfilled tt,
     {| page :=
          {| hotel := match srv (outgoing w (hotel_call id)) with
                      | Fulfilled hotelResponse => as_hotel (body hotelResponse)
                      | Rejected _ => hotel (page w)
                      end;
             loading := loading (page w);
             error := HotelDetail.error (page w);
             openBookingDialog := false;
             snackbar :=
               match srv (outgoing w (hotel_call id)) with
               | Fulfilled _ =>
                   {| open := true;
                      message := Js.or_else (data_message (body response))
                                   "Booking successful, we will contact you soon";
                      severity := success |}
               | Rejected err =>
                   {| open := true;
                      message := Js.or_else (response_message err) "Booking failed";
                      severity := Mui.error |}
               end;
             values := initialValues |};
        store := store w;
        sent := sent w ++ [outgoing w (booking_call (hotel (page w)) v);
                           outgoing w (hotel_call id)];
        navigations := navigations w |}).
Proof.
  intros Hid Hsrv.
  unfold onSubmit, setSnackbar, setOpenBookingDialog, resetForm, setValues, setHotel.
  simpl. apply truthy_string_true in Hid as ->. handler_steps.
  call_settles Hsrv. simpl.
  destruct (srv (outgoing w (hotel_call id))) as [err|hotelResponse] eqn:Hget;
    call_settles Hget; simpl; by rewrite <- app_assoc.
Qed.

Lemma booking_sent (id_param : option string) v srv w :
  ∃ rest, sent (snd (onSubmit id_param (hotel (page w)) v srv w))
          = sent w ++ outgoing w (booking_call (hotel (page w)) v) :: rest.
Proof.
  destruct (srv (outgoing w (booking_call (hotel (page w)) v)))
    as [err|response] eqn:Hsrv.
  - exists []. by rewrite (booking_rejected _ _ _ _ _ Hsrv).
  - unfold onSubmit, setSnackbar, setOpenBookingDialog, resetForm, setValues, setHotel.
    handler_steps. call_settles Hsrv. simpl.
    destruct (Js.truthy id_param).
    + match goal with
      | |- context [request ?c srv ?w1] =>
          destruct (srv (outgoing w1 c)) as [err|hotelResponse] eqn:Hget
      end; call_settles Hget; simpl; rewrite <- app_assoc; by eexists.
    + by exists [].
Qed.

End DetailPage.

(** X21.  Loading the hotel of the detail page never leaves the page on
    "Loading...".  From a page without error, an answered load shows the
    hotel received and a failed load shows an alert with a non-empty text.
    But an error is never cleared: on a page that already shows an error,
    an answered load still ends on the alert with the old text.  The
    dialog flag is carried through a load unchanged.  Without a route
    parameter, or with an empty one, nothing is loaded at all. *)
Theorem fetchHotel_view :
  ∀ (id : string) (srv : Server HotelDetail.Data) (w : World HotelDetail.State),
    let w' := snd (HotelDetailPage.fetchHotel id srv w) in
    HotelDetailPage.render (page w') ≠ HotelDetailPage.LoadingView
    ∧ sent w' = sent w ++ [outgoing w (HotelDetailPage.hotel_call id)]
    ∧ HotelDetail.openBookingDialog (page w') = HotelDetail.openBookingDialog (page w)
    ∧ (∀ h, HotelDetail.error (page w) = "" →
         srv (outgoing w (HotelDetailPage.hotel_call id))
         = Fulfilled (mkResponse (HotelDetail.HotelData h)) →
         HotelDetailPage.render (page w')
         = HotelDetailPage.HotelView h (HotelDetail.openBookingDialog (page w)))
    ∧ (∀ err, srv (outgoing w (HotelDetailPage.hotel_call id)) = Rejected err →
         ∃ alert, HotelDetailPage.render (page w') = HotelDetailPage.ErrorView alert
                  ∧ alert ≠ "")
    ∧ (∀ response, HotelDetail.error (page w) ≠ "" →
         srv (outgoing w (HotelDetailPage.hotel_call id)) = Fulfilled response →
         HotelDetailPage.render (page w')
         = HotelDetailPage.ErrorView (HotelDetail.error (page w)))
    ∧ HotelDetailPage.on_id None srv w = (Fulfilled tt, w)
    ∧ HotelDetailPage.on_id (Some "") srv w = (Fulfilled tt, w).
Proof.
  intros id srv w w'. subst w'. rewrite fetchHotel_settles; simpl.
  split; [by apply render_not_loading |].
  unfold HotelDetailPage.render; simpl.
  split; [done |]. split; [done |]. split; [| split; [| split; [| done]]].
  - intros h Herror ->. by rewrite Herror.
  - intros err ->.
    assert (Hne := or_else_nonempty (response_message err) "Fail to get hotel data").
    apply truthy_string_true in Hne as Htruthy; [| done]. rewrite Htruthy.
    eexists. split; [reflexivity |]. by apply or_else_nonempty.
  - intros response Herror ->.
    apply truthy_string_true in Herror as Htruthy. by rewrite !Htruthy.
Qed.

(** A page that showed "Not found" loads another hotel successfully: the
    alert stays. *)
Lemma fetchHotel_view_witness :
  HotelDetailPage.render
    (page (snd (HotelDetailPage.fetchHotel "10"
                  (λ _, Fulfilled (mkResponse (HotelDetail.HotelData Samples.vacancy)))
                  {| page := HotelDetail.mkState None false "Not found" false
                               (mkSnackbar false "" success) HotelDetail.initialValues;
                     store := {| session := None; localStorage := ∅ |};
                     sent := []; navigations := [] |})))
  = HotelDetailPage.ErrorView "Not found".
Proof.
  destruct (fetchHotel_view "10"
              (λ _, Fulfilled (mkResponse (HotelDetail.HotelData Samples.vacancy)))
              {| page := HotelDetail.mkState None false "Not found" false
                           (mkSnackbar false "" success) HotelDetail.initialValues;
                 store := {| session := None; localStorage := ∅ |};
                 sent := []; navigations := [] |})
    as (_ & _ & _ & _ & _ & Hsticky & _).
  apply (Hsticky (mkResponse (HotelDetail.HotelData Samples.vacancy)));
    [discriminate | reflexivity].
Defined.

(** X22.  A booking that the server refuses leaves the dialog, the typed
    values and the hotel as they were and shows an error.  A booking that
    the server accepts closes the dialog, empties the form and refetches
    the hotel; if that refetch fails, the notice shown is the error of the
    refetch, although the booking itself was accepted, and the hotel shown
    is the one from before the booking. *)
Theorem booking_submit_outcome :
  ∀ (id : string) (v : HotelDetail.Values)
    (srv : Server HotelDetail.Data) (w : World HotelDetail.State),
    id ≠ "" →
    let call := HotelDetailPage.booking_call (HotelDetail.hotel (page w)) v in
    let w' := snd (HotelDetail.onSubmit (Some id) (HotelDetail.hotel (page w)) v srv w) in
    (∀ err, srv (outgoing w call) = Rejected err →
       HotelDetail.openBookingDialog (page w') = HotelDetail.openBookingDialog (page w)
       ∧ HotelDetail.values (page w') = HotelDetail.values (page w)
       ∧ HotelDetail.hotel (page w') = HotelDetail.hotel (page w)
       ∧ severity (HotelDetail.snackbar (page w')) = error
       ∧ sent w' = sent w ++ [outgoing w call])
    ∧ (accepts srv (outgoing w call) →
       HotelDetail.openBookingDialog (page w') = false
       ∧ HotelDetail.values (page w') = HotelDetail.initialValues
       ∧ sent w' = sent w ++ [outgoing w call; outgoing w (HotelDetailPage.hotel_call id)]
       ∧ (∀ hotelResponse,
            srv (outgoing w (HotelDetailPage.hotel_call id)) = Fulfilled hotelResponse →
            HotelDetail.hotel (page w') = HotelDetail.as_hotel (body hotelResponse)
            ∧ severity (HotelDetail.snackbar (page w')) = success)
       ∧ (∀ err, srv (outgoing w (HotelDetailPage.hotel_call id)) = Rejected err →
            HotelDetail.hotel (page w') = HotelDetail.hotel (page w)
            ∧ severity (HotelDetail.snackbar (page w')) = error
            ∧ message (HotelDetail.snackbar (page w'))
              = Js.or_else (response_message err) "Booking failed")).
Proof.
  intros id v srv w Hid call w'. subst call w'. split.
  - intros err Hsrv. by rewrite (booking_rejected _ _ _ _ _ Hsrv).
  - intros [response Hsrv]. rewrite (booking_accepted _ _ _ _ _ Hid Hsrv); simpl.
    split; [done |]. split; [done |]. split; [done |].
    split; [by intros ? -> | by intros ? ->].
Qed.

(** The booking is accepted and the refetch of hotel 10 fails: the page
    reports an error. *)
Lemma booking_submit_outcome_witness :
  severity
    (HotelDetail.snackbar
       (page (snd (HotelDetail.onSubmit (Some "10") (Some Samples.vacancy)
                     HotelDetail.initialValues
                     (λ config, match method config with
                                | POST => Fulfilled (mkResponse (HotelDetail.Ack None))
                                | _ => Samples.refusing config
                                end)
                     (Samples.detail_page Samples.vacancy)))))
  = error.
Proof.
  destruct (booking_submit_outcome "10" HotelDetail.initialValues
              (λ config, match method config with
                         | POST => Fulfilled (mkResponse (HotelDetail.Ack None))
                         | _ => Samples.refusing config
                         end)
              (Samples.detail_page Samples.vacancy))
    as (_ & Haccepted); [discriminate |].
  destruct Haccepted as (_ & _ & _ & _ & Hrefetch); [by eexists |].
  destruct (Hrefetch _ eq_refl) as (_ & Herror & _). exact Herror.
Defined.

(** X23.  On the hotel detail page a request leaves the client only when
    the booking form is submitted from the open dialog with values that
    pass validation; the first request is then the booking of the hotel
    shown with the values of the form.  No other event, and no submission
    of values that fail validation, sends anything. *)
Theorem detail_page_sends_only_valid_bookings :
  ∀ (id_param : option string) (valid : HotelDetail.Values → bool)
    (e : HotelDetail.Event)
    (srv : Server HotelDetail.Data) (w : World HotelDetail.State),
    sent (snd (HotelDetail.dispatch id_param valid e srv w)) ≠ sent w →
    e = HotelDetail.SubmitForm
    ∧ HotelDetail.loading (page w) = false
    ∧ HotelDetail.openBookingDialog (page w) = true
    ∧ valid (HotelDetail.values (page w)) = true
    ∧ is_Some (HotelDetail.hotel (page w))
    ∧ ∃ rest,
        sent (snd (HotelDetail.dispatch id_param valid e srv w))
        = sent w ++ outgoing w (HotelDetailPage.booking_call
                                  (HotelDetail.hotel (page w))
                                  (HotelDetail.values (page w))) :: rest.
Proof.
  intros id_param valid e srv w. unfold HotelDetail.dispatch.
  destruct (HotelDetail.loading (page w)); [done |].
  destruct (Js.truthy_string (HotelDetail.error (page w))).
  { by destruct e. }
  destruct (HotelDetail.hotel (page w)) as [h|] eqn:Hhotel; [| by destruct e].
  destruct e; simpl.
  - unfold HotelDetail.pressed.
    destruct (press (HotelDetail.book_button h)) as [[]|]; [| done | done].
    unfold HotelDetail.run. by destruct (session (store w)).
  - done.
  - by destruct (HotelDetail.openBookingDialog (page w)).
  - destruct (HotelDetail.openBookingDialog (page w)); [| done].
    destruct (valid (HotelDetail.values (page w))); [| done].
    intros _. split; [done |]. split; [done |]. split; [done |]. split; [done |].
    split; [by eexists |].
    rewrite <- Hhotel. apply booking_sent.
  - by destruct (HotelDetail.openBookingDialog (page w)).
  - done.
Qed.

(** A valid form submitted from the open dialog of the hotel with rooms:
    the dialog was open. *)
Lemma detail_page_sends_only_valid_bookings_witness :
  HotelDetail.openBookingDialog
    (HotelDetail.mkState (Some Samples.vacancy) false "" true
       (mkSnackbar false "" success) HotelDetail.initialValues)
  = true.
Proof.
  destruct (detail_page_sends_only_valid_bookings (Some "10") (λ _, true)
              HotelDetail.SubmitForm Samples.refusing
              {| page := HotelDetail.mkState (Some Samples.vacancy) false "" true
                           (mkSnackbar false "" success) HotelDetail.initialValues;
                 store := {| session := None; localStorage := ∅ |};
                 sent := []; navigations := [] |})
    as (_ & _ & Hopen & _); [vm_compute; discriminate | exact Hopen].
Defined.

(** X24.  The booking button reads "Book Now" exactly when the hotel has
    more than zero rooms and is disabled exactly when it has zero.  So for
    a room count that is not negative the button is enabled exactly when
    it reads "Book Now"; for a negative count it reads "No Rooms
    Available" and is enabled all the same, and a press on it reaches the
    booking handler. *)
Theorem book_button_label_and_state :
  ∀ h : HotelDetail.Hotel,
    (title (HotelDetail.book_button h) = "Book Now"
     ↔ (0 < HotelDetail.availableRooms h)%Z)
    ∧ (disabled (HotelDetail.book_button h) = true ↔ HotelDetail.availableRooms h = 0)
    ∧ ((0 ≤ HotelDetail.availableRooms h)%Z →
       (disabled (HotelDetail.book_button h) = false
        ↔ title (HotelDetail.book_button h) = "Book Now"))
    ∧ ((HotelDetail.availableRooms h < 0)%Z →
       title (HotelDetail.book_button h) = "No Rooms Available"
       ∧ press (HotelDetail.book_button h) = Some HotelDetail.HandleBooking).
Proof.
  intros h. unfold press, HotelDetail.book_button; simpl.
  assert (Hlabel : (if decide (0 < HotelDetail.availableRooms h)
                    then "Book Now" else "No Rooms Available") = "Book Now"
                   ↔ (0 < HotelDetail.availableRooms h)%Z).
  { destruct (decide (0 < HotelDetail.availableRooms h)); split; done. }
  split; [done |]. split; [apply bool_decide_eq_true |]. split.
  - intros Hrooms. rewrite Hlabel, bool_decide_eq_false. lia.
  - intros Hrooms. rewrite decide_False by lia.
    rewrite bool_decide_eq_false_2 by lia. done.
Qed.

(** A hotel reported with -1 rooms: the button can be pressed. *)
Lemma book_button_label_and_state_witness :
  press (HotelDetail.book_button
           (HotelDetail.mkHotel 11 "Lodge" "4 Hill Rd" None 90 (-1) 2))
  = Some HotelDetail.HandleBooking.
Proof.
  destruct (book_button_label_and_state
              (HotelDetail.mkHotel 11 "Lodge" "4 Hill Rd" None 90 (-1) 2))
    as (_ & _ & _ & Hnegative).
  destruct Hnegative as (_ & Hpress); [simpl; lia | exact Hpress].
Defined.

(** ** The status chip and the buttons of a booking card *)

Section Chips.
Import StatusChip.

Lemma chip_known (status : string) :
  (status = "pending" ∧ user_chip status = mkChip "warning.light" "warning.dark" "Pending")
  ∨ (status = "confirmed"
     ∧ user_chip status = mkChip "success.light" "success.dark" "Confirmed")
  ∨ (status = "cancelled" ∧ user_chip status = mkChip "error.light" "error.dark" "Cancelled")
  ∨ (status = "completed" ∧ user_chip status = mkChip "grey.300" "grey.700" "Completed")
  ∨ (status ≠ "pending" ∧ status ≠ "confirmed" ∧ status ≠ "cancelled"
     ∧ status ≠ "completed" ∧ user_chip status = mkChip "grey.300" "grey.700" status).
Proof.
  unfold user_chip.
  destruct (decide (status = "pending")) as [->|?]; [by left |].
  destruct (decide (status = "confirmed")) as [->|?]; [by right; left |].
  destruct (decide (status = "cancelled")) as [->|?]; [by right; right; left |].
  destruct (decide (status = "completed")) as [->|?]; [by right; right; right; left |].
  by right; right; right; right.
Qed.

End Chips.

(** X25.  The two booking lists draw the same chip for every status, and
    the chip agrees with the buttons beside it: a card offers an action
    only under the chip "Pending" (cancel for the user, confirm for the
    operator) or, for the operator's complete action, under the chip
    "Confirmed".  A status outside the four known ones is shown as it is,
    in grey, and gets no button. *)
Theorem status_chip_agrees_with_buttons :
  ∀ (booking : UserCenter.Booking) (obooking : OperatorDashboard.Booking)
    (h : UserCenter.Handler) (bookingId : Z) (status : string),
    StatusChip.user_chip status = StatusChip.operator_chip status
    ∧ (offers (UserCenter.booking_buttons booking) h →
       StatusChip.text (StatusChip.user_chip (UserCenter.status booking)) = "Pending")
    ∧ (offers (OperatorDashboard.booking_buttons obooking)
         (OperatorDashboard.HandleConfirmBooking bookingId) →
       StatusChip.text (StatusChip.operator_chip (OperatorDashboard.status obooking))
       = "Pending")
    ∧ (offers (OperatorDashboard.booking_buttons obooking)
         (OperatorDashboard.HandleCompleteBooking bookingId) →
       StatusChip.text (StatusChip.operator_chip (OperatorDashboard.status obooking))
       = "Confirmed")
    ∧ (status ≠ "pending" → status ≠ "confirmed" → status ≠ "cancelled" →
       status ≠ "completed" →
       StatusChip.user_chip status = StatusChip.mkChip "grey.300" "grey.700" status
       ∧ (UserCenter.status booking = status → UserCenter.booking_buttons booking = [])
       ∧ (OperatorDashboard.status obooking = status →
          OperatorDashboard.booking_buttons obooking = [])).
Proof.
  intros booking obooking h bookingId status. split; [done |].
  split; [| split; [| split]].
  - intros Hoffers. apply user_booking_offers in Hoffers as [_ ->]. done.
  - intros Hoffers. apply operator_booking_offers in Hoffers as [[_ ->]|[[=] _]]. done.
  - intros Hoffers. apply operator_booking_offers in Hoffers as [[[=] _]|[_ ->]]. done.
  - intros Hp Hc Hx Hd.
    destruct (chip_known status) as [[? _]|[[? _]|[[? _]|[[? _]|(_ & _ & _ & _ & ->)]]]];
      try done.
    split; [done |]. split.
    + intros Hs. unfold UserCenter.booking_buttons. by rewrite Hs, decide_False.
    + intros Hs. unfold OperatorDashboard.booking_buttons.
      by rewrite Hs, !decide_False.
Qed.

(** The status "refunded" is shown as it is, in grey. *)
Lemma status_chip_agrees_with_buttons_witness :
  StatusChip.user_chip "refunded" = StatusChip.mkChip "grey.300" "grey.700" "refunded".
Proof.
  destruct (status_chip_agrees_with_buttons Samples.pending5
              (OperatorDashboard.mkBooking 6 "Plaza" "2 High St" "a@b.com" "2025-08-01"
                 "2025-08-02" 1 150 "completed" None "2025-06-02")
              (UserCenter.HandleCancelBooking 5) 6 "refunded")
    as (_ & _ & _ & _ & Hunknown).
  destruct Hunknown as (Hchip & _); [discriminate.. | exact Hchip].
Defined.

(** ** The booking dialog while calls are in flight *)

Section InFlightCalls.
Import HotelDetail HotelDetailPage HotelDetailAsync.
Variable id_param : option string.
Variable valid : Values → bool.
Implicit Types (srv : Server Data) (w : World State) (m : Machine) (e : Event).

Lemma onRequest_method (storage : gmap string string) (config : Config) :
  method (onRequest storage config) = method config.
Proof.
  unfold onRequest. destruct (getItem storage "token") as [t|]; [| done].
  by destruct (Js.truthy_string t).
Qed.

(** The handlers of every event but the submission make no call: they do
    the same against any server, and send nothing. *)
Lemma dispatch_unasked e srv w :
  e ≠ SubmitForm →
  dispatch id_param valid e srv w = dispatch id_param valid e unasked w
  ∧ sent (snd (dispatch id_param valid e srv w)) = sent w.
Proof.
  intros He. unfold dispatch.
  destruct (loading (page w)); [done |].
  destruct (if Js.truthy_string (HotelDetail.error (page w)) then None
            else hotel (page w)) as [h|].
  - destruct e; try done.
    + unfold pressed. destruct (press (book_button h)) as [[]|]; try done.
      unfold HotelDetail.run. by destruct (session (store w)).
    + by destruct (openBookingDialog (page w)).
    + by destruct (openBookingDialog (page w)).
  - by destruct e.
Qed.

Lemma dispatch_submit srv w :
  dispatch id_param valid SubmitForm srv w
  = if submits valid (page w)
    then onSubmit id_param (hotel (page w)) (values (page w)) srv w
    else (Fulfilled tt, w).
Proof.
  unfold dispatch, submits.
  destruct (loading (page w)); [done |].
  destruct (if Js.truthy_string (HotelDetail.error (page w)) then None
            else hotel (page w)); [| done].
  destruct (openBookingDialog (page w)); [| done].
  by destruct (valid (values (page w))).
Qed.

(** A submission that nothing overtakes is [onSubmit] run in one piece:
    the booking call settles as the server answers it, then the refetch
    does. *)
Lemma uninterrupted_submit srv w :
  world (run id_param valid
           [Visitor SubmitForm;
            Settles 0 (srv (outgoing w (booking_call (hotel (page w)) (values (page w)))));
            Settles 0 (srv (outgoing w (hotel_call (default "" id_param))))]
           {| world := w; inflight := [] |})
  = snd (dispatch id_param valid SubmitForm srv w).
Proof.
  rewrite dispatch_submit. simpl. unfold visitor; simpl.
  destruct (submits valid (page w)); [| done]. simpl.
  unfold onSubmit, HotelDetail.setSnackbar, setOpenBookingDialog, resetForm,
    HotelDetail.setValues, setHotel.
  handler_steps.
  destruct (srv (outgoing w (booking_call (hotel (page w)) (values (page w)))))
    as [err|response] eqn:Hbooking; call_settles Hbooking; simpl;
    [reflexivity |].
  destruct (Js.truthy id_param) eqn:Hid; simpl; [| reflexivity].
  destruct (srv (outgoing w (hotel_call (default "" id_param))))
    as [err|hotelResponse] eqn:Hrefetch; call_settles Hrefetch; reflexivity.
Qed.

(** A step after which the dialog is as closed as before. *)
Local Ltac stays_closed :=
  let Hopen := fresh in
  intros Hopen; unfold pressed, press in Hopen; simpl in Hopen; congruence.

(** A load of the hotel that nothing overtakes is [fetchHotel] run in one
    piece. *)
Lemma uninterrupted_load (id : string) srv w :
  world (step id_param valid (Settles 0 (srv (outgoing w (hotel_call id))))
           {| world := loading_started id w; inflight := [AwaitHotel] |})
  = snd (fetchHotel id srv w).
Proof.
  rewrite fetchHotel_settles. simpl.
  by destruct (srv (outgoing w (hotel_call id))).
Qed.

(** So is the effect on [id]: with a route parameter the load settles as
    the server answers it, without one nothing is in flight. *)
Lemma uninterrupted_effect srv w :
  world (match id_param with
         | Some id =>
             step id_param valid (Settles 0 (srv (outgoing w (hotel_call id)))) (effect id_param w)
         | None => effect id_param w
         end)
  = snd (on_id id_param srv w).
Proof.
  unfold effect, on_id. destruct id_param as [id|]; [| done].
  destruct (Js.truthy_string id); [| done].
  apply uninterrupted_load.
Qed.

(** The dialog opens in one way only. *)
Lemma dialog_opens_by_press (st : Step) m :
  openBookingDialog (page (world m)) = false →
  openBookingDialog (page (world (step id_param valid st m))) = true →
  st = Visitor PressBook
  ∧ ∃ h, hotel (page (world m)) = Some h ∧ availableRooms h ≠ 0
         ∧ is_Some (session (store (world m))).
Proof.
  intros Hclosed. destruct st as [e|n outcome]; simpl.
  - unfold visitor.
    destruct e; simpl;
      try (unfold dispatch;
           destruct (loading (page (world m))); [stays_closed |];
           destruct (Js.truthy_string (HotelDetail.error (page (world m))));
             [stays_closed |];
           destruct (hotel (page (world m))) as [h|]; [| stays_closed]).
    + unfold pressed, press, book_button; simpl.
      destruct (decide (availableRooms h = 0)) as [Hrooms|Hrooms].
      * rewrite bool_decide_eq_true_2 by done. stays_closed.
      * rewrite bool_decide_eq_false_2 by done. unfold HotelDetail.run.
        destruct (session (store (world m))) as [u|] eqn:Hsession; [| stays_closed].
        intros _. split; [done |]. exists h.
        split; [done |]. split; [done |]. by eexists.
    + stays_closed.
    + rewrite Hclosed. stays_closed.
    + destruct (submits valid (page (world m))); stays_closed.
    + rewrite Hclosed. stays_closed.
    + stays_closed.
  - destruct (inflight m !! n) as [call|]; [| stays_closed].
    destruct call as [idp| |], outcome as [err|response]; simpl; try stays_closed.
    destruct (Js.truthy idp); stays_closed.
Qed.

Lemma submission_or_not e : e = SubmitForm ∨ e ≠ SubmitForm.
Proof. destruct e; (by left) || (by right). Qed.

(** What a step sends: nothing, the booking of the form, or a refetch. *)
Lemma step_sends (st : Step) m :
  sent (world (step id_param valid st m)) = sent (world m)
  ∨ (st = Visitor SubmitForm ∧ submits valid (page (world m)) = true
     ∧ sent (world (step id_param valid st m))
       = sent (world m)
         ++ [outgoing (world m)
               (booking_call (hotel (page (world m))) (values (page (world m))))])
  ∨ (∃ id, sent (world (step id_param valid st m))
           = sent (world m) ++ [outgoing (world m) (hotel_call id)]).
Proof.
  destruct st as [e|n outcome]; simpl.
  - destruct (submission_or_not e) as [->|He].
    + unfold visitor. destruct (submits valid (page (world m))); [| by left].
      right; left. done.
    + left. unfold visitor.
      destruct (dispatch_unasked e unasked (world m) He) as [_ Hsent].
      by destruct e.
  - destruct (inflight m !! n) as [call|]; [| by left].
    destruct call as [idp| |], outcome as [err|response]; simpl; try (by left).
    destruct (Js.truthy idp); [| by left].
    right; right. by eexists.
Qed.

Lemma submits_open (s : State) :
  submits valid s = true → openBookingDialog s = true ∧ valid (values s) = true.
Proof.
  unfold submits. destruct (loading s); [done |].
  destruct (if Js.truthy_string (HotelDetail.error s) then None else hotel s);
    [| done].
  by destruct (openBookingDialog s).
Qed.

(** A page that shows a hotel without rooms, the dialog closed and no
    call in flight, stays as it is. *)
Lemma step_when_full (st : Step) m h :
  hotel (page (world m)) = Some h → availableRooms h = 0 →
  openBookingDialog (page (world m)) = false → inflight m = [] →
  hotel (page (world (step id_param valid st m))) = Some h
  ∧ openBookingDialog (page (world (step id_param valid st m))) = false
  ∧ sent (world (step id_param valid st m)) = sent (world m)
  ∧ inflight (step id_param valid st m) = [].
Proof.
  intros Hhotel Hrooms Hclosed Hnone. destruct st as [e|n outcome]; simpl.
  - destruct (submission_or_not e) as [->|He].
    + unfold visitor.
      destruct (submits valid (page (world m))) eqn:Hsubmits; [| done].
      apply submits_open in Hsubmits as [Hopen _]. congruence.
    + destruct (dispatch_keeps_closed id_param valid e unasked (world m) h
                  Hhotel Hrooms Hclosed) as (? & ? & ?).
      unfold visitor. by destruct e.
  - by rewrite Hnone.
Qed.

Lemma run_when_full (steps : list Step) m h :
  hotel (page (world m)) = Some h → availableRooms h = 0 →
  openBookingDialog (page (world m)) = false → inflight m = [] →
  hotel (page (world (run id_param valid steps m))) = Some h
  ∧ openBookingDialog (page (world (run id_param valid steps m))) = false
  ∧ sent (world (run id_param valid steps m)) = sent (world m)
  ∧ inflight (run id_param valid steps m) = [].
Proof.
  revert m. induction steps as [|st steps IH]; intros m Hhotel Hrooms Hclosed Hnone;
    [done |].
  destruct (step_when_full st m h Hhotel Hrooms Hclosed Hnone)
    as (Hhotel' & Hclosed' & Hsent' & Hnone').
  simpl. destruct (IH _ Hhotel' Hrooms Hclosed' Hnone') as (? & ? & Hsent & ?).
  by rewrite Hsent.
Qed.

End InFlightCalls.

(** C10, as the code has it.  On the hotel detail page the booking button
    of a hotel with [availableRooms] equal to 0 is disabled and a press on
    it reaches no handler.  The button is the only gate: the dialog opens
    only by a press on the button of a hotel whose [availableRooms] is not
    0, by a visitor with a session; and a booking request leaves only by
    submitting values that pass validation from the open dialog, whatever
    the [availableRooms] of the hotel then shown.  So from a page that
    shows a hotel with 0 rooms, the dialog closed and no call in flight,
    whatever the visitor does the dialog stays closed and no request
    leaves.  And the booking handler of a visitor without a session
    navigates to [/login] and does nothing else: the dialog is not opened
    and no request leaves; this is what a press on the enabled button
    does for such a visitor. *)
Theorem book_button_is_the_only_gate :
  ∀ (id_param : option string) (valid : HotelDetail.Values → bool)
    (h : HotelDetail.Hotel) (srv : Server HotelDetail.Data)
    (w : World HotelDetail.State) (m : HotelDetailAsync.Machine)
    (st : HotelDetailAsync.Step) (steps : list HotelDetailAsync.Step)
    (config : Config),
    (HotelDetail.availableRooms h = 0 →
     disabled (HotelDetail.book_button h) = true
     ∧ press (HotelDetail.book_button h) = None)
    ∧ (HotelDetail.openBookingDialog (page (HotelDetailAsync.world m)) = false →
       HotelDetail.openBookingDialog
         (page (HotelDetailAsync.world (HotelDetailAsync.step id_param valid st m))) = true →
       st = HotelDetailAsync.Visitor HotelDetail.PressBook
       ∧ ∃ shown,
           HotelDetail.hotel (page (HotelDetailAsync.world m)) = Some shown
           ∧ HotelDetail.availableRooms shown ≠ 0
           ∧ is_Some (session (store (HotelDetailAsync.world m))))
    ∧ (sent (HotelDetailAsync.world (HotelDetailAsync.step id_param valid st m))
       = sent (HotelDetailAsync.world m) ++ [config] →
       method config = POST →
       st = HotelDetailAsync.Visitor HotelDetail.SubmitForm
       ∧ HotelDetail.openBookingDialog (page (HotelDetailAsync.world m)) = true
       ∧ valid (HotelDetail.values (page (HotelDetailAsync.world m))) = true
       ∧ config
         = outgoing (HotelDetailAsync.world m)
             (HotelDetailPage.booking_call
                (HotelDetail.hotel (page (HotelDetailAsync.world m)))
                (HotelDetail.values (page (HotelDetailAsync.world m)))))
    ∧ (HotelDetail.hotel (page (HotelDetailAsync.world m)) = Some h →
       HotelDetail.availableRooms h = 0 →
       HotelDetail.openBookingDialog (page (HotelDetailAsync.world m)) = false →
       HotelDetailAsync.inflight m = [] →
       HotelDetail.openBookingDialog
         (page (HotelDetailAsync.world (HotelDetailAsync.run id_param valid steps m)))
       = false
       ∧ sent (HotelDetailAsync.world (HotelDetailAsync.run id_param valid steps m))
         = sent (HotelDetailAsync.world m)
       ∧ HotelDetail.hotel
           (page (HotelDetailAsync.world (HotelDetailAsync.run id_param valid steps m)))
         = Some h)
    ∧ (fst (HotelDetail.handleBooking None srv w) = Fulfilled tt
       ∧ navigations (snd (HotelDetail.handleBooking None srv w))
         = navigations w ++ ["/login"]
       ∧ page (snd (HotelDetail.handleBooking None srv w)) = page w
       ∧ sent (snd (HotelDetail.handleBooking None srv w)) = sent w
       ∧ store (snd (HotelDetail.handleBooking None srv w)) = store w)
    ∧ (HotelDetail.loading (page w) = false → HotelDetail.error (page w) = "" →
       HotelDetail.hotel (page w) = Some h → HotelDetail.availableRooms h ≠ 0 →
       session (store w) = None →
       HotelDetail.dispatch id_param valid HotelDetail.PressBook srv w
       = HotelDetail.handleBooking None srv w).
Proof.
  intros id_param valid h srv w m st steps config.
  split; [apply book_button_full |].
  split; [apply dialog_opens_by_press |].
  split; [| split; [| split]].
  - intros Hsent Hmethod.
    destruct (step_sends id_param valid st m) as [Hnone|[(-> & Hsubmits & Hone)|[id Hone]]].
    + rewrite Hnone in Hsent. rewrite <- (app_nil_r (sent _)) in Hsent at 1.
      by apply app_inv_head in Hsent.
    + rewrite Hone in Hsent. apply app_inv_head in Hsent as [= <-].
      apply submits_open in Hsubmits as [? ?]. done.
    + rewrite Hone in Hsent. apply app_inv_head in Hsent as [= <-].
      unfold outgoing in Hmethod. rewrite onRequest_method in Hmethod.
      discriminate Hmethod.
  - intros Hhotel Hrooms Hclosed Hnone.
    by destruct (run_when_full id_param valid steps m h Hhotel Hrooms Hclosed Hnone)
      as (? & ? & ? & _).
  - by rewrite handleBooking_guest.
  - apply press_book_guest.
Qed.

(** A visitor without a session on the page of the full hotel presses the
    button, tries to submit and presses again, and a stray answer arrives:
    nothing was sent.  On the page of the hotel with rooms the press leads
    to [/login]. *)
Lemma book_button_is_the_only_gate_witness :
  sent (HotelDetailAsync.world
          (HotelDetailAsync.run (Some "9") (λ _, true)
             [HotelDetailAsync.Visitor HotelDetail.PressBook;
              HotelDetailAsync.Visitor HotelDetail.SubmitForm;
              HotelDetailAsync.Settles 0 (Fulfilled (mkResponse (HotelDetail.Ack None)));
              HotelDetailAsync.Visitor HotelDetail.PressBook]
             {| HotelDetailAsync.world := Samples.detail_page Samples.full_house;
                HotelDetailAsync.inflight := [] |}))
  = []
  ∧ navigations
      (snd (HotelDetail.dispatch (Some "10") (λ _, true) HotelDetail.PressBook
              (λ _, Fulfilled (mkResponse (HotelDetail.Ack None)))
              (Samples.detail_page Samples.vacancy)))
    = ["/login"].
Proof.
  split.
  - destruct (book_button_is_the_only_gate (Some "9") (λ _, true) Samples.full_house
                (λ _, Fulfilled (mkResponse (HotelDetail.Ack None)))
                (Samples.detail_page Samples.full_house)
                {| HotelDetailAsync.world := Samples.detail_page Samples.full_house;
                   HotelDetailAsync.inflight := [] |}
                (HotelDetailAsync.Visitor HotelDetail.PressBook)
                [HotelDetailAsync.Visitor HotelDetail.PressBook;
                 HotelDetailAsync.Visitor HotelDetail.SubmitForm;
                 HotelDetailAsync.Settles 0 (Fulfilled (mkResponse (HotelDetail.Ack None)));
                 HotelDetailAsync.Visitor HotelDetail.PressBook]
                {| method := GET; url := "/"; headers := None; data := None |})
      as (_ & _ & _ & Hquiet & _).
    destruct Hquiet as (_ & Hsent & _);
      [reflexivity | reflexivity | reflexivity | reflexivity |].
    exact Hsent.
  - destruct (book_button_is_the_only_gate (Some "10") (λ _, true) Samples.vacancy
                (λ _, Fulfilled (mkResponse (HotelDetail.Ack None)))
                (Samples.detail_page Samples.vacancy)
                {| HotelDetailAsync.world := Samples.detail_page Samples.vacancy;
                   HotelDetailAsync.inflight := [] |}
                (HotelDetailAsync.Visitor HotelDetail.PressBook) []
                {| method := GET; url := "/"; headers := None; data := None |})
      as (_ & _ & _ & _ & (_ & Hnav & _) & Hpress).
    rewrite Hpress; [exact Hnav | reflexivity | reflexivity | reflexivity | | reflexivity].
    simpl. discriminate.
Defined.

(** C10 as stated fails.  A user books the last room of hotel 10; the
    dialog closes and the refetch of the hotel is in flight; the button
    still shows a hotel with a room, so a press opens the dialog again and
    the user fills the form; then the refetch arrives.  The page now shows
    hotel 10 with [availableRooms] 0, its button disabled, under an open
    dialog, and a submission sends a booking request for that hotel. *)
Lemma dialog_open_on_full_hotel_counterexample :
  HotelDetail.hotel
    (page (HotelDetailAsync.world
             (HotelDetailAsync.run (Some "10") Race.dates_given Race.overtaken Race.start)))
  = Some Race.sold_out
  ∧ HotelDetail.availableRooms Race.sold_out = 0
  ∧ disabled (HotelDetail.book_button Race.sold_out) = true
  ∧ HotelDetail.openBookingDialog
      (page (HotelDetailAsync.world
               (HotelDetailAsync.run (Some "10") Race.dates_given Race.overtaken
                  Race.start)))
    = true
  ∧ (λ config, (method config, url config, data config))
      <$> sent (HotelDetailAsync.world
                  (HotelDetailAsync.step (Some "10") Race.dates_given
                     (HotelDetailAsync.Visitor HotelDetail.SubmitForm)
                     (HotelDetailAsync.run (Some "10") Race.dates_given Race.overtaken
                        Race.start)))
    = [(POST, "/bookings",
        Some [("hotelId", Num 10); ("checkInDate", Str "2025-07-01");
              ("checkOutDate", Str "2025-07-03"); ("guestCount", Num 2);
              ("specialRequests", Str "")]);
       (GET, "/hotels/10", None);
       (POST, "/bookings",
        Some [("hotelId", Num 10); ("checkInDate", Str "2025-07-01");
              ("checkOutDate", Str "2025-07-03"); ("guestCount", Num 2);
              ("specialRequests", Str "")])].
Proof. vm_compute. repeat split. Qed.
